(** * scrap_table.py: fetch, normalise and persist the latest reported sismos

    A shallow embedding of [src/scrap_table.py].  Python strings are
    sequences of Unicode code points, dictionaries are insertion-ordered
    association lists living in a heap (they are shared and mutated in
    place), and every function that touches the outside world runs in a
    state-and-exception monad over a [World]. *)

From Stdlib Require Import ZArith String Ascii.
From stdpp Require Import base option list gmap.

Local Open Scope string_scope.
Local Open Scope list_scope.
Local Open Scope Z_scope.

(** ** Python strings *)

Abbreviation codepoint := N.
Abbreviation pystr := (list codepoint).

(** A string literal of the source, as code points. *)
Definition py (s : string) : pystr := map N_of_ascii (list_ascii_of_string s).

Definition LF : codepoint := 10%N.
Definition CR : codepoint := 13%N.

Module Str.

(** [str.isspace] on one character (CPython's [_PyUnicode_IsWhitespace]). *)
Definition isspace (c : codepoint) : bool :=
  ((9 <=? c) && (c <=? 13) || (28 <=? c) && (c <=? 32) || (c =? 133)
   || (c =? 160) || (c =? 5760) || (8192 <=? c) && (c <=? 8202)
   || (c =? 8232) || (c =? 8233) || (c =? 8239) || (c =? 8287)
   || (c =? 12288))%N.

(** Line boundaries of [str.splitlines] (CPython's [_PyUnicode_IsLinebreak]). *)
Definition islinebreak (c : codepoint) : bool :=
  ((10 <=? c) && (c <=? 13) || (28 <=? c) && (c <=? 30) || (c =? 133)
   || (c =? 8232) || (c =? 8233))%N.

Fixpoint lstrip (s : pystr) : pystr :=
  match s with
  | c :: s' => if isspace c then lstrip s' else s
  | [] => []
  end.

Definition rstrip (s : pystr) : pystr := rev (lstrip (rev s)).

(** [s.strip()] *)
Definition strip (s : pystr) : pystr := rstrip (lstrip s).

(** [s.splitlines()]: [cur] is the current line, reversed.  A carriage
    return followed by a line feed is one boundary; a trailing empty
    line is not reported. *)
Fixpoint splitlines_from (cur s : pystr) : list pystr :=
  match s with
  | [] => match cur with [] => [] | _ => [rev cur] end
  | c :: s' =>
      if islinebreak c then
        rev cur ::
          match s' with
          | d :: s'' =>
              if ((c =? 13) && (d =? 10))%N then splitlines_from [] s''
              else splitlines_from [] s'
          | [] => splitlines_from [] s'
          end
      else splitlines_from (c :: cur) s'
  end.

Definition splitlines (s : pystr) : list pystr := splitlines_from [] s.

(** [sep.join(parts)] *)
Fixpoint join (sep : pystr) (parts : list pystr) : pystr :=
  match parts with
  | [] => []
  | [p] => p
  | p :: rest => p ++ sep ++ join sep rest
  end.

(** Truth value of a string: non-empty. *)
Definition truthy (s : pystr) : bool :=
  match s with [] => false | _ => true end.

(** [re.findall(r"\S+", s)], the way bs4 splits a [class] attribute. *)
Fixpoint words_from (cur s : pystr) : list pystr :=
  match s with
  | [] => match cur with [] => [] | _ => [rev cur] end
  | c :: s' =>
      if isspace c then
        match cur with
        | [] => words_from [] s'
        | _ => rev cur :: words_from [] s'
        end
      else words_from (c :: cur) s'
  end.

Definition words (s : pystr) : list pystr := words_from [] s.

Definition eqb (a b : pystr) : bool := bool_decide (a = b).

(** Whether the UTF-8 codec encodes the character: it refuses the
    surrogates, U+D800 to U+DFFF. *)
Definition utf8_char (c : codepoint) : bool :=
  negb ((55296 <=? c) && (c <=? 57343))%N.

(** [s.encode("utf-8")] does not raise. *)
Definition encodable (s : pystr) : bool := forallb utf8_char s.

End Str.

(** ** The parsed document (bs4) *)

(** What [BeautifulSoup(text, "html.parser")] builds: a tree of elements
    and character data.  Attribute values are kept as written; an
    attribute appears once (the parser keeps the last duplicate). *)
#[warnings="-register-all"] Inductive Node : Type :=
  | Text (s : pystr)
  | Tag (name : pystr) (attrs : list (pystr * pystr)) (children : list Node).

Module Bs4.

Definition get_attr (k : pystr) (attrs : list (pystr * pystr)) : option pystr :=
  snd <$> find (fun kv => Str.eqb (fst kv) k) attrs.

(** All nodes below [n], in document order. *)
Fixpoint descendants (n : Node) : list Node :=
  match n with
  | Text _ => []
  | Tag _ _ kids => flat_map (fun k => k :: descendants k) kids
  end.

Definition is_tag (nm : pystr) (n : Node) : bool :=
  match n with
  | Tag name _ _ => Str.eqb name nm
  | Text _ => false
  end.

Definition has_attr (k : pystr) (n : Node) : bool :=
  match n with
  | Tag _ attrs _ => bool_decide (is_Some (get_attr k attrs))
  | Text _ => false
  end.

(** [row.find_all(nm)] *)
Definition find_all (nm : pystr) (n : Node) : list Node :=
  filter (fun d => is_tag nm d) (descendants n).

(** [row.find(nm, href=True)]: the first element below [n] called [nm]
    that carries attribute [k]. *)
Definition find_with_attr (nm k : pystr) (n : Node) : option Node :=
  find (fun d => is_tag nm d && has_attr k d) (descendants n).

(** [a[k]] for an element found with that attribute. *)
Definition attr_of (k : pystr) (n : Node) : pystr :=
  match n with
  | Tag _ attrs _ => default [] (get_attr k attrs)
  | Text _ => []
  end.

(** Character data below [n], in document order. *)
Fixpoint strings (n : Node) : list pystr :=
  match n with
  | Text s => [s]
  | Tag _ _ kids => flat_map strings kids
  end.

(** [n.get_text(strip=True)]: every string stripped, the empty ones
    left out, the rest concatenated. *)
Definition get_text_strip (n : Node) : pystr :=
  concat (filter (fun s => Str.truthy s) (map Str.strip (strings n))).

Definition has_class (c : pystr) (attrs : list (pystr * pystr)) : bool :=
  match get_attr (py "class") attrs with
  | Some v => bool_decide (c ∈ Str.words v)
  | None => false
  end.

(** [soup.select("table.table tbody tr")].  [in_table]: some proper
    ancestor is a [table] of class [table]; [in_tbody]: some proper
    ancestor is a [tbody] with such a [table] above it. *)
Fixpoint select_rows_in (in_table in_tbody : bool) (n : Node) : list Node :=
  match n with
  | Text _ => []
  | Tag name attrs kids =>
      let here := if in_tbody && Str.eqb name (py "tr") then [n] else [] in
      let in_tbody' := in_tbody || in_table && Str.eqb name (py "tbody") in
      let in_table' := in_table || Str.eqb name (py "table") && has_class (py "table") attrs in
      here ++ flat_map (select_rows_in in_table' in_tbody') kids
  end.

Definition select_rows (soup : Node) : list Node :=
  select_rows_in false false soup.

End Bs4.

(** ** Values, dictionaries and exceptions *)

(** The values a record holds: a string or [None]. *)
Inductive Value : Type :=
  | VNone
  | VStr (s : pystr).

(** A [dict]: keys in insertion order, each key once. *)
Abbreviation Dict := (list (pystr * Value)).

Module PyDict.

Definition keys (d : Dict) : list pystr := map fst d.

Definition values (d : Dict) : list Value := map snd d.

(** [d.get(k)] *)
Definition get (k : pystr) (d : Dict) : option Value :=
  snd <$> find (fun kv => Str.eqb (fst kv) k) d.

(** [k in d] *)
Definition contains (k : pystr) (d : Dict) : bool :=
  bool_decide (k ∈ keys d).

(** [d[k] = v]: an existing key keeps its place, a new one goes last. *)
Fixpoint setitem (k : pystr) (v : Value) (d : Dict) : Dict :=
  match d with
  | [] => [(k, v)]
  | (k', v') :: d' =>
      if Str.eqb k' k then (k', v) :: d' else (k', v') :: setitem k v d'
  end.

End PyDict.

(** The subclasses of [Exception] the program can meet. *)
Inductive exn : Type :=
  | HTTPError (status : Z)           (* requests: raise_for_status *)
  | RequestException (what : pystr)  (* requests: ConnectionError, Timeout, ... *)
  | ClientError (code : pystr)       (* botocore: error response of the service *)
  | BotoCoreError (what : pystr)     (* botocore: EndpointConnectionError, NoRegionError, ... *)
  | ValueError (what : pystr)
  | OSError (what : pystr)
  | ParserRejectedMarkup (what : pystr)  (* bs4: the parser gave up on the markup *)
  | UnicodeEncodeError (encoding : pystr).
                                     (* the codec of a text file refused a character *)

(** [except Exception] *)
Definition is_Exception (e : exn) : bool := true.

(** [except ClientError]: [ClientError] derives from [Exception]
    directly, and none of the other classes derives from it. *)
Definition is_ClientError (e : exn) : bool :=
  match e with
  | ClientError _ => true
  | _ => false
  end.

(** ** The world *)

Record Response : Type := mkResponse {
  status_code : Z;
  text : pystr                      (* resp.text *)
}.

(** Addresses of dictionaries in the heap. *)
Abbreviation loc := nat.

(** How the surroundings behave during one run. *)
Record Env : Type := mkEnv {
  env_environ : pystr -> option pystr;      (* os.environ *)
  env_http_get : pystr -> exn + Response;   (* requests.get(url, timeout=10) *)
  env_open_w : pystr -> option exn;         (* what open(path, "w") raises, if anything *)
  env_boto_resource : option exn;           (* what boto3.resource / Table raises, if anything *)
  env_batch_write_item : nat -> pystr -> list Dict -> option exn;
                                            (* what the n-th batch_write_item call raises *)
  env_uuid4 : nat -> pystr                  (* the n-th str(uuid4()) *)
}.

Inductive LogEntry : Type :=
  | InfoFetching (url : pystr)
  | ExcDownload (e : exn)
  | InfoRowsFound (n : nat)
  | ExcRow (i : nat) (e : exn)
  | InfoCsvEmpty
  | InfoCsvSaved (n : nat) (path : pystr)
  | InfoDdbEmpty
  | InfoDdbSaved (n : nat) (table : pystr)
  | ExcDdb (e : exn).

(** Ghost record of the sink invocations. *)
Inductive SinkCall : Type :=
  | CallCsv (items : list loc) (path : pystr)
  | CallDdb (items : list loc) (table : pystr).

(** A file written through [csv.writer]: its rows, cell by cell. *)
Abbreviation CsvFile := (list (list pystr)).

Record World : Type := mkWorld {
  w_env : Env;
  w_heap : list Dict;                       (* the dictionaries, by address *)
  w_files : gmap pystr CsvFile;
  w_log : list LogEntry;
  w_calls : list SinkCall;
  w_uuids : nat;                            (* identifiers drawn so far *)
  w_batch : list loc;                       (* BatchWriter._items_buffer *)
  w_ddb : list (pystr * list Dict);         (* batches the remote table accepted *)
  w_ddb_calls : nat                         (* batch_write_item calls so far *)
}.

Definition set_heap (h : list Dict) (w : World) : World :=
  mkWorld (w_env w) h (w_files w) (w_log w) (w_calls w) (w_uuids w)
          (w_batch w) (w_ddb w) (w_ddb_calls w).
Definition set_files (f : gmap pystr CsvFile) (w : World) : World :=
  mkWorld (w_env w) (w_heap w) f (w_log w) (w_calls w) (w_uuids w)
          (w_batch w) (w_ddb w) (w_ddb_calls w).
Definition add_log (e : LogEntry) (w : World) : World :=
  mkWorld (w_env w) (w_heap w) (w_files w) (w_log w ++ [e]) (w_calls w) (w_uuids w)
          (w_batch w) (w_ddb w) (w_ddb_calls w).
Definition add_call (c : SinkCall) (w : World) : World :=
  mkWorld (w_env w) (w_heap w) (w_files w) (w_log w) (w_calls w ++ [c]) (w_uuids w)
          (w_batch w) (w_ddb w) (w_ddb_calls w).
Definition next_uuid (w : World) : World :=
  mkWorld (w_env w) (w_heap w) (w_files w) (w_log w) (w_calls w) (S (w_uuids w))
          (w_batch w) (w_ddb w) (w_ddb_calls w).
Definition set_batch (b : list loc) (w : World) : World :=
  mkWorld (w_env w) (w_heap w) (w_files w) (w_log w) (w_calls w) (w_uuids w)
          b (w_ddb w) (w_ddb_calls w).
Definition ddb_called (accepted : list (pystr * list Dict)) (w : World) : World :=
  mkWorld (w_env w) (w_heap w) (w_files w) (w_log w) (w_calls w) (w_uuids w)
          (w_batch w) (w_ddb w ++ accepted) (S (w_ddb_calls w)).

(** ** State and exceptions *)

Inductive Res (A : Type) : Type :=
  | Ok (a : A)
  | Raise (e : exn).
Arguments Ok {A} a.
Arguments Raise {A} e.

Definition M (A : Type) : Type := World -> Res A * World.

#[global] Instance M_ret : MRet M := fun A a w => (Ok a, w).

#[global] Instance M_bind : MBind M := fun A B f m w =>
  match m w with
  | (Ok a, w') => f a w'
  | (Raise e, w') => (Raise e, w')
  end.

Definition raise {A} (e : exn) : M A := fun w => (Raise e, w).

(** A library call that returns or raises. *)
Definition lift {A} (r : exn + A) : M A :=
  match r with
  | inl e => raise e
  | inr a => mret a
  end.

(** [try: m / except C as e: h e], where [catches] decides [isinstance(e, C)]. *)
Definition try_except {A} (catches : exn -> bool) (m : M A) (h : exn -> M A) : M A :=
  fun w =>
    match m w with
    | (Raise e, w') => if catches e then h e w' else (Raise e, w')
    | r => r
    end.

Definition gets {A} (f : World -> A) : M A := fun w => (Ok (f w), w).
Definition modify (f : World -> World) : M unit := fun w => (Ok tt, f w).

(** [logger.info] and [logger.exception] *)
Definition logger (e : LogEntry) : M unit := modify (add_log e).

(** [for x in l: body x] *)
Fixpoint for_each {A} (body : A -> M unit) (l : list A) : M unit :=
  match l with
  | [] => mret tt
  | x :: rest => body x ;; for_each body rest
  end.

(** The dictionary at address [l]. *)
Definition deref (l : loc) : M Dict := gets (fun w => default [] (w_heap w !! l)).

(** A new dictionary object. *)
Definition alloc (d : Dict) : M loc :=
  fun w => (Ok (length (w_heap w)), set_heap (w_heap w ++ [d]) w).

(** [obj[k] = v] on the dictionary at address [l]. *)
Definition store_item (l : loc) (k : pystr) (v : Value) : M unit :=
  modify (fun w => set_heap (alter (PyDict.setitem k v) l (w_heap w)) w).

(** [l[:n]] *)
Definition slice_to {A} (n : Z) (l : list A) : list A :=
  if 0 <=? n then take (Z.to_nat n) l
  else take (length l - Z.to_nat (- n))%nat l.

(** ** The tabular sink *)

Module Csv.

(** [open(path, "w", ...)]: raises, or leaves the file empty. *)
Definition open_w (path : pystr) : M unit :=
  fun w =>
    match env_open_w (w_env w) path with
    | Some e => (Raise e, w)
    | None => (Ok tt, set_files (<[path := []]> (w_files w)) w)
    end.

(** One more row in the file, which was opened with [encoding="utf-8"]:
    the line is encoded when it is written, and a row with a character
    the codec refuses raises [UnicodeEncodeError], nothing of the row
    being written. *)
Definition emit (path : pystr) (row : list pystr) : M unit :=
  if forallb Str.encodable row
  then modify (fun w =>
         set_files (<[path := default [] (w_files w !! path) ++ [row]]> (w_files w)) w)
  else raise (UnicodeEncodeError (py "utf-8")).

(** How [csv.writer] prints a cell: [None] as the empty string. *)
Definition cell (v : Value) : pystr :=
  match v with
  | VNone => []
  | VStr s => s
  end.

(** [DictWriter._dict_to_list] with the default [extrasaction="raise"]
    and [restval=""]. *)
Definition dict_to_list (fieldnames : list pystr) (rowdict : Dict) : exn + list Value :=
  if forallb (fun k => bool_decide (k ∈ fieldnames)) (PyDict.keys rowdict)
  then inr (map (fun k => default (VStr []) (PyDict.get k rowdict)) fieldnames)
  else inl (ValueError (py "dict contains fields not in fieldnames")).

(** [writer.writeheader()] *)
Definition writeheader (path : pystr) (fieldnames : list pystr) : M unit :=
  emit path fieldnames.

(** [writer.writerow(rowdict)] *)
Definition writerow (path : pystr) (fieldnames : list pystr) (rowdict : Dict) : M unit :=
  row ← lift (dict_to_list fieldnames rowdict);
  emit path (map cell row).

End Csv.

Definition save_to_csv (items : list loc) (path : pystr) : M unit :=
  modify (add_call (CallCsv items path)) ;;
  match items with
  | [] => logger InfoCsvEmpty
  | first :: _ =>
      d0 ← deref first;
      let keys := PyDict.keys d0 in
      Csv.open_w path ;;
      Csv.writeheader path keys ;;
      for_each (fun it => d ← deref it; Csv.writerow path keys d) items ;;
      logger (InfoCsvSaved (length items) path)
  end.

(** ** The keyed-store sink *)

Module Boto.

Definition flush_amount : nat := 25.

(** [BatchWriter._flush]: the first [flush_amount] buffered items leave
    the buffer and go out in one [batch_write_item] call.  The service
    is taken to leave no item unprocessed when the call returns. *)
Definition flush (table_name : pystr) : M unit :=
  fun w =>
    let to_send := take flush_amount (w_batch w) in
    let batch := map (fun l => default [] (w_heap w !! l)) to_send in
    let w1 := set_batch (drop flush_amount (w_batch w)) w in
    match env_batch_write_item (w_env w) (w_ddb_calls w) table_name batch with
    | Some e => (Raise e, ddb_called [] w1)
    | None => (Ok tt, ddb_called [(table_name, batch)] w1)
    end.

(** [batch.put_item(Item=it)] *)
Definition put_item (table_name : pystr) (it : loc) : M unit :=
  modify (fun w => set_batch (w_batch w ++ [it]) w) ;;
  n ← gets (fun w => length (w_batch w));
  if bool_decide (flush_amount ≤ n)%nat then flush table_name else mret tt.

(** [BatchWriter.__exit__]: flush until the buffer is empty. *)
Fixpoint drain (fuel : nat) (table_name : pystr) : M unit :=
  match fuel with
  | O => mret tt
  | S fuel' =>
      n ← gets (fun w => length (w_batch w));
      if bool_decide (n = 0)%nat then mret tt
      else flush table_name ;; drain fuel' table_name
  end.

Definition exit (table_name : pystr) : M unit :=
  n ← gets (fun w => length (w_batch w));
  drain n table_name.

(** The body of a [with] block on a batch writer: [__exit__] runs
    whether the body returns or raises, and an exception of the body
    goes on after it. *)
Definition then_exit (table_name : pystr) (body : M unit) : M unit :=
  fun w =>
    match body w with
    | (Ok _, w1) => exit table_name w1
    | (Raise e, w1) =>
        match exit table_name w1 with
        | (Ok _, w2) => (Raise e, w2)
        | r => r
        end
    end.

(** [with table.batch_writer() as batch: body], on a new writer with an
    empty buffer. *)
Definition with_batch_writer (table_name : pystr) (body : M unit) : M unit :=
  modify (set_batch []) ;; then_exit table_name body.

(** [boto3.resource("dynamodb")] and [dynamodb.Table(table_name)] *)
Definition resource_table : M unit :=
  fun w =>
    match env_boto_resource (w_env w) with
    | Some e => (Raise e, w)
    | None => (Ok tt, w)
    end.

End Boto.

(** [str(uuid4())] *)
Definition uuid4 : M pystr :=
  fun w => (Ok (env_uuid4 (w_env w) (w_uuids w)), next_uuid w).

(** The body of the loop over the items (lines 91 to 96). *)
Definition put_with_id (table_name : pystr) (it : loc) : M unit :=
  d ← deref it;
  (if negb (PyDict.contains (py "id") d)
   then u ← uuid4; store_item it (py "id") (VStr u)
   else mret tt) ;;
  Boto.put_item table_name it.

Definition save_to_dynamodb (items : list loc) (table_name : pystr) : M bool :=
  modify (add_call (CallDdb items table_name)) ;;
  match items with
  | [] => logger InfoDdbEmpty ;; mret true
  | _ =>
      Boto.resource_table ;;
      try_except is_ClientError
        (Boto.with_batch_writer table_name
           (for_each (put_with_id table_name) items) ;;
         logger (InfoDdbSaved (length items) table_name) ;;
         mret true)
        (fun e => logger (ExcDdb e) ;; mret false)
  end.

(** ** The fetch pipeline and the handler *)

Definition BASE_URL : pystr := py "https://ultimosismo.igp.gob.pe".

(** [requests.get(url, timeout=10)] *)
Definition requests_get (url : pystr) : M Response :=
  fun w =>
    match env_http_get (w_env w) url with
    | inl e => (Raise e, w)
    | inr resp => (Ok resp, w)
    end.

(** [resp.raise_for_status()]: client and server error statuses raise. *)
Definition raise_for_status (resp : Response) : M unit :=
  if (400 <=? status_code resp) && (status_code resp <? 600)
  then raise (HTTPError (status_code resp))
  else mret tt.

(** [tds[i].get_text(strip=True) if len(tds) > i else ""] *)
Definition td_text (tds : list Node) (i : nat) : pystr :=
  if bool_decide (i < length tds)%nat
  then from_option Bs4.get_text_strip [] (tds !! i)
  else [].

(** [" ".join([s.strip() for s in referencia.splitlines() if s.strip()])] *)
Definition squash_lines (referencia : pystr) : pystr :=
  Str.join (py " ")
    (map Str.strip
       (filter (fun s => Str.truthy (Str.strip s)) (Str.splitlines referencia))).

(** [os.environ.get(k)] and [os.environ.get(k, dflt)] *)
Definition environ_get (k : pystr) : M (option pystr) :=
  gets (fun w => env_environ (w_env w) k).
Definition environ_get_or (k dflt : pystr) : M pystr :=
  gets (fun w => default dflt (env_environ (w_env w) k)).

Section Program.

(** [BeautifulSoup(text, "html.parser")]: the document, or the exception
    the constructor raises ([ParserRejectedMarkup] on markup the parser
    gives up on). *)
Variable html_parser : pystr -> exn + Node.

(** [urljoin(base, url)]: the joined URL, or the exception it raises
    (a [ValueError] on a malformed authority). *)
Variable urljoin : pystr -> pystr -> exn + pystr.

(** [int(s)] *)
Variable py_int : pystr -> exn + Z.

(** Evaluated when the module is loaded, which fails if this call raises. *)
Definition TARGET_URL : pystr :=
  match urljoin BASE_URL (py "/ultimo-sismo/sismos-reportados") with
  | inr u => u
  | inl _ => []
  end.

(** [urljoin(BASE_URL, href) if href else None], for [href] a string or [None]. *)
Definition report_url (href : option pystr) : exn + option pystr :=
  match href with
  | Some h =>
      if Str.truthy h then
        match urljoin BASE_URL h with
        | inr u => inr (Some u)
        | inl e => inl e
        end
      else inr None
  | None => inr None
  end.

(** [a["href"] if a else None], for [a = row.find("a", href=True)]. *)
Definition row_href (row : Node) : option pystr :=
  Bs4.attr_of (py "href") <$> Bs4.find_with_attr (py "a") (py "href") row.

(** The dictionary built from one row (lines 41 to 57). *)
Definition row_item (row : Node) : exn + Dict :=
  let tds := Bs4.find_all (py "td") row in
  let referencia := td_text tds 0 in
  let fecha_hora := td_text tds 2 in
  let magnitud := td_text tds 3 in
  match report_url (row_href row) with
  | inl e => inl e
  | inr reporte_url =>
      let referencia := squash_lines referencia in
      inr [ (py "referencia", VStr referencia);
            (py "reporte_url", from_option VStr VNone reporte_url);
            (py "fecha_hora", VStr fecha_hora);
            (py "magnitud", VStr magnitud) ]
  end.

(** The loop over [enumerate(rows[:limit])], from index [i] on. *)
Fixpoint fetch_rows (i : nat) (rows : list Node) (results : list loc) : M (list loc) :=
  match rows with
  | [] => mret results
  | row :: rest =>
      results' ←
        try_except is_Exception
          (item ← lift (row_item row);
           l ← alloc item;
           mret (results ++ [l]))
          (fun e => logger (ExcRow i e) ;; mret results);
      fetch_rows (S i) rest results'
  end.

Definition fetch_latest_sismos (limit : Z) : M (list loc) :=
  logger (InfoFetching TARGET_URL) ;;
  got ←
    try_except is_Exception
      (resp ← requests_get TARGET_URL;
       raise_for_status resp ;;
       mret (Some resp))
      (fun e => logger (ExcDownload e) ;; mret None);
  match got with
  | None => mret []
  | Some resp =>
      soup ← lift (html_parser (text resp));
      let rows := Bs4.select_rows soup in
      logger (InfoRowsFound (length rows)) ;;
      fetch_rows 0 (slice_to limit rows) []
  end.

(** Lines 113 to 119 of [lambda_handler]: the keyed store when
    [DDB_TABLE] is set, the file otherwise or when the store reports
    failure. *)
Definition persist_items (items : list loc) : M unit :=
  table_name ← environ_get (py "DDB_TABLE");
  saved ←
    match table_name with
    | Some t => if Str.truthy t then save_to_dynamodb items t else mret false
    | None => mret false
    end;
  if negb (from_option Str.truthy false table_name) || negb saved
  then path ← environ_get_or (py "CSV_PATH") (py "sismos.csv");
       save_to_csv items path
  else mret tt.

Definition lambda_handler : M (Z * list loc) :=
  limit_text ← environ_get_or (py "LIMIT") (py "10");
  limit ← lift (py_int limit_text);
  items ← fetch_latest_sismos limit;
  persist_items items ;;
  mret (200, items).

End Program.

(** ** Vocabulary of the statements *)

(** The dictionaries at the addresses [items]. *)
Definition records_at (w : World) (items : list loc) : list Dict :=
  map (fun l => default [] (w_heap w !! l)) items.

(** The field names of a record of the fetch pipeline. *)
Definition FIELDS : list pystr :=
  [py "referencia"; py "reporte_url"; py "fecha_hora"; py "magnitud"].

(** The world after [ds] were allocated and [es] logged. *)
Definition extend_world (ds : list Dict) (es : list LogEntry) (w : World) : World :=
  mkWorld (w_env w) (w_heap w ++ ds) (w_files w) (w_log w ++ es) (w_calls w)
          (w_uuids w) (w_batch w) (w_ddb w) (w_ddb_calls w).

(** The text of cell [i] of a row, empty when the row is shorter. *)
Definition cell_text (row : Node) (i : nat) : pystr :=
  from_option Bs4.get_text_strip [] (Bs4.find_all (py "td") row !! i).

(** The reference as the specification words it: split on line breaks,
    trim each segment, drop the empty ones, join with one space. *)
Definition reference_spec (t : pystr) : pystr :=
  Str.join (py " ")
    (filter (fun s => s ≠ []) (map Str.strip (Str.splitlines t))).

(** What [raise_for_status] rejects. *)
Definition error_status (resp : Response) : Prop :=
  400 <= status_code resp < 600.

(** The row a record prints to under the header [keys]. *)
Definition csv_row (keys : list pystr) (d : Dict) : list pystr :=
  map (fun k => Csv.cell (default (VStr []) (PyDict.get k d))) keys.

(** Every field of [d] is a column of the header [keys]. *)
Definition fits (keys : list pystr) (d : Dict) : Prop :=
  forall k, k ∈ PyDict.keys d -> k ∈ keys.

(** The codec of the file encodes every cell of the row. *)
Definition encodable_row (row : list pystr) : Prop :=
  forallb Str.encodable row = true.

(** How a run of the fetch pipeline ends for its caller: with the
    records returned, or with the exception raised. *)
Definition outcome (run : Res (list loc) * World) : exn + list Dict :=
  match fst run with
  | Ok items => inr (records_at (snd run) items)
  | Raise e => inl e
  end.

(** [h'] is [h] with an identifier added, last, to some of the
    dictionaries that had none. *)
Definition ids_added (h h' : list Dict) : Prop :=
  length h' = length h
  /\ forall l d, h !! l = Some d ->
       (h' !! l = Some d)
       \/ ((py "id" ∉ PyDict.keys d)
           /\ exists u, h' !! l = Some (d ++ [(py "id", VStr u)])).

(** What the keyed-store sink may change besides its log, its buffer and
    the remote table: identifiers on the records. *)
Definition ddb_step (w w' : World) : Prop :=
  w_env w' = w_env w /\ w_files w' = w_files w /\ ids_added (w_heap w) (w_heap w').

Definition preserves {A} (m : M A) : Prop :=
  forall w r w', m w = (r, w') -> ddb_step w w'.

(** The destination of the tabular sink in [lambda_handler]. *)
Definition csv_path (w : World) : pystr :=
  default (py "sismos.csv") (env_environ (w_env w) (py "CSV_PATH")).

Section Vocabulary.

Variable urljoin : pystr -> pystr -> exn + pystr.

(** The records of the rows whose mapping does not raise, in order. *)
Definition emitted (rows : list Node) : list Dict :=
  omap (fun row => match row_item urljoin row with
                   | inr d => Some d
                   | inl _ => None
                   end) rows.

(** The log entries of the rows whose mapping raises. *)
Fixpoint row_errors (i : nat) (rows : list Node) : list LogEntry :=
  match rows with
  | [] => []
  | row :: rest =>
      match row_item urljoin row with
      | inr _ => row_errors (S i) rest
      | inl e => ExcRow i e :: row_errors (S i) rest
      end
  end.

(** What the download step hands on: the response, or the exception
    that ends the call. *)
Definition download (w : World) : exn + Response :=
  match env_http_get (w_env w) (TARGET_URL urljoin) with
  | inl e => inl e
  | inr resp =>
      if (400 <=? status_code resp) && (status_code resp <? 600)
      then inl (HTTPError (status_code resp))
      else inr resp
  end.

(** The page text a run gets to parse, if any. *)
Definition page_text (w : World) : option pystr :=
  match download w with
  | inr resp => Some (text resp)
  | inl _ => None
  end.

(** The link of the row, if any, resolves. *)
Definition link_resolves (row : Node) : Prop :=
  exists u, report_url urljoin (row_href row) = inr u.

End Vocabulary.

(** ** Sample documents *)

Definition el (name : string) (attrs : list (string * string)) (kids : list Node) : Node :=
  Tag (py name) (map (fun kv => (py (fst kv), py (snd kv))) attrs) kids.
Definition txt (s : string) : Node := Text (py s).

Definition demo_row1 : Node :=
  el "tr" [] [ el "td" [] [txt "  Lima
  , 10km
"];
               el "td" [] [el "a" [("href", "/reporte/123")] [txt "ver"]];
               el "td" [] [txt " 2024-01-01 10:00 "];
               el "td" [] [txt "4.5"] ].
Definition demo_row2 : Node :=
  el "tr" [] [ el "td" [] [txt "Ica"]; el "td" [] []; el "td" [] [txt "2024-01-02"] ].
Definition demo_row3 : Node := el "tr" [] [].
Definition demo_soup : Node :=
  el "[document]" []
    [ el "table" [("class", "table table-hover")]
        [ el "thead" [] [el "tr" [] [el "th" [] [txt "Referencia"]]];
          el "tbody" [] [demo_row1; demo_row2; demo_row3] ];
      el "table" [("class", "other")] [el "tbody" [] [el "tr" [] []]] ].

(** A row whose link has an authority that opens a bracket and never
    closes it: [urljoin] raises [ValueError] on it. *)
Definition demo_row_badlink : Node :=
  el "tr" [] [ el "td" [] [txt "Tacna"];
               el "td" [] [el "a" [("href", "//[reporte")] [txt "ver"]] ].

Definition demo_html : pystr := py "<table class='table table-hover'>...</table>".

(** A page with a row whose link does not resolve, between two that do. *)
Definition demo_soup_bad : Node :=
  el "[document]" []
    [ el "table" [("class", "table")]
        [ el "tbody" [] [demo_row1; demo_row_badlink; demo_row2] ] ].

Definition demo_html_bad : pystr := py "<table class='table'>...</table>".

(** A page of twenty-six rows, one more than a batch holds. *)
Definition demo_soup_many : Node :=
  el "[document]" []
    [ el "table" [("class", "table")] [ el "tbody" [] (replicate 26 demo_row2) ] ].

Definition demo_html_many : pystr := py "<table class='table'>(26 rows)</table>".

(** A page whose table no longer has the class [table]. *)
Definition demo_soup_reshaped : Node :=
  el "[document]" []
    [ el "table" [("class", "tabla")]
        [ el "tbody" [] [ el "tr" [] [ el "td" [] [txt "Lima"] ] ] ] ].

Definition demo_html_reshaped : pystr := py "<table class='tabla'>...</table>".

(** Markup with a marked section of unknown keyword, on which
    [html.parser] gives up. *)
Definition demo_html_rejected : pystr := py "<![foo]>".

(** ** Sample surroundings *)

(** Stand-ins for the library functions on the inputs used below; the
    sample texts abbreviate the markup of the sample documents. *)
Definition sample_parser (t : pystr) : exn + Node :=
  if Str.eqb t demo_html then inr demo_soup
  else if Str.eqb t demo_html_bad then inr demo_soup_bad
  else if Str.eqb t demo_html_many then inr demo_soup_many
  else if Str.eqb t demo_html_reshaped then inr demo_soup_reshaped
  else if Str.eqb t demo_html_rejected
       then inl (ParserRejectedMarkup (py "rejected by the parser"))
       else inr (el "[document]" [] []).

Definition sample_urljoin (base url : pystr) : exn + pystr :=
  match url with
  | 47%N :: 47%N :: 91%N :: rest =>
      if bool_decide (93%N ∈ rest) then inr url
      else inl (ValueError (py "Invalid IPv6 URL"))
  | 47%N :: _ => inr (base ++ url)
  | _ => inr url
  end.

Fixpoint digits_value (acc : Z) (s : pystr) : option Z :=
  match s with
  | [] => Some acc
  | c :: s' =>
      if ((48 <=? c) && (c <=? 57))%N
      then digits_value (10 * acc + (Z.of_N c - 48)) s'
      else None
  end.

Definition sample_int (s : pystr) : exn + Z :=
  match s with
  | [] => inl (ValueError (py "invalid literal for int()"))
  | _ =>
      match digits_value 0 s with
      | Some z => inr z
      | None => inl (ValueError (py "invalid literal for int()"))
      end
  end.

Definition sample_uuid (n : nat) : pystr := py "uuid-" ++ [(48 + N.of_nat n)%N].

(** Surroundings in which the page answers [http], [batch_write_item]
    behaves as [ddb] says, and every file can be opened. *)
Definition sample_env (environ : pystr -> option pystr) (http : exn + Response)
    (ddb : nat -> option exn) : Env :=
  mkEnv environ (fun _ => http) (fun _ => None) None (fun n _ _ => ddb n) sample_uuid.

Definition no_environ : pystr -> option pystr := fun _ => None.

Definition environ_with_table (k : pystr) : option pystr :=
  if Str.eqb k (py "DDB_TABLE") then Some (py "sismos") else None.

Definition environ_with_table_and_limit (k : pystr) : option pystr :=
  if Str.eqb k (py "LIMIT") then Some (py "30") else environ_with_table k.

Definition world_of (env : Env) (heap : list Dict) : World :=
  mkWorld env heap ∅ [] [] 0 [] [] 0.

Definition page_ok : exn + Response := inr (mkResponse 200 demo_html).
Definition page_bad : exn + Response := inr (mkResponse 200 demo_html_bad).
Definition page_many : exn + Response := inr (mkResponse 200 demo_html_many).
Definition page_reshaped : exn + Response := inr (mkResponse 200 demo_html_reshaped).
Definition page_rejected : exn + Response := inr (mkResponse 200 demo_html_rejected).

(** The sample page under status 300 (Multiple Choices), which
    [raise_for_status] lets through. *)
Definition page_300 : exn + Response := inr (mkResponse 300 demo_html).

Definition sample_record (ref : string) : Dict :=
  [ (py "referencia", VStr (py ref)); (py "reporte_url", VNone);
    (py "fecha_hora", VStr (py "2024-01-01")); (py "magnitud", VStr (py "4.5")) ].

(** Two records with different field sets. *)
Definition mixed_heap : list Dict :=
  [ [ (py "referencia", VStr (py "Lima")) ];
    [ (py "referencia", VStr (py "Ica")); (py "magnitud", VStr (py "4.5")) ] ].

Definition mixed_world : World :=
  world_of (sample_env no_environ page_ok (fun _ => None)) mixed_heap.

Definition two_records : list Dict := [sample_record "Lima"; sample_record "Ica"].

(** The table answers every batch with a throttling error response. *)
Definition throttled (n : nat) : option exn :=
  Some (ClientError (py "ProvisionedThroughputExceededException")).

(** The endpoint of the table cannot be reached. *)
Definition unreachable (n : nat) : option exn :=
  Some (BotoCoreError (py "EndpointConnectionError")).

Definition throttled_world : World :=
  world_of (sample_env environ_with_table page_ok throttled) two_records.

Definition unreachable_world : World :=
  world_of (sample_env environ_with_table page_ok unreachable) two_records.

(** Twenty-six records, one more than a batch holds. *)
Definition many_world : World :=
  world_of (sample_env environ_with_table page_ok throttled)
    (replicate 26 (sample_record "Lima")).

(** A page of twenty-six rows, [LIMIT] at 30 and a throttled table. *)
Definition page_many_world : World :=
  world_of (sample_env environ_with_table_and_limit page_many throttled) [].

(** ** The script *)

Section Script.

Variable html_parser : pystr -> exn + Node.
Variable urljoin : pystr -> pystr -> exn + pystr.

(** Lines 128 to 134 of the script: like the handler, but the file is
    always [sismos.csv]. *)
Definition main_persist (items : list loc) : M unit :=
  table_name ← environ_get (py "DDB_TABLE");
  match table_name with
  | Some t =>
      if Str.truthy t then
        ok ← save_to_dynamodb items t;
        if negb ok then save_to_csv items (py "sismos.csv") else mret tt
      else save_to_csv items (py "sismos.csv")
  | None => save_to_csv items (py "sismos.csv")
  end.

(** The module run as a script (lines 124 to 135); the value is the
    number of records its last line prints. *)
Definition main : M nat :=
  items ← fetch_latest_sismos html_parser urljoin 10;
  main_persist items ;;
  mret (length items).

End Script.

(** ** Further vocabulary *)

(** The record carries an identifier. *)
Definition has_id (d : Dict) : Prop := py "id" ∈ PyDict.keys d.

(** Neither the first nor the last character of [s] is whitespace. *)
Definition trimmed (s : pystr) : Prop :=
  (forall c, head s = Some c -> Str.isspace c = false)
  /\ (forall c, last s = Some c -> Str.isspace c = false).

(** No character of [s] is a line boundary. *)
Definition one_line (s : pystr) : Prop :=
  Forall (fun c => Str.islinebreak c = false) s.

(** What the world keeps across a call that only allocates and logs. *)
Definition same_outside (w w' : World) : Prop :=
  w_env w' = w_env w /\ w_files w' = w_files w /\ w_calls w' = w_calls w
  /\ w_uuids w' = w_uuids w /\ w_batch w' = w_batch w
  /\ w_ddb w' = w_ddb w /\ w_ddb_calls w' = w_ddb_calls w.

(** Every run of [m] relates the world before to the world after by [R],
    whether it returns or raises. *)
Definition respects {A} (R : World -> World -> Prop) (m : M A) : Prop :=
  forall w r w', m w = (r, w') -> R w w'.

(** What the tabular sink leaves alone when it writes to [path]. *)
Definition csv_step (path : pystr) (w w' : World) : Prop :=
  w_env w' = w_env w /\ w_heap w' = w_heap w /\ w_uuids w' = w_uuids w
  /\ w_batch w' = w_batch w /\ w_ddb w' = w_ddb w /\ w_ddb_calls w' = w_ddb_calls w
  /\ forall p, p ≠ path -> w_files w' !! p = w_files w !! p.

(** The dictionaries outside [items] are the same in both worlds. *)
Definition untouched (items : list loc) (w w' : World) : Prop :=
  forall l, l ∉ items -> w_heap w' !! l = w_heap w !! l.

(** The addresses all point into the heap. *)
Definition valid_items (w : World) (items : list loc) : Prop :=
  Forall (fun l => is_Some (w_heap w !! l)) items.

(** The world after the loop body has seen to the identifier of [it]:
    unchanged if the record has one, else with the next identifier
    stored in it. *)
Definition with_id (it : loc) (w : World) : World :=
  if PyDict.contains (py "id") (default [] (w_heap w !! it)) then w
  else set_heap (alter (PyDict.setitem (py "id") (VStr (env_uuid4 (w_env w) (w_uuids w))))
                   it (w_heap w))
         (next_uuid w).

(** Between the two worlds only the heap, the identifiers drawn and the
    batch buffer may differ. *)
Definition quiet (w w' : World) : Prop :=
  w_env w' = w_env w /\ w_files w' = w_files w /\ w_log w' = w_log w
  /\ w_calls w' = w_calls w /\ w_ddb w' = w_ddb w /\ w_ddb_calls w' = w_ddb_calls w.

(** The dictionary at [l] is the same in both worlds. *)
Definition heap_same_at (l : loc) (w w' : World) : Prop :=
  w_heap w' !! l = w_heap w !! l.

(** A [table] element whose classes include [table]. *)
Definition is_data_table (n : Node) : bool :=
  match n with
  | Tag name attrs _ => Str.eqb name (py "table") && Bs4.has_class (py "table") attrs
  | Text _ => false
  end.

(** The two worlds have the same heap, identifiers drawn and
    surroundings. *)
Definition same_records (w w' : World) : Prop :=
  w_heap w' = w_heap w /\ w_uuids w' = w_uuids w /\ w_env w' = w_env w.

(** The records [ds] after the identifiers from the [n0]-th on have
    been appended to them, one each, in order. *)
Definition assign_ids (uuid : nat -> pystr) (n0 : nat) (ds : list Dict) : list Dict :=
  imap (fun i d => d ++ [(py "id", VStr (uuid (n0 + i)%nat))]) ds.

(** A file at [path] that begins with the row [keys] still does. *)
Definition header_kept (path : pystr) (keys : list pystr) (w w' : World) : Prop :=
  forall rows, w_files w !! path = Some (keys :: rows) ->
    exists rows', w_files w' !! path = Some (keys :: rows').

(** ** Further samples *)

(** A record whose reference holds a lone surrogate. *)
Definition surrogate_record : Dict :=
  [ (py "referencia", VStr (py "Lima" ++ [56448%N])); (py "reporte_url", VNone);
    (py "fecha_hora", VStr (py "2024-01-01")); (py "magnitud", VStr (py "4.5")) ].

(** Surroundings in which no file can be opened for writing. *)
Definition locked_env : Env :=
  mkEnv no_environ (fun _ => page_ok) (fun _ => Some (OSError (py "Permission denied")))
        None (fun _ _ _ => None) sample_uuid.

(** A row with an anchor whose [href] is empty, after one without [href]. *)
Definition demo_row_emptylink : Node :=
  el "tr" [] [ el "td" [] [el "a" [("name", "x")] [txt "Puno"]];
               el "td" [] [el "a" [("href", "")] [txt "ver"]] ].

(** * Properties *)

(** ** Strings and documents *)

Example strip_ex : Str.strip (py "  , 10km ") = py ", 10km".
Proof. reflexivity. Qed.

Example splitlines_ex :
  Str.splitlines (py "a
b") = [py "a"; py "b"].
Proof. reflexivity. Qed.

Example splitlines_crlf :
  Str.splitlines (py "a" ++ [CR; LF] ++ py "b" ++ [LF]) = [py "a"; py "b"].
Proof. reflexivity. Qed.

Example splitlines_blank :
  Str.splitlines (py "a" ++ [LF; LF] ++ py "b") = [py "a"; []; py "b"].
Proof. reflexivity. Qed.

Example slice_negative : slice_to (-1) [1; 2; 3] = [1; 2].
Proof. reflexivity. Qed.

Example select_demo : Bs4.select_rows demo_soup = [demo_row1; demo_row2; demo_row3].
Proof. vm_compute. reflexivity. Qed.

Example get_text_demo :
  Bs4.get_text_strip (el "td" [] [txt "  Lima
  , 10km
"]) = py "Lima
  , 10km".
Proof. vm_compute. reflexivity. Qed.

(** ** Running the monad *)

Lemma bind_run {A B} (m : M A) (f : A -> M B) (w : World) :
  (m ≫= f) w =
  match m w with
  | (Ok a, w') => f a w'
  | (Raise e, w') => (Raise e, w')
  end.
Proof. reflexivity. Qed.

Lemma bind_ok {A B} (m : M A) (f : A -> M B) (w w' : World) (a : A) :
  m w = (Ok a, w') -> (m ≫= f) w = f a w'.
Proof. intros H. rewrite bind_run, H. reflexivity. Qed.

Lemma bind_raise {A B} (m : M A) (f : A -> M B) (w w' : World) (e : exn) :
  m w = (Raise e, w') -> (m ≫= f) w = (Raise e, w').
Proof. intros H. rewrite bind_run, H. reflexivity. Qed.

(** Closed runs: split the conjunctions, then evaluate each side. *)
Ltac evaluate :=
  repeat match goal with |- _ /\ _ => split end; vm_compute; reflexivity.

(** ** Frames *)

Section Respects.

Variable R : World -> World -> Prop.
Hypothesis R_refl : forall w, R w w.
Hypothesis R_trans : forall w1 w2 w3, R w1 w2 -> R w2 w3 -> R w1 w3.

Lemma respects_ret {A} (a : A) : respects R (mret a : M A).
Proof. intros w r w' [= <- <-]. apply R_refl. Qed.

Lemma respects_raise {A} (e : exn) : respects R (raise e : M A).
Proof. intros w r w' [= <- <-]. apply R_refl. Qed.

Lemma respects_lift {A} (x : exn + A) : respects R (lift x).
Proof. destruct x; [apply respects_raise | apply respects_ret]. Qed.

Lemma respects_gets {A} (f : World -> A) : respects R (gets f).
Proof. intros w r w' [= <- <-]. apply R_refl. Qed.

Lemma respects_modify (f : World -> World) :
  (forall w, R w (f w)) -> respects R (modify f).
Proof. intros Hf w r w' [= <- <-]. apply Hf. Qed.

Lemma respects_bind {A B} (m : M A) (f : A -> M B) :
  respects R m -> (forall a, respects R (f a)) -> respects R (m ≫= f).
Proof.
  intros Hm Hf w r w' Hrun. rewrite bind_run in Hrun.
  destruct (m w) as [[a|e] w1] eqn:Hmw.
  - eapply R_trans; [by eapply Hm | by eapply Hf].
  - injection Hrun as <- <-. by eapply Hm.
Qed.

Lemma respects_try_except {A} (catches : exn -> bool) (m : M A) (h : exn -> M A) :
  respects R m -> (forall e, respects R (h e)) -> respects R (try_except catches m h).
Proof.
  intros Hm Hh w r w' Hrun. unfold try_except in Hrun.
  destruct (m w) as [[a|e] w1] eqn:Hmw.
  - injection Hrun as <- <-. by eapply Hm.
  - destruct (catches e).
    + eapply R_trans; [by eapply Hm | by eapply Hh].
    + injection Hrun as <- <-. by eapply Hm.
Qed.

Lemma respects_for_each {A} (body : A -> M unit) (l : list A) :
  (forall x, x ∈ l -> respects R (body x)) -> respects R (for_each body l).
Proof.
  induction l as [|x l IH]; intros Hbody; simpl.
  - apply respects_ret.
  - apply respects_bind.
    + apply Hbody. apply list_elem_of_here.
    + intros _. apply IH. intros y Hy. apply Hbody. by apply list_elem_of_further.
Qed.

End Respects.

Lemma for_each_app {A} (body : A -> M unit) (l1 l2 : list A) (w : World) :
  for_each body (l1 ++ l2) w =
  match for_each body l1 w with
  | (Ok _, w1) => for_each body l2 w1
  | (Raise e, w1) => (Raise e, w1)
  end.
Proof.
  revert w. induction l1 as [|x l1 IH]; intros w; [reflexivity|].
  cbn [for_each app]. rewrite !bind_run.
  destruct (body x w) as [[[]|e] w1]; [apply IH | reflexivity].
Qed.

Example fetch_demo :
  exists w',
    fetch_latest_sismos sample_parser sample_urljoin 2
      (world_of (sample_env no_environ page_ok (fun _ => None)) []) = (Ok [0; 1]%nat, w')
    /\ w_heap w' =
       [ [ (py "referencia", VStr (py "Lima , 10km"));
           (py "reporte_url", VStr (py "https://ultimosismo.igp.gob.pe/reporte/123"));
           (py "fecha_hora", VStr (py "2024-01-01 10:00"));
           (py "magnitud", VStr (py "4.5")) ];
         [ (py "referencia", VStr (py "Ica"));
           (py "reporte_url", VNone);
           (py "fecha_hora", VStr (py "2024-01-02"));
           (py "magnitud", VStr []) ] ].
Proof. eexists. evaluate. Qed.

(** ** The row loop *)

Section FetchFacts.

Variable html_parser : pystr -> exn + Node.
Variable urljoin : pystr -> pystr -> exn + pystr.

Lemma extend_world_alloc d ds es w :
  extend_world ds es (set_heap (w_heap w ++ [d]) w) = extend_world (d :: ds) es w.
Proof. unfold extend_world; simpl. by rewrite <- app_assoc. Qed.

Lemma extend_world_log e ds es w :
  extend_world ds es (add_log e w) = extend_world ds (e :: es) w.
Proof. unfold extend_world; simpl. by rewrite <- app_assoc. Qed.

Lemma extend_world_nil w : extend_world [] [] w = w.
Proof. destruct w; unfold extend_world; simpl. by rewrite !app_nil_r. Qed.

(** One turn of the loop on a row whose mapping returns. *)
Lemma fetch_rows_emit i row rest results w d :
  row_item urljoin row = inr d ->
  fetch_rows urljoin i (row :: rest) results w =
  fetch_rows urljoin (S i) rest (results ++ [length (w_heap w)])
    (set_heap (w_heap w ++ [d]) w).
Proof.
  intros Hd. simpl. rewrite bind_run. unfold try_except. rewrite bind_run.
  rewrite Hd. reflexivity.
Qed.

(** One turn of the loop on a row whose mapping raises. *)
Lemma fetch_rows_skip i row rest results w e :
  row_item urljoin row = inl e ->
  fetch_rows urljoin i (row :: rest) results w =
  fetch_rows urljoin (S i) rest results (add_log (ExcRow i e) w).
Proof.
  intros He. simpl. rewrite bind_run. unfold try_except. rewrite bind_run.
  rewrite He. reflexivity.
Qed.

(** The loop returns: it allocates the emitted records in order, logs
    the rows it drops and leaves the rest of the world alone. *)
Lemma fetch_rows_run rows : forall i results w,
  fetch_rows urljoin i rows results w =
  (Ok (results ++ seq (length (w_heap w)) (length (emitted urljoin rows))),
   extend_world (emitted urljoin rows) (row_errors urljoin i rows) w).
Proof.
  induction rows as [|row rest IH]; intros i results w.
  - simpl. by rewrite app_nil_r, extend_world_nil.
  - destruct (row_item urljoin row) as [e|d] eqn:Hrow.
    + rewrite (fetch_rows_skip _ _ _ _ _ _ Hrow), IH.
      unfold emitted; simpl. rewrite Hrow. simpl.
      by rewrite extend_world_log.
    + rewrite (fetch_rows_emit _ _ _ _ _ _ Hrow), IH.
      unfold emitted; simpl. rewrite Hrow. simpl.
      rewrite extend_world_alloc, length_app, <- app_assoc. simpl.
      by rewrite Nat.add_1_r.
Qed.

Lemma fetch_run limit w :
  fetch_latest_sismos html_parser urljoin limit w =
  match download urljoin w with
  | inl e =>
      (Ok [], add_log (ExcDownload e) (add_log (InfoFetching (TARGET_URL urljoin)) w))
  | inr resp =>
      match html_parser (text resp) with
      | inl e => (Raise e, add_log (InfoFetching (TARGET_URL urljoin)) w)
      | inr soup =>
          let rows := Bs4.select_rows soup in
          let taken := slice_to limit rows in
          (Ok (seq (length (w_heap w)) (length (emitted urljoin taken))),
           extend_world (emitted urljoin taken)
             (InfoFetching (TARGET_URL urljoin) :: InfoRowsFound (length rows)
                :: row_errors urljoin 0 taken) w)
      end
  end.
Proof.
  unfold fetch_latest_sismos, download.
  rewrite bind_run. simpl. rewrite bind_run. unfold try_except.
  rewrite bind_run. unfold requests_get. simpl.
  destruct (env_http_get (w_env w) (TARGET_URL urljoin)) as [e|resp]; [reflexivity|].
  rewrite bind_run. unfold raise_for_status.
  destruct ((400 <=? status_code resp) && (status_code resp <? 600)); [reflexivity|].
  simpl. rewrite bind_run.
  destruct (html_parser (text resp)) as [e|soup]; [reflexivity|].
  simpl. rewrite bind_run. simpl. rewrite fetch_rows_run. simpl.
  by rewrite !extend_world_log.
Qed.

(** The pipeline on a page that is downloaded and that the parser
    accepts. *)
Lemma fetch_parsed limit w resp soup :
  download urljoin w = inr resp ->
  html_parser (text resp) = inr soup ->
  fetch_latest_sismos html_parser urljoin limit w =
  (Ok (seq (length (w_heap w)) (length (emitted urljoin (slice_to limit (Bs4.select_rows soup))))),
   extend_world (emitted urljoin (slice_to limit (Bs4.select_rows soup)))
     (InfoFetching (TARGET_URL urljoin) :: InfoRowsFound (length (Bs4.select_rows soup))
        :: row_errors urljoin 0 (slice_to limit (Bs4.select_rows soup))) w).
Proof. intros Hdl Hparse. by rewrite fetch_run, Hdl, Hparse. Qed.

(** What [download] says in terms of the transport. *)
Lemma download_returns w resp :
  download urljoin w = inr resp <->
  env_http_get (w_env w) (TARGET_URL urljoin) = inr resp /\ ~ error_status resp.
Proof.
  unfold download, error_status.
  destruct (env_http_get (w_env w) (TARGET_URL urljoin)) as [e|r]; [split; [done|by intros [? _]]|].
  destruct ((400 <=? status_code r) && (status_code r <? 600)) eqn:Hs.
  - apply andb_prop in Hs as [H1 H2]. apply Z.leb_le in H1. apply Z.ltb_lt in H2.
    split; [done|]. intros [[= ->] Hno]. exfalso. apply Hno. by split.
  - split.
    + intros [= ->]. split; [reflexivity|]. intros [H1 H2].
      apply Z.leb_le in H1. apply Z.ltb_lt in H2. by rewrite H1, H2 in Hs.
    + by intros [[= ->] _].
Qed.

End FetchFacts.

(** ** Records of the pipeline *)

Lemma records_at_fresh (h ds : list Dict) :
  map (fun l => default [] ((h ++ ds) !! l)) (seq (length h) (length ds)) = ds.
Proof.
  revert h. induction ds as [|d ds IH]; intros h; [reflexivity|].
  simpl. rewrite list_lookup_middle by reflexivity. simpl. f_equal.
  replace (h ++ d :: ds) with ((h ++ [d]) ++ ds) by (by rewrite <- app_assoc).
  replace (S (length h)) with (length (h ++ [d])) by (rewrite length_app; simpl; lia).
  apply IH.
Qed.

Lemma records_at_extend ds es w :
  records_at (extend_world ds es w) (seq (length (w_heap w)) (length ds)) = ds.
Proof. unfold records_at, extend_world; simpl. apply records_at_fresh. Qed.

Section RowFacts.

Variable urljoin : pystr -> pystr -> exn + pystr.

Lemma emitted_cons row rest :
  emitted urljoin (row :: rest) =
  match row_item urljoin row with
  | inr d => d :: emitted urljoin rest
  | inl _ => emitted urljoin rest
  end.
Proof. unfold emitted; simpl. by destruct (row_item urljoin row). Qed.

Lemma row_item_raises row e :
  row_item urljoin row = inl e <-> report_url urljoin (row_href row) = inl e.
Proof.
  unfold row_item. destruct (report_url urljoin (row_href row)); split; congruence.
Qed.

Lemma row_item_returns row :
  link_resolves urljoin row <-> exists d, row_item urljoin row = inr d.
Proof.
  unfold link_resolves, row_item.
  destruct (report_url urljoin (row_href row)) as [e|u]; split; intros [x Hx];
    try discriminate; eauto.
Qed.

Lemma row_item_keys row d : row_item urljoin row = inr d -> PyDict.keys d = FIELDS.
Proof.
  unfold row_item. destruct (report_url urljoin (row_href row)); [discriminate|].
  intros [= <-]. reflexivity.
Qed.

Lemma emitted_keys rows : Forall (fun d => PyDict.keys d = FIELDS) (emitted urljoin rows).
Proof.
  induction rows as [|row rest IH]; [constructor|].
  rewrite emitted_cons. destruct (row_item urljoin row) as [e|d] eqn:H; [exact IH|].
  constructor; [by eapply row_item_keys | exact IH].
Qed.

Lemma emitted_all rows :
  Forall (link_resolves urljoin) rows ->
  Forall2 (fun row d => row_item urljoin row = inr d) rows (emitted urljoin rows).
Proof.
  induction 1 as [|row rest Hrow _ IH]; [constructor|].
  apply row_item_returns in Hrow as [d Hd].
  rewrite emitted_cons, Hd. by constructor.
Qed.

Lemma emitted_length_le rows : (length (emitted urljoin rows) <= length rows)%nat.
Proof.
  induction rows as [|row rest IH]; [reflexivity|].
  rewrite emitted_cons. destruct (row_item urljoin row); simpl; lia.
Qed.

End RowFacts.

Lemma slice_to_nonneg {A} (n : Z) (l : list A) :
  0 <= n -> slice_to n l = take (Z.to_nat n) l.
Proof. intros H. unfold slice_to. by rewrite (proj2 (Z.leb_le 0 n) H). Qed.

Lemma squash_lines_filter (ss : list pystr) :
  map Str.strip (filter (fun s => Str.truthy (Str.strip s)) ss) =
  filter (fun s => s ≠ []) (map Str.strip ss).
Proof.
  induction ss as [|s ss IH]; [reflexivity|].
  simpl. destruct (Str.strip s) as [|c t] eqn:Hs.
  - rewrite filter_cons_False by (rewrite Hs; simpl; tauto).
    rewrite filter_cons_False by tauto. exact IH.
  - rewrite filter_cons_True by (rewrite Hs; exact I).
    rewrite filter_cons_True by discriminate.
    simpl. by rewrite Hs, IH.
Qed.

(** ** The fetch pipeline *)




Lemma length_slice_to {A} (n : Z) (l : list A) :
  (0 <= n -> Z.of_nat (length (slice_to n l)) <= n)
  /\ (length (slice_to n l) <= length l)%nat.
Proof.
  unfold slice_to. destruct (0 <=? n) eqn:Hn; rewrite length_take.
  - apply Z.leb_le in Hn. lia.
  - apply Z.leb_gt in Hn. lia.
Qed.

(** The records returned are never more than the rows found, nor more
    than a non-negative limit. *)
Lemma fetch_length_bound
    (html_parser : pystr -> exn + Node) (urljoin : pystr -> pystr -> exn + pystr)
    (limit : Z) (w : World) (items : list loc) (w' : World) :
  fetch_latest_sismos html_parser urljoin limit w = (Ok items, w') ->
  (0 <= limit -> Z.of_nat (length items) <= limit)
  /\ match download urljoin w with
     | inr resp =>
         match html_parser (text resp) with
         | inr soup => (length items <= length (Bs4.select_rows soup))%nat
         | inl _ => False
         end
     | inl _ => items = []
     end.
Proof.
  rewrite fetch_run. destruct (download urljoin w) as [e|resp].
  - intros [= <- _]. simpl. split; [lia|reflexivity].
  - destruct (html_parser (text resp)) as [e|soup]; [discriminate|].
    cbv zeta. intros [= <- _]. rewrite length_seq.
    pose proof (emitted_length_le urljoin (slice_to limit (Bs4.select_rows soup))) as Hle.
    pose proof (length_slice_to limit (Bs4.select_rows soup)) as [H1 H2].
    split; [intros Hlimit; specialize (H1 Hlimit)|]; lia.
Qed.

Example target_url_sample :
  TARGET_URL sample_urljoin = py "https://ultimosismo.igp.gob.pe/ultimo-sismo/sismos-reportados".
Proof. reflexivity. Qed.

(** C4, as stated, fails on a well-formed page with a link that does
    not resolve: the table body has three rows, the link of the second
    makes [urljoin] raise, and with limit five the call returns two
    records, not three. *)
Lemma fetch_drops_unresolved_link :
  length (Bs4.select_rows demo_soup_bad) = 3%nat
  /\ exists w',
       fetch_latest_sismos sample_parser sample_urljoin 5
         (world_of (sample_env no_environ page_bad (fun _ => None)) []) = (Ok [0; 1]%nat, w')
       /\ w_log w' = [ InfoFetching (TARGET_URL sample_urljoin); InfoRowsFound 3;
                       ExcRow 1 (ValueError (py "Invalid IPv6 URL")) ].
Proof. split; [vm_compute; reflexivity | eexists; evaluate]. Qed.

(** C4, amended. For a non-negative limit and a page that is downloaded,
    that the parser accepts and whose table body has N rows, the call
    returns at most min(N, limit) records; when each row has a link
    that resolves (or none), it returns exactly min(N, limit) records,
    and the i-th record is the one built from the i-th row of the
    document. *)
Theorem fetch_count_and_order
    (html_parser : pystr -> exn + Node) (urljoin : pystr -> pystr -> exn + pystr)
    (limit : Z) (w : World) (resp : Response) (soup : Node) :
  0 <= limit ->
  env_http_get (w_env w) (TARGET_URL urljoin) = inr resp ->
  ~ error_status resp ->
  html_parser (text resp) = inr soup ->
  let rows := Bs4.select_rows soup in
  exists items w',
    fetch_latest_sismos html_parser urljoin limit w = (Ok items, w')
    /\ Z.of_nat (length items) <= Z.min (Z.of_nat (length rows)) limit
    /\ (Forall (link_resolves urljoin) rows ->
        Z.of_nat (length items) = Z.min (Z.of_nat (length rows)) limit
        /\ Forall2 (fun row d => row_item urljoin row = inr d)
             (take (Z.to_nat limit) rows) (records_at w' items)).
Proof.
  intros Hlimit Hget Hstatus Hparse rows.
  assert (Hdl : download urljoin w = inr resp) by (by apply download_returns).
  rewrite (fetch_parsed _ _ _ _ _ _ Hdl Hparse). fold rows.
  rewrite slice_to_nonneg by done.
  eexists _, _. split; [reflexivity|]. split.
  - rewrite length_seq.
    pose proof (emitted_length_le urljoin (take (Z.to_nat limit) rows)) as Hle.
    rewrite length_take in Hle. lia.
  - intros Hrows.
    assert (Hall : Forall2 (fun row d => row_item urljoin row = inr d)
                     (take (Z.to_nat limit) rows)
                     (emitted urljoin (take (Z.to_nat limit) rows))).
    { apply emitted_all. by apply Forall_take. }
    split.
    + rewrite length_seq, <- (Forall2_length _ _ _ Hall), length_take. lia.
    + by rewrite records_at_extend.
Qed.

Lemma fetch_count_and_order_witness :
  exists items w',
    fetch_latest_sismos sample_parser sample_urljoin 2
      (world_of (sample_env no_environ page_ok (fun _ => None)) []) = (Ok items, w')
    /\ Z.of_nat (length items) = Z.min (Z.of_nat (length (Bs4.select_rows demo_soup))) 2
    /\ Forall2 (fun row d => row_item sample_urljoin row = inr d)
         (take 2 (Bs4.select_rows demo_soup)) (records_at w' items).
Proof.
  destruct (fetch_count_and_order sample_parser sample_urljoin 2
              (world_of (sample_env no_environ page_ok (fun _ => None)) [])
              (mkResponse 200 demo_html) demo_soup)
    as (items & w' & Hrun & _ & Hall).
  - lia.
  - reflexivity.
  - unfold error_status; simpl; lia.
  - reflexivity.
  - exists items, w'. split; [exact Hrun|]. apply Hall.
    repeat constructor; eexists; vm_compute; reflexivity.
Defined.

Lemma td_text_lookup (row : Node) (i : nat) :
  td_text (Bs4.find_all (py "td") row) i = cell_text row i.
Proof.
  unfold td_text, cell_text. case_bool_decide as Hi; [reflexivity|].
  rewrite lookup_ge_None_2 by lia. reflexivity.
Qed.

Lemma row_item_fields (urljoin : pystr -> pystr -> exn + pystr) (row : Node) (d : Dict) :
  row_item urljoin row = inr d ->
  exists u,
    report_url urljoin (row_href row) = inr u
    /\ d = [ (py "referencia", VStr (squash_lines (cell_text row 0)));
             (py "reporte_url", from_option VStr VNone u);
             (py "fecha_hora", VStr (cell_text row 2));
             (py "magnitud", VStr (cell_text row 3)) ].
Proof.
  unfold row_item. rewrite !td_text_lookup.
  destruct (report_url urljoin (row_href row)) as [e|u]; [discriminate|].
  intros [= <-]. eauto.
Qed.

(** C5, as stated, fails on a short row whose link does not resolve:
    the row has two cells, [urljoin] raises on its link, and the row is
    dropped with a log entry instead of being emitted with empty
    timestamp and magnitude. *)
Lemma short_row_dropped :
  length (Bs4.find_all (py "td") demo_row_badlink) = 2%nat
  /\ row_item sample_urljoin demo_row_badlink = inl (ValueError (py "Invalid IPv6 URL"))
  /\ fetch_rows sample_urljoin 0 [demo_row_badlink] []
       (world_of (sample_env no_environ page_ok (fun _ => None)) [])
     = (Ok [],
        add_log (ExcRow 0 (ValueError (py "Invalid IPv6 URL")))
          (world_of (sample_env no_environ page_ok (fun _ => None)) [])).
Proof. evaluate. Qed.

(** C5, amended. The mapping is positional: cell 0 gives the reference,
    cell 2 the timestamp text and cell 3 the magnitude text, a cell the
    row does not have counting as the empty string.  A row whose link
    resolves (or that has none) is emitted however few cells it has, so
    when it lacks cell 3 its record has empty magnitude text; a row is
    dropped only when resolving its link raises. *)
Theorem row_cells_to_fields (urljoin : pystr -> pystr -> exn + pystr) (row : Node) :
  (link_resolves urljoin row ->
   exists d,
     row_item urljoin row = inr d
     /\ emitted urljoin [row] = [d]
     /\ PyDict.get (py "referencia") d = Some (VStr (squash_lines (cell_text row 0)))
     /\ PyDict.get (py "fecha_hora") d = Some (VStr (cell_text row 2))
     /\ PyDict.get (py "magnitud") d = Some (VStr (cell_text row 3)))
  /\ (forall i, (length (Bs4.find_all (py "td") row) <= i)%nat -> cell_text row i = [])
  /\ (forall e, row_item urljoin row = inl e ->
        report_url urljoin (row_href row) = inl e).
Proof.
  split; [|split].
  - intros Hlink. apply row_item_returns in Hlink as [d Hd].
    exists d. split; [exact Hd|]. split.
    { rewrite emitted_cons, Hd. reflexivity. }
    apply row_item_fields in Hd as (u & _ & ->).
    generalize (squash_lines (cell_text row 0)), (cell_text row 2), (cell_text row 3).
    intros a b c. evaluate.
  - intros i Hi. unfold cell_text. by rewrite lookup_ge_None_2.
  - intros e. apply row_item_raises.
Qed.

Lemma row_cells_to_fields_witness :
  exists d,
    row_item sample_urljoin demo_row2 = inr d
    /\ emitted sample_urljoin [demo_row2] = [d]
    /\ PyDict.get (py "referencia") d = Some (VStr (squash_lines (cell_text demo_row2 0)))
    /\ PyDict.get (py "fecha_hora") d = Some (VStr (cell_text demo_row2 2))
    /\ PyDict.get (py "magnitud") d = Some (VStr (cell_text demo_row2 3)).
Proof.
  apply (proj1 (row_cells_to_fields sample_urljoin demo_row2)).
  exists None. reflexivity.
Defined.

(** C6. The reference of a record is the text of cell 0 split on line
    breaks, each segment trimmed, the empty segments dropped and the
    rest joined with one space; the text of the example comes out as
    [Lima , 10km]. *)
Theorem reference_normalised (urljoin : pystr -> pystr -> exn + pystr) :
  (forall t, squash_lines t = reference_spec t)
  /\ (forall row d,
        row_item urljoin row = inr d ->
        PyDict.get (py "referencia") d = Some (VStr (reference_spec (cell_text row 0))))
  /\ squash_lines (py "  Lima
  , 10km
") = py "Lima , 10km".
Proof.
  assert (Hspec : forall t, squash_lines t = reference_spec t).
  { intros t. unfold squash_lines, reference_spec. by rewrite squash_lines_filter. }
  split; [exact Hspec|]. split; [|by vm_compute].
  intros row d Hd. apply row_item_fields in Hd as (u & _ & ->).
  rewrite <- Hspec. generalize (squash_lines (cell_text row 0)). intros a. evaluate.
Qed.

Lemma reference_normalised_witness :
  PyDict.get (py "referencia")
    [ (py "referencia", VStr (py "Lima , 10km"));
      (py "reporte_url", VStr (py "https://ultimosismo.igp.gob.pe/reporte/123"));
      (py "fecha_hora", VStr (py "2024-01-01 10:00"));
      (py "magnitud", VStr (py "4.5")) ]
  = Some (VStr (reference_spec (cell_text demo_row1 0))).
Proof.
  apply (proj1 (proj2 (reference_normalised sample_urljoin)) demo_row1).
  vm_compute. reflexivity.
Defined.

(** C8. Two runs that get the same page text (or both none) with the
    same limit end alike, whatever else differs between the two worlds
    (heap, files, log, identifiers drawn, status code): either both
    return, and then the same sequence of records, or both raise, and
    then the same exception of the parser. *)
Theorem fetch_deterministic
    (html_parser : pystr -> exn + Node) (urljoin : pystr -> pystr -> exn + pystr)
    (limit : Z) (w1 w2 : World) :
  page_text urljoin w1 = page_text urljoin w2 ->
  outcome (fetch_latest_sismos html_parser urljoin limit w1)
  = outcome (fetch_latest_sismos html_parser urljoin limit w2).
Proof.
  unfold page_text. intros Hsame. rewrite !fetch_run.
  destruct (download urljoin w1) as [e1|r1], (download urljoin w2) as [e2|r2];
    try discriminate; [reflexivity|].
  injection Hsame as Htext. rewrite Htext.
  destruct (html_parser (text r2)) as [e|soup]; [reflexivity|].
  unfold outcome. cbn [fst snd]. by rewrite !records_at_extend.
Qed.

Lemma fetch_deterministic_witness :
  outcome (fetch_latest_sismos sample_parser sample_urljoin 3
             (world_of (sample_env no_environ page_ok (fun _ => None)) []))
  = outcome (fetch_latest_sismos sample_parser sample_urljoin 3
               (world_of (sample_env environ_with_table (inr (mkResponse 203 demo_html))
                            (fun _ => None))
                  [sample_record "Cusco"])).
Proof.
  apply (fetch_deterministic sample_parser sample_urljoin 3).
  reflexivity.
Defined.

(** The same for a page the parser rejects: both runs raise its
    exception. *)
Example rejected_page_outcomes :
  outcome (fetch_latest_sismos sample_parser sample_urljoin 3
             (world_of (sample_env no_environ page_rejected (fun _ => None)) []))
  = inl (ParserRejectedMarkup (py "rejected by the parser"))
  /\ outcome (fetch_latest_sismos sample_parser sample_urljoin 3
                (world_of (sample_env environ_with_table
                             (inr (mkResponse 203 demo_html_rejected)) (fun _ => None))
                   [sample_record "Cusco"]))
     = inl (ParserRejectedMarkup (py "rejected by the parser")).
Proof. evaluate. Qed.

Lemma row_item_prints (urljoin : pystr -> pystr -> exn + pystr) (row : Node) (d : Dict) :
  row_item urljoin row = inr d ->
  Csv.dict_to_list FIELDS d = inr (PyDict.values d).
Proof.
  intros Hd. apply row_item_fields in Hd as (u & _ & ->).
  generalize (squash_lines (cell_text row 0)), (cell_text row 2), (cell_text row 3).
  intros a b c. evaluate.
Qed.

(** ** The tabular sink *)

Lemma dict_to_list_fits (keys : list pystr) (d : Dict) :
  fits keys d ->
  Csv.dict_to_list keys d =
  inr (map (fun k => default (VStr []) (PyDict.get k d)) keys).
Proof.
  intros Hfit. unfold Csv.dict_to_list.
  destruct (forallb _ _) eqn:Hall; [reflexivity|].
  exfalso. apply not_true_iff_false in Hall. apply Hall.
  apply forallb_forall. intros k Hk. apply bool_decide_eq_true.
  apply Hfit. by apply list_elem_of_In.
Qed.

Lemma emit_after_emit (path : pystr) (content : CsvFile) (row : list pystr)
    (files : gmap pystr CsvFile) :
  <[path := default [] (<[path := content]> files !! path) ++ [row]]>
    (<[path := content]> files)
  = <[path := content ++ [row]]> files.
Proof. rewrite lookup_insert_eq. simpl. apply insert_insert_eq. Qed.

Lemma emit_run (path : pystr) (row : list pystr) (w : World) :
  encodable_row row ->
  Csv.emit path row w =
  (Ok tt, set_files (<[path := default [] (w_files w !! path) ++ [row]]> (w_files w)) w).
Proof. unfold encodable_row, Csv.emit. by intros ->. Qed.

Lemma emit_refused (path : pystr) (row : list pystr) (w : World) :
  ~ encodable_row row ->
  Csv.emit path row w = (Raise (UnicodeEncodeError (py "utf-8")), w).
Proof.
  unfold encodable_row, Csv.emit. destruct (forallb Str.encodable row); [done|reflexivity].
Qed.

Lemma respects_emit (R : World -> World -> Prop) (path : pystr) (row : list pystr) :
  (forall w, R w w) ->
  (forall w content, R w (set_files (<[path := content]> (w_files w)) w)) ->
  respects R (Csv.emit path row).
Proof.
  intros Hrefl Hset. unfold Csv.emit. destruct (forallb Str.encodable row).
  - apply respects_modify. intros w. apply Hset.
  - by apply respects_raise.
Qed.

Lemma writerow_step (path : pystr) (keys : list pystr) (it : loc) (w : World)
    (content : CsvFile) :
  fits keys (default [] (w_heap w !! it)) ->
  encodable_row (csv_row keys (default [] (w_heap w !! it))) ->
  (deref it ≫= λ d, Csv.writerow path keys d)
    (set_files (<[path := content]> (w_files w)) w)
  = (Ok tt,
     set_files (<[path := content ++ [csv_row keys (default [] (w_heap w !! it))]]>
                  (w_files w)) w).
Proof.
  intros Hit Henc. rewrite bind_run. unfold deref, gets. cbn [w_heap set_files].
  unfold Csv.writerow. rewrite bind_run, (dict_to_list_fits _ _ Hit).
  unfold lift, mret, M_ret. rewrite map_map.
  change (map _ keys) with (csv_row keys (default [] (w_heap w !! it))).
  rewrite (emit_run _ _ _ Henc). cbn [w_files set_files].
  by rewrite emit_after_emit.
Qed.

(** The rows of the records go after what the file already holds. *)
Lemma writerows_run (path : pystr) (keys : list pystr) (items : list loc) (w : World) :
  forall content : CsvFile,
    Forall (fits keys) (records_at w items) ->
    Forall (fun d => encodable_row (csv_row keys d)) (records_at w items) ->
    for_each (fun it => d ← deref it; Csv.writerow path keys d) items
      (set_files (<[path := content]> (w_files w)) w)
    = (Ok tt,
       set_files (<[path := content ++ map (csv_row keys) (records_at w items)]> (w_files w)) w).
Proof.
  induction items as [|it rest IH]; intros content Hfit Henc.
  - simpl. by rewrite app_nil_r.
  - apply Forall_cons in Hfit as [Hit Hrest]. apply Forall_cons in Henc as [Hen Henc].
    cbn [for_each]. rewrite bind_run, (writerow_step _ _ _ _ _ Hit Hen).
    rewrite (IH _ Hrest Henc). cbn [records_at map]. by rewrite <- app_assoc.
Qed.

Lemma save_to_csv_empty (path : pystr) (w : World) :
  save_to_csv [] path w = (Ok tt, add_log InfoCsvEmpty (add_call (CallCsv [] path) w)).
Proof. reflexivity. Qed.

(** The sink up to the loop: the destination is opened and the header
    written. *)
Lemma save_to_csv_begin (first : loc) (rest : list loc) (path : pystr) (w : World) :
  let items := first :: rest in
  let keys := PyDict.keys (default [] (w_heap w !! first)) in
  let wc := add_call (CallCsv items path) w in
  env_open_w (w_env w) path = None ->
  encodable_row keys ->
  save_to_csv items path w =
  match for_each (fun it => d ← deref it; Csv.writerow path keys d) items
          (set_files (<[path := [keys]]> (w_files wc)) wc) with
  | (Ok _, w') => (Ok tt, add_log (InfoCsvSaved (length items) path) w')
  | (Raise e, w') => (Raise e, w')
  end.
Proof.
  intros items keys wc Hopen Hhead. unfold save_to_csv.
  rewrite bind_run. change (modify (add_call (CallCsv items path)) w) with (Ok tt, wc).
  unfold items at 1. cbn iota. rewrite bind_run.
  change (deref first wc) with (Ok (default [] (w_heap w !! first)), wc).
  cbn iota. fold keys.
  rewrite bind_run. unfold Csv.open_w at 1.
  change (w_env wc) with (w_env w). rewrite Hopen.
  rewrite bind_run. unfold Csv.writeheader. rewrite (emit_run _ _ _ Hhead).
  cbn [w_files set_files]. rewrite emit_after_emit.
  change (set_files (<[path:=[] ++ [keys]]> (w_files wc)) (set_files (<[path:=[]]> (w_files wc)) wc))
    with (set_files (<[path:=[keys]]> (w_files wc)) wc).
  rewrite bind_run.
  destruct (for_each _ items _) as [[[]|e] w']; reflexivity.
Qed.

Lemma save_to_csv_run (first : loc) (rest : list loc) (path : pystr) (w : World) :
  let items := first :: rest in
  let keys := PyDict.keys (default [] (w_heap w !! first)) in
  env_open_w (w_env w) path = None ->
  encodable_row keys ->
  Forall (fits keys) (records_at w items) ->
  Forall (fun d => encodable_row (csv_row keys d)) (records_at w items) ->
  save_to_csv items path w =
  (Ok tt,
   add_log (InfoCsvSaved (length items) path)
     (set_files (<[path := keys :: map (csv_row keys) (records_at w items)]> (w_files w))
        (add_call (CallCsv items path) w))).
Proof.
  intros items keys Hopen Hhead Hfit Henc. subst items.
  rewrite (save_to_csv_begin first rest path w Hopen Hhead). fold keys.
  set (wc := add_call (CallCsv (first :: rest) path) w).
  rewrite (writerows_run path keys (first :: rest) wc [keys]);
    [reflexivity | exact Hfit | exact Henc].
Qed.

Lemma csv_step_refl (path : pystr) (w : World) : csv_step path w w.
Proof. by repeat split. Qed.

Lemma csv_step_trans (path : pystr) (w1 w2 w3 : World) :
  csv_step path w1 w2 -> csv_step path w2 w3 -> csv_step path w1 w3.
Proof.
  intros (H1 & H2 & H3 & H4 & H5 & H6 & H7) (G1 & G2 & G3 & G4 & G5 & G6 & G7).
  repeat split; try congruence. intros p Hp. by rewrite G7, H7.
Qed.

Lemma csv_step_set_files (path : pystr) (content : CsvFile) (w : World) :
  csv_step path w (set_files (<[path := content]> (w_files w)) w).
Proof.
  repeat split. intros p Hp. cbn [w_files set_files]. by rewrite lookup_insert_ne.
Qed.

Lemma respects_save_to_csv (items : list loc) (path : pystr) :
  respects (csv_step path) (save_to_csv items path).
Proof.
  pose proof (csv_step_refl path) as Hrefl. pose proof (csv_step_trans path) as Htrans.
  unfold save_to_csv. apply (respects_bind _ Htrans).
  { apply respects_modify. intros w. by repeat split. }
  intros _. destruct items as [|first rest].
  { apply respects_modify. intros w. by repeat split. }
  apply (respects_bind _ Htrans); [by apply respects_gets|]. intros d0.
  apply (respects_bind _ Htrans).
  { intros w r w'. unfold Csv.open_w. destruct (env_open_w _ _); intros [= <- <-];
      [apply csv_step_refl | apply csv_step_set_files]. }
  intros _. apply (respects_bind _ Htrans).
  { unfold Csv.writeheader.
    apply respects_emit; [exact Hrefl | intros w content; apply csv_step_set_files]. }
  intros _. apply (respects_bind _ Htrans).
  - apply (respects_for_each _ Hrefl Htrans). intros it _.
    apply (respects_bind _ Htrans); [by apply respects_gets|]. intros d.
    unfold Csv.writerow. apply (respects_bind _ Htrans); [by apply respects_lift|].
    intros row.
    apply respects_emit; [exact Hrefl | intros w content; apply csv_step_set_files].
  - intros _. apply respects_modify. intros w. by repeat split.
Qed.

(** Once the destination is open and the header written, the header
    stays the first row of the file, however the call ends. *)
Lemma header_kept_refl (path : pystr) (keys : list pystr) (w : World) :
  header_kept path keys w w.
Proof. intros rows H. eauto. Qed.

Lemma header_kept_trans (path : pystr) (keys : list pystr) (w1 w2 w3 : World) :
  header_kept path keys w1 w2 -> header_kept path keys w2 w3 -> header_kept path keys w1 w3.
Proof. intros H12 H23 rows H1. destruct (H12 rows H1) as [rows2 H2]. eauto. Qed.

Lemma header_kept_emit (path : pystr) (keys row : list pystr) :
  respects (header_kept path keys) (Csv.emit path row).
Proof.
  unfold Csv.emit. destruct (forallb Str.encodable row).
  - apply respects_modify. intros w rows Hrows. cbn [w_files set_files].
    rewrite Hrows, lookup_insert_eq. cbn. eauto.
  - apply respects_raise, header_kept_refl.
Qed.

Lemma save_to_csv_header (first : loc) (rest : list loc) (path : pystr) (w w' : World)
    (r : Res unit) :
  let keys := PyDict.keys (default [] (w_heap w !! first)) in
  env_open_w (w_env w) path = None ->
  encodable_row keys ->
  save_to_csv (first :: rest) path w = (r, w') ->
  exists rows, w_files w' !! path = Some (keys :: rows).
Proof.
  intros keys Hopen Hhead. rewrite (save_to_csv_begin first rest path w Hopen Hhead).
  fold keys. set (wc := add_call (CallCsv (first :: rest) path) w).
  set (wh := set_files (<[path := [keys]]> (w_files wc)) wc).
  destruct (for_each _ (first :: rest) wh) as [[[]|e] w1] eqn:Hloop; intros [= _ <-];
    cbn [w_files add_log].
  all: eapply (respects_for_each (header_kept path keys)) in Hloop;
    [ apply (Hloop []); unfold wh; cbn [w_files set_files]; apply lookup_insert_eq
    | apply header_kept_refl
    | apply header_kept_trans
    | intros it _; apply (respects_bind _ (header_kept_trans path keys));
      [apply respects_gets, header_kept_refl|];
      intros d; unfold Csv.writerow;
      apply (respects_bind _ (header_kept_trans path keys));
      [apply respects_lift, header_kept_refl | intros row; apply header_kept_emit] ].
Qed.




(** A lone surrogate in a cell: the codec refuses the row, and the file
    is left with the header and the row before it. *)
Example save_to_csv_lone_surrogate :
  exists w',
    save_to_csv [0; 1; 2]%nat (py "sismos.csv")
      (world_of (sample_env no_environ page_ok (fun _ => None))
         [sample_record "Lima"; surrogate_record; sample_record "Ica"])
    = (Raise (UnicodeEncodeError (py "utf-8")), w')
    /\ w_files w' !! py "sismos.csv" =
       Some [ FIELDS; [py "Lima"; []; py "2024-01-01"; py "4.5"] ]
    /\ w_log w' = [].
Proof. eexists. evaluate. Qed.

(** ** The keyed-store sink *)

Lemma setitem_fresh (k : pystr) (v : Value) (d : Dict) :
  k ∉ PyDict.keys d -> PyDict.setitem k v d = d ++ [(k, v)].
Proof.
  induction d as [|[k' v'] d IH]; intros Hk; [reflexivity|].
  simpl in *. apply not_elem_of_cons in Hk as [Hne Hk].
  unfold Str.eqb. rewrite bool_decide_eq_false_2 by congruence.
  by rewrite IH.
Qed.

Lemma ids_added_refl (h : list Dict) : ids_added h h.
Proof. split; [reflexivity|]. intros l d Hl. by left. Qed.

Lemma ids_added_trans (h1 h2 h3 : list Dict) :
  ids_added h1 h2 -> ids_added h2 h3 -> ids_added h1 h3.
Proof.
  intros [Hlen12 H12] [Hlen23 H23]. split; [congruence|].
  intros l d Hl. destruct (H12 l d Hl) as [H2|(Hid & u & H2)].
  - exact (H23 l d H2).
  - destruct (H23 l _ H2) as [H3|(Hid' & _)].
    + right. eauto.
    + exfalso. apply Hid'. unfold PyDict.keys. rewrite map_app.
      apply elem_of_app. right. simpl. apply list_elem_of_here.
Qed.

Lemma ids_added_store (h : list Dict) (it : loc) (u : pystr) :
  py "id" ∉ PyDict.keys (default [] (h !! it)) ->
  ids_added h (alter (PyDict.setitem (py "id") (VStr u)) it h).
Proof.
  intros Hid. split; [apply length_alter|].
  intros l d Hl. destruct (decide (it = l)) as [Heq|Hne].
  - subst l. right. rewrite Hl in Hid. simpl in Hid. split; [exact Hid|].
    exists u. rewrite list_lookup_alter_eq, Hl. simpl.
    by rewrite setitem_fresh.
  - left. by rewrite list_lookup_alter_ne.
Qed.

(** A change that leaves surroundings, files and heap alone. *)
Lemma ddb_step_frame (w w' : World) :
  w_env w' = w_env w -> w_files w' = w_files w -> w_heap w' = w_heap w ->
  ddb_step w w'.
Proof.
  intros He Hf Hh. unfold ddb_step. rewrite He, Hf, Hh.
  repeat split; apply ids_added_refl.
Qed.

Lemma ddb_step_refl (w : World) : ddb_step w w.
Proof. by apply ddb_step_frame. Qed.

Lemma ddb_step_trans (w1 w2 w3 : World) :
  ddb_step w1 w2 -> ddb_step w2 w3 -> ddb_step w1 w3.
Proof.
  intros (He & Hf & Hh) (He' & Hf' & Hh'). repeat split; try congruence.
  - destruct Hh, Hh'. congruence.
  - destruct (ids_added_trans _ _ _ Hh Hh') as [_ H]. exact H.
Qed.

Lemma preserves_ret {A} (a : A) : preserves (mret a : M A).
Proof. intros w r w' [= <- <-]. apply ddb_step_refl. Qed.

Lemma preserves_raise {A} (e : exn) : preserves (raise e : M A).
Proof. intros w r w' [= <- <-]. apply ddb_step_refl. Qed.

Lemma preserves_gets {A} (f : World -> A) : preserves (gets f).
Proof. intros w r w' [= <- <-]. apply ddb_step_refl. Qed.

Lemma preserves_modify (f : World -> World) :
  (forall w, ddb_step w (f w)) -> preserves (modify f).
Proof. intros Hf w r w' [= <- <-]. apply Hf. Qed.

Lemma preserves_bind {A B} (m : M A) (f : A -> M B) :
  preserves m -> (forall a, preserves (f a)) -> preserves (m ≫= f).
Proof.
  intros Hm Hf w r w' Hrun. rewrite bind_run in Hrun.
  destruct (m w) as [[a|e] w1] eqn:Hmw.
  - eapply ddb_step_trans; [by eapply Hm | by eapply Hf].
  - injection Hrun as <- <-. by eapply Hm.
Qed.

Lemma preserves_try_except {A} (catches : exn -> bool) (m : M A) (h : exn -> M A) :
  preserves m -> (forall e, preserves (h e)) -> preserves (try_except catches m h).
Proof.
  intros Hm Hh w r w' Hrun. unfold try_except in Hrun.
  destruct (m w) as [[a|e] w1] eqn:Hmw.
  - injection Hrun as <- <-. by eapply Hm.
  - destruct (catches e).
    + eapply ddb_step_trans; [by eapply Hm | by eapply Hh].
    + injection Hrun as <- <-. by eapply Hm.
Qed.

Lemma preserves_for_each {A} (body : A -> M unit) (l : list A) :
  (forall x, preserves (body x)) -> preserves (for_each body l).
Proof.
  intros Hbody. induction l as [|x l IH]; simpl.
  - apply preserves_ret.
  - apply preserves_bind; [apply Hbody | intros _; exact IH].
Qed.

Lemma preserves_logger (e : LogEntry) : preserves (logger e).
Proof. apply preserves_modify. intros w. by apply ddb_step_frame. Qed.

Lemma preserves_flush (t : pystr) : preserves (Boto.flush t).
Proof.
  intros w r w' Hrun. unfold Boto.flush in Hrun.
  destruct (env_batch_write_item _ _ _ _); injection Hrun as <- <-;
    by apply ddb_step_frame.
Qed.

Lemma preserves_put_item (t : pystr) (it : loc) : preserves (Boto.put_item t it).
Proof.
  unfold Boto.put_item. apply preserves_bind.
  - apply preserves_modify. intros w. by apply ddb_step_frame.
  - intros _. apply preserves_bind; [apply preserves_gets|].
    intros n. case_bool_decide; [apply preserves_flush | apply preserves_ret].
Qed.

Lemma preserves_drain (fuel : nat) (t : pystr) : preserves (Boto.drain fuel t).
Proof.
  induction fuel as [|fuel IH]; simpl; [apply preserves_ret|].
  apply preserves_bind; [apply preserves_gets|].
  intros n. case_bool_decide; [apply preserves_ret|].
  apply preserves_bind; [apply preserves_flush | intros _; exact IH].
Qed.

Lemma preserves_exit (t : pystr) : preserves (Boto.exit t).
Proof.
  unfold Boto.exit. apply preserves_bind; [apply preserves_gets|].
  intros n. apply preserves_drain.
Qed.

Lemma preserves_then_exit (t : pystr) (body : M unit) :
  preserves body -> preserves (Boto.then_exit t body).
Proof.
  intros Hbody w r w' Hrun. unfold Boto.then_exit in Hrun.
  destruct (body w) as [[[]|e] w1] eqn:Hb; apply Hbody in Hb.
  - eapply ddb_step_trans; [exact Hb | by eapply preserves_exit].
  - destruct (Boto.exit t w1) as [[[]|e'] w2] eqn:He;
      apply preserves_exit in He; injection Hrun as <- <-;
      by eapply ddb_step_trans.
Qed.

Lemma preserves_with_batch_writer (t : pystr) (body : M unit) :
  preserves body -> preserves (Boto.with_batch_writer t body).
Proof.
  intros Hbody. unfold Boto.with_batch_writer. apply preserves_bind.
  - apply preserves_modify. intros w. by apply ddb_step_frame.
  - intros _. by apply preserves_then_exit.
Qed.

Lemma preserves_put_with_id (t : pystr) (it : loc) : preserves (put_with_id t it).
Proof.
  intros w r w' Hrun. unfold put_with_id in Hrun.
  rewrite bind_run in Hrun. unfold deref at 1, gets in Hrun.
  rewrite bind_run in Hrun.
  unfold PyDict.contains in Hrun. case_bool_decide as Hid; simpl in Hrun.
  - eapply preserves_put_item. exact Hrun.
  - eapply ddb_step_trans; [|eapply preserves_put_item; exact Hrun].
    repeat split; try reflexivity; simpl; by apply ids_added_store.
Qed.

Lemma preserves_save_to_dynamodb (items : list loc) (t : pystr) :
  preserves (save_to_dynamodb items t).
Proof.
  unfold save_to_dynamodb. apply preserves_bind.
  { apply preserves_modify. intros w. by apply ddb_step_frame. }
  intros _. destruct items as [|first rest].
  { apply preserves_bind; [apply preserves_logger | intros _; apply preserves_ret]. }
  apply preserves_bind.
  { intros w r w'. unfold Boto.resource_table.
    destruct (env_boto_resource _); intros [= <- <-]; apply ddb_step_refl. }
  intros _. apply preserves_try_except.
  - apply preserves_bind.
    + apply preserves_with_batch_writer, preserves_for_each, preserves_put_with_id.
    + intros _. apply preserves_bind; [apply preserves_logger | intros _; apply preserves_ret].
  - intros e. apply preserves_bind; [apply preserves_logger | intros _; apply preserves_ret].
Qed.

(** The first turn of the loop on a record without identifier: the next
    identifier goes into the record, which is buffered, not yet sent. *)
Lemma put_with_id_first (t : pystr) (first : loc) (w : World) (d : Dict) :
  w_heap w !! first = Some d ->
  py "id" ∉ PyDict.keys d ->
  w_batch w = [] ->
  exists wA,
    put_with_id t first w = (Ok tt, wA)
    /\ w_heap wA !! first = Some (d ++ [(py "id", VStr (env_uuid4 (w_env w) (w_uuids w)))])
    /\ ddb_step w wA.
Proof.
  intros Hl Hid Hb. eexists. split; [|split].
  - unfold put_with_id. rewrite bind_run. unfold deref, gets. rewrite Hl.
    cbn [default from_option id]. unfold PyDict.contains.
    rewrite bool_decide_eq_false_2 by exact Hid. cbn [negb].
    rewrite !bind_run. unfold uuid4, store_item, modify. cbn beta iota.
    unfold Boto.put_item. rewrite bind_run. unfold modify. cbn beta iota.
    rewrite bind_run. cbn beta iota. cbn [w_batch set_batch set_heap next_uuid].
    rewrite Hb. cbn [app]. unfold gets. cbn beta iota. cbn [w_batch set_batch length].
    rewrite bool_decide_eq_false_2 by (unfold Boto.flush_amount; lia).
    reflexivity.
  - simpl. rewrite list_lookup_alter_eq, Hl. simpl. by rewrite setitem_fresh.
  - repeat split; try reflexivity; simpl.
    + apply length_alter.
    + apply ids_added_store. by rewrite Hl.
Qed.

Lemma then_exit_bind_ok {A} (t : pystr) (m : M A) (f : A -> M unit) (w wA : World) (a : A) :
  m w = (Ok a, wA) -> Boto.then_exit t (m ≫= f) w = Boto.then_exit t (f a) wA.
Proof. intros H. unfold Boto.then_exit. by rewrite (bind_ok _ _ _ _ _ H). Qed.

Lemma ids_added_keeps_id (h h' : list Dict) (l : loc) (d : Dict) :
  ids_added h h' -> h !! l = Some d -> py "id" ∈ PyDict.keys d -> h' !! l = Some d.
Proof.
  intros [_ H] Hl Hid. destruct (H l d Hl) as [H'|(Hno & _)]; [exact H'|].
  by destruct Hno.
Qed.

(** Once the keyed-store sink has got past [boto3.resource], the first
    record carries its new identifier, however the call ends. *)
Lemma save_to_dynamodb_first_id (first : loc) (rest : list loc) (t : pystr)
    (w w1 : World) (d : Dict) (r : Res bool) :
  w_heap w !! first = Some d ->
  py "id" ∉ PyDict.keys d ->
  env_boto_resource (w_env w) = None ->
  save_to_dynamodb (first :: rest) t w = (r, w1) ->
  w_heap w1 !! first = Some (d ++ [(py "id", VStr (env_uuid4 (w_env w) (w_uuids w)))]).
Proof.
  intros Hl Hid Hres Hrun. unfold save_to_dynamodb in Hrun.
  rewrite bind_run in Hrun. cbn [modify] in Hrun.
  set (wc := add_call (CallDdb (first :: rest) t) w) in *.
  rewrite bind_run in Hrun. unfold Boto.resource_table at 1 in Hrun.
  change (w_env wc) with (w_env w) in Hrun. rewrite Hres in Hrun.
  destruct (put_with_id_first t first (set_batch [] wc) d Hl Hid eq_refl)
    as (wA & HA & HlA & _).
  change (env_uuid4 (w_env (set_batch [] wc)) (w_uuids (set_batch [] wc)))
    with (env_uuid4 (w_env w) (w_uuids w)) in HlA.
  set (rest_of_try :=
         (Boto.then_exit t (for_each (put_with_id t) rest) ≫= λ _ : (),
            logger (InfoDdbSaved (length (first :: rest)) t) ≫= λ _ : (), mret true)).
  set (handler := fun e : exn => logger (ExcDdb e) ≫= λ _ : (), mret false).
  assert (Hsame : try_except is_ClientError rest_of_try handler wA = (r, w1)).
  { rewrite <- Hrun. unfold try_except, rest_of_try. rewrite !bind_run.
    unfold Boto.with_batch_writer. rewrite bind_run. cbn [modify].
    cbn [for_each]. by rewrite (then_exit_bind_ok _ _ _ _ _ _ HA). }
  assert (Hstep : ddb_step wA w1).
  { revert Hsame. apply preserves_try_except.
    - apply preserves_bind.
      + apply preserves_then_exit, preserves_for_each, preserves_put_with_id.
      + intros _. apply preserves_bind; [apply preserves_logger | intros _; apply preserves_ret].
    - intros e. apply preserves_bind; [apply preserves_logger | intros _; apply preserves_ret]. }
  destruct Hstep as (_ & _ & Hids).
  eapply ids_added_keeps_id; [exact Hids | exact HlA |].
  unfold PyDict.keys. rewrite map_app. apply elem_of_app. right. apply list_elem_of_here.
Qed.

Lemma save_to_dynamodb_empty (t : pystr) (w : World) :
  save_to_dynamodb [] t w = (Ok true, add_log InfoDdbEmpty (add_call (CallDdb [] t) w)).
Proof. reflexivity. Qed.

Lemma save_to_dynamodb_no_resource (first : loc) (rest : list loc) (t : pystr)
    (w : World) (e : exn) :
  env_boto_resource (w_env w) = Some e ->
  save_to_dynamodb (first :: rest) t w = (Raise e, add_call (CallDdb (first :: rest) t) w).
Proof.
  intros Hres. unfold save_to_dynamodb. rewrite bind_run. cbn [modify].
  rewrite bind_run. unfold Boto.resource_table.
  change (w_env (add_call (CallDdb (first :: rest) t) w)) with (w_env w).
  by rewrite Hres.
Qed.

(** ** The persistence policy *)

(** Lines 113 to 119, case by case. *)
Lemma persist_items_run (items : list loc) (w : World) :
  persist_items items w =
  match env_environ (w_env w) (py "DDB_TABLE") with
  | Some t =>
      if Str.truthy t then
        match save_to_dynamodb items t w with
        | (Ok true, w1) => (Ok tt, w1)
        | (Ok false, w1) => save_to_csv items (csv_path w1) w1
        | (Raise e, w1) => (Raise e, w1)
        end
      else save_to_csv items (csv_path w) w
  | None => save_to_csv items (csv_path w) w
  end.
Proof.
  unfold persist_items. rewrite bind_run. unfold environ_get at 1, gets.
  destruct (env_environ (w_env w) (py "DDB_TABLE")) as [t|]; [|reflexivity].
  cbn [from_option]. destruct (Str.truthy t); [|reflexivity].
  rewrite bind_run. destruct (save_to_dynamodb items t w) as [[[]|e] w1]; reflexivity.
Qed.

Lemma id_not_a_field : py "id" ∉ FIELDS.
Proof. by apply (bool_decide_unpack (py "id" ∉ FIELDS)). Qed.

Lemma fields_fit_with_id (h h' : list Dict) (l : loc) :
  ids_added h h' ->
  PyDict.keys (default [] (h !! l)) = FIELDS ->
  fits (FIELDS ++ [py "id"]) (default [] (h' !! l)).
Proof.
  intros [_ Hids] Hkeys. destruct (h !! l) as [d|] eqn:Hl; [|discriminate].
  simpl in Hkeys. intros k Hk.
  destruct (Hids l d Hl) as [H' | (_ & u & H')]; rewrite H' in Hk; simpl in Hk.
  - rewrite Hkeys in Hk. apply elem_of_app. by left.
  - unfold PyDict.keys in Hk. rewrite map_app in Hk. fold (PyDict.keys d) in Hk.
    by rewrite Hkeys in Hk.
Qed.



Example throttled_file :
  exists w2,
    persist_items [0; 1]%nat throttled_world = (Ok tt, w2)
    /\ w_files w2 !! py "sismos.csv" =
       Some [ [py "referencia"; py "reporte_url"; py "fecha_hora"; py "magnitud"; py "id"];
              [py "Lima"; []; py "2024-01-01"; py "4.5"; py "uuid-0"];
              [py "Ica"; []; py "2024-01-01"; py "4.5"; py "uuid-1"] ]
    /\ w_calls w2 = [CallDdb [0; 1]%nat (py "sismos"); CallCsv [0; 1]%nat (py "sismos.csv")]
    /\ w_log w2 = [ ExcDdb (ClientError (py "ProvisionedThroughputExceededException"));
                    InfoCsvSaved 2 (py "sismos.csv") ].
Proof. eexists. evaluate. Qed.

(** A batch that fails when the buffer fills up: the first twenty-five
    records have their identifier, the last one was not reached, and
    the file of the fallback has the column [id] with an empty cell in
    its last row. *)
Example partial_batch :
  exists w2 rows,
    persist_items (seq 0 26) many_world = (Ok tt, w2)
    /\ w_ddb_calls w2 = 1%nat
    /\ w_files w2 !! py "sismos.csv" = Some ((FIELDS ++ [py "id"]) :: rows)
    /\ rows !! 0%nat = Some [py "Lima"; []; py "2024-01-01"; py "4.5"; py "uuid-0"]
    /\ rows !! 25%nat = Some [py "Lima"; []; py "2024-01-01"; py "4.5"; []].
Proof. eexists _, _. evaluate. Qed.

(** C3, at a failing input. With two records to write and a table whose
    endpoint cannot be reached, the batch write raises
    [EndpointConnectionError], which is no [ClientError]: the
    keyed-store sink raises it instead of returning [False]. *)
Theorem save_to_dynamodb_unreachable :
  exists w',
    save_to_dynamodb [0; 1]%nat (py "sismos") unreachable_world
    = (Raise (BotoCoreError (py "EndpointConnectionError")), w')
    /\ w_log w' = [].
Proof. eexists. evaluate. Qed.

(** C2, at a failing input. With [DDB_TABLE] set and the endpoint of the
    table out of reach, the keyed-store sink is tried and fails, yet
    the tabular sink is never invoked and no file is written: the
    handler's persistence step ends with the exception of the batch
    write, which is no failure of the tabular sink. *)
Theorem persist_items_unreachable :
  exists w',
    persist_items [0; 1]%nat unreachable_world
    = (Raise (BotoCoreError (py "EndpointConnectionError")), w')
    /\ w_calls w' = [CallDdb [0; 1]%nat (py "sismos")]
    /\ w_files w' = ∅.
Proof. eexists. evaluate. Qed.

(** A whole run of the handler without a table: the three rows of the
    sample page, the last of them without any cell, end up in the file. *)
Example lambda_handler_demo :
  exists w',
    lambda_handler sample_parser sample_urljoin sample_int
      (world_of (sample_env no_environ page_ok (fun _ => None)) [])
    = (Ok (200, [0; 1; 2]%nat), w')
    /\ w_files w' !! py "sismos.csv" =
       Some [ FIELDS;
              [ py "Lima , 10km"; py "https://ultimosismo.igp.gob.pe/reporte/123";
                py "2024-01-01 10:00"; py "4.5" ];
              [ py "Ica"; []; py "2024-01-02"; [] ];
              [ []; []; []; [] ] ]
    /\ w_calls w' = [CallCsv [0; 1; 2]%nat (py "sismos.csv")].
Proof. eexists. evaluate. Qed.

(** The policy where the keyed-store sink answers: tried first when a
    table is configured; when it returns [True] the tabular sink does
    not run; when it returns [False] or no table is configured, the
    tabular sink runs once, on the same addresses. *)
Lemma persist_items_policy (items : list loc) (w : World) :
  (forall t w1,
     env_environ (w_env w) (py "DDB_TABLE") = Some t -> t <> [] ->
     save_to_dynamodb items t w = (Ok true, w1) ->
     persist_items items w = (Ok tt, w1))
  /\ (forall t w1,
        env_environ (w_env w) (py "DDB_TABLE") = Some t -> t <> [] ->
        save_to_dynamodb items t w = (Ok false, w1) ->
        persist_items items w = save_to_csv items (csv_path w1) w1)
  /\ (env_environ (w_env w) (py "DDB_TABLE") = None
      \/ env_environ (w_env w) (py "DDB_TABLE") = Some [] ->
      persist_items items w = save_to_csv items (csv_path w) w).
Proof.
  rewrite persist_items_run. split; [|split].
  - intros t w1 -> Ht ->. destruct t; [done|]. reflexivity.
  - intros t w1 -> Ht ->. destruct t; [done|]. reflexivity.
  - intros [-> | ->]; reflexivity.
Qed.

(** C10, as stated, fails for the collection the fallback receives.  A
    page of twenty-six rows is fetched with [LIMIT] at 30 and a table
    configured that answers the first batch with a throttling error.
    The twenty-six records come back from the fetch pipeline with the
    four fields each; the keyed-store sink has given an identifier to
    the first twenty-five when the batch fails, and returns [False];
    the tabular sink is then handed twenty-six records of which the
    first has five fields and the last has four. *)
Lemma fallback_records_differ :
  exists w1 w2 w3,
    fetch_latest_sismos sample_parser sample_urljoin 30 page_many_world = (Ok (seq 0 26), w1)
    /\ map PyDict.keys (records_at w1 (seq 0 26)) = replicate 26 FIELDS
    /\ save_to_dynamodb (seq 0 26) (py "sismos") w1 = (Ok false, w2)
    /\ PyDict.keys <$> w_heap w2 !! 0%nat = Some (FIELDS ++ [py "id"])
    /\ PyDict.keys <$> w_heap w2 !! 25%nat = Some FIELDS
    /\ lambda_handler sample_parser sample_urljoin sample_int page_many_world
       = (Ok (200, seq 0 26), w3)
    /\ w_calls w3 = [ CallDdb (seq 0 26) (py "sismos");
                      CallCsv (seq 0 26) (py "sismos.csv") ]
    /\ w_heap w3 = w_heap w2.
Proof. eexists _, _, _. evaluate. Qed.

(** C10, amended. Every record the call returns has exactly the fields
    referencia, reporte_url, fecha_hora, magnitud, in this order; so
    the records of the collection it returns agree on their field
    names, and under the header taken from any of them each record
    prints, without a [ValueError], to its own values.  (When the call
    does not return, the parser has raised on a downloaded page.)  The
    persistence policy hands the list it is given, in the world it is
    given, to the first sink it invokes; only the tabular sink invoked
    as fallback sees the records as the keyed-store sink left them. *)
Theorem fetch_records_fields
    (html_parser : pystr -> exn + Node) (urljoin : pystr -> pystr -> exn + pystr)
    (limit : Z) (w : World) :
  let run := fetch_latest_sismos html_parser urljoin limit w in
  match fst run with
  | Ok items =>
      Forall (fun d => PyDict.keys d = FIELDS
                       /\ Csv.dict_to_list FIELDS d = inr (PyDict.values d))
        (records_at (snd run) items)
  | Raise e =>
      exists resp, download urljoin w = inr resp /\ html_parser (text resp) = inl e
  end
  /\ forall items w1,
       persist_items items w1 = save_to_csv items (csv_path w1) w1
       \/ exists t,
            env_environ (w_env w1) (py "DDB_TABLE") = Some t
            /\ persist_items items w1 =
               match save_to_dynamodb items t w1 with
               | (Ok true, w2) => (Ok tt, w2)
               | (Ok false, w2) => save_to_csv items (csv_path w2) w2
               | (Raise e, w2) => (Raise e, w2)
               end.
Proof.
  intros run. subst run. split.
  - rewrite fetch_run. destruct (download urljoin w) as [e|resp] eqn:Hdl.
    { cbn [fst snd]. constructor. }
    destruct (html_parser (text resp)) as [e|soup] eqn:Hparse.
    { cbn [fst]. by exists resp. }
    cbv zeta. cbn [fst snd]. rewrite records_at_extend.
    generalize (slice_to limit (Bs4.select_rows soup)).
    intros rows. induction rows as [|row rest IH]; [constructor|].
    rewrite emitted_cons. destruct (row_item urljoin row) as [e|d] eqn:Hd; [exact IH|].
    constructor; [|exact IH].
    split; [by eapply row_item_keys | by eapply row_item_prints].
  - intros items w1. rewrite persist_items_run.
    destruct (env_environ (w_env w1) (py "DDB_TABLE")) as [t|]; [|by left].
    destruct (Str.truthy t); [|by left].
    right. exists t. split; reflexivity.
Qed.

(** * Further properties *)

(** ** The fetch pipeline, beyond the claims *)

Lemma emitted_or_logged (urljoin : pystr -> pystr -> exn + pystr) (rows : list Node) :
  forall i,
    (length (emitted urljoin rows) + length (row_errors urljoin i rows))%nat = length rows.
Proof.
  induction rows as [|row rest IH]; intros i; [reflexivity|].
  rewrite emitted_cons. cbn [row_errors].
  destruct (row_item urljoin row); cbn [length]; rewrite <- (IH (S i)); lia.
Qed.

(** X1. Whether it returns or raises, the fetch pipeline only allocates
    and logs: it leaves the surroundings, the files, the identifiers,
    the batch buffer and the remote table as they were and keeps every
    dictionary already in the heap.  When it returns, the list holds
    the addresses of the new dictionaries, one per record, in order
    and without repetition; when it raises, it has allocated nothing. *)
Theorem fetch_only_allocates
    (html_parser : pystr -> exn + Node) (urljoin : pystr -> pystr -> exn + pystr)
    (limit : Z) (w : World) :
  let run := fetch_latest_sismos html_parser urljoin limit w in
  exists new,
    same_outside w (snd run)
    /\ w_heap (snd run) = w_heap w ++ new
    /\ match fst run with
       | Ok items =>
           items = seq (length (w_heap w)) (length new)
           /\ NoDup items
           /\ records_at (snd run) items = new
       | Raise _ => new = []
       end.
Proof.
  intros run. subst run. rewrite fetch_run.
  destruct (download urljoin w) as [e|resp].
  - exists []. cbn [fst snd length seq].
    split; [repeat split|]. split; [cbn; by rewrite app_nil_r|].
    split; [reflexivity|]. split; [constructor | reflexivity].
  - destruct (html_parser (text resp)) as [e|soup].
    + exists []. cbn [fst snd]. split; [repeat split|].
      split; [cbn; by rewrite app_nil_r | reflexivity].
    + cbv zeta. eexists. cbn [fst snd]. split; [repeat split|].
      split; [reflexivity|]. split; [reflexivity|].
      split; [apply NoDup_seq | apply records_at_extend].
Qed.

(** X2. On a page that is downloaded and that the parser accepts, every
    row within the limit is accounted for: after the two entries on
    the download and the number of rows found, the log gains one entry
    per dropped row, carrying its index among the rows taken and the
    exception, and the records returned plus the rows dropped are the
    rows taken. *)
Theorem fetch_rows_accounted
    (html_parser : pystr -> exn + Node) (urljoin : pystr -> pystr -> exn + pystr)
    (limit : Z) (w : World) (resp : Response) (soup : Node) :
  download urljoin w = inr resp ->
  html_parser (text resp) = inr soup ->
  let rows := Bs4.select_rows soup in
  let taken := slice_to limit rows in
  exists items w',
    fetch_latest_sismos html_parser urljoin limit w = (Ok items, w')
    /\ w_log w' =
       w_log w ++ InfoFetching (TARGET_URL urljoin) :: InfoRowsFound (length rows)
                :: row_errors urljoin 0 taken
    /\ (length items + length (row_errors urljoin 0 taken))%nat = length taken
    /\ Forall (fun entry => exists i e, entry = ExcRow i e /\ (i < length taken)%nat
                            /\ exists row, taken !! i = Some row
                                           /\ row_item urljoin row = inl e)
         (row_errors urljoin 0 taken).
Proof.
  intros Hdl Hparse rows taken. rewrite (fetch_parsed _ _ _ _ _ _ Hdl Hparse).
  fold rows. fold taken.
  eexists _, _. split; [reflexivity|]. split; [reflexivity|]. split.
  - rewrite length_seq. apply emitted_or_logged.
  - assert (Hgen : forall (rs pre : list Node),
              taken = pre ++ rs ->
              Forall (fun entry => exists i e, entry = ExcRow i e /\ (i < length taken)%nat
                            /\ exists row, taken !! i = Some row
                                           /\ row_item urljoin row = inl e)
                (row_errors urljoin (length pre) rs)).
    { induction rs as [|row rest IH]; intros pre Hpre; [constructor|].
      cbn [row_errors].
      assert (Hrest : taken = (pre ++ [row]) ++ rest) by (by rewrite <- app_assoc).
      specialize (IH _ Hrest). rewrite length_app in IH. cbn [length] in IH.
      rewrite Nat.add_1_r in IH.
      destruct (row_item urljoin row) as [e|d] eqn:Hrow; [|exact IH].
      constructor; [|exact IH].
      exists (length pre), e. split; [reflexivity|]. split.
      - rewrite Hpre, length_app. cbn [length]. lia.
      - exists row. split; [|exact Hrow].
        rewrite Hpre. by apply list_lookup_middle. }
    exact (Hgen taken [] eq_refl).
Qed.

Lemma fetch_rows_accounted_witness :
  exists items w',
    fetch_latest_sismos sample_parser sample_urljoin 5
      (world_of (sample_env no_environ page_bad (fun _ => None)) []) = (Ok items, w')
    /\ w_log w' =
       [] ++ InfoFetching (TARGET_URL sample_urljoin) :: InfoRowsFound 3
          :: row_errors sample_urljoin 0 [demo_row1; demo_row_badlink; demo_row2]
    /\ (length items
        + length (row_errors sample_urljoin 0 [demo_row1; demo_row_badlink; demo_row2]))%nat
       = 3%nat
    /\ Forall (fun entry => exists i e, entry = ExcRow i e /\ (i < 3)%nat
                            /\ exists row,
                                 [demo_row1; demo_row_badlink; demo_row2] !! i = Some row
                                 /\ row_item sample_urljoin row = inl e)
         (row_errors sample_urljoin 0 [demo_row1; demo_row_badlink; demo_row2]).
Proof.
  apply (fetch_rows_accounted sample_parser sample_urljoin 5
           (world_of (sample_env no_environ page_bad (fun _ => None)) [])
           (mkResponse 200 demo_html_bad) demo_soup_bad).
  - reflexivity.
  - reflexivity.
Defined.

(** ** Strings, beyond the claims *)

Lemma last_rev_head {A} (l : list A) : last (rev l) = head l.
Proof. destruct l as [|x l]; [reflexivity|]. simpl. apply last_snoc. Qed.

Lemma head_rev_last {A} (l : list A) : head (rev l) = last l.
Proof. rewrite <- (rev_involutive l) at 2. by rewrite last_rev_head. Qed.

Lemma last_nonempty {A} (l : list A) : l ≠ [] -> exists x, last l = Some x.
Proof.
  intros Hl. destruct (last l) as [x|] eqn:H; [eauto|].
  apply last_None in H. contradiction.
Qed.

Lemma lstrip_head (s : pystr) (c : codepoint) :
  head (Str.lstrip s) = Some c -> Str.isspace c = false.
Proof.
  induction s as [|a s IH]; [discriminate|]. simpl.
  destruct (Str.isspace a) eqn:Ha; [exact IH|]. simpl. congruence.
Qed.

Lemma lstrip_suffix (s : pystr) : exists k, s = k ++ Str.lstrip s.
Proof.
  induction s as [|a s [k IH]]; [by exists []|]. simpl.
  destruct (Str.isspace a).
  - exists (a :: k). simpl. by f_equal.
  - by exists [].
Qed.

Lemma rstrip_prefix (s : pystr) : exists k, s = Str.rstrip s ++ k.
Proof.
  destruct (lstrip_suffix (rev s)) as [k Hk]. exists (rev k). unfold Str.rstrip.
  rewrite <- rev_app_distr, <- Hk. by rewrite rev_involutive.
Qed.

Lemma lstrip_fixed (s : pystr) :
  (forall c, head s = Some c -> Str.isspace c = false) -> Str.lstrip s = s.
Proof.
  destruct s as [|a s]; [reflexivity|]. intros H. simpl.
  by rewrite (H a eq_refl).
Qed.

Lemma strip_trimmed (s : pystr) : trimmed (Str.strip s).
Proof.
  unfold Str.strip. split; intros c Hc.
  - destruct (rstrip_prefix (Str.lstrip s)) as [k Hk].
    apply (lstrip_head s). rewrite Hk.
    destruct (Str.rstrip (Str.lstrip s)); [discriminate|]. exact Hc.
  - unfold Str.rstrip in Hc. rewrite last_rev_head in Hc.
    by apply lstrip_head in Hc.
Qed.

Lemma trimmed_strip (s : pystr) : trimmed s -> Str.strip s = s.
Proof.
  intros [Hhead Hlast]. unfold Str.strip, Str.rstrip.
  rewrite (lstrip_fixed s Hhead), lstrip_fixed.
  - apply rev_involutive.
  - intros c. rewrite head_rev_last. apply Hlast.
Qed.

Lemma one_line_lstrip (s : pystr) : one_line s -> one_line (Str.lstrip s).
Proof.
  unfold one_line. induction 1 as [|a s Ha Hs IH]; [constructor|]. simpl.
  destruct (Str.isspace a); [exact IH | by constructor].
Qed.

Lemma one_line_rev (s : pystr) : one_line s -> one_line (rev s).
Proof.
  unfold one_line. induction 1 as [|a s Ha Hs IH]; [constructor|]. simpl.
  apply Forall_app. split; [exact IH | by repeat constructor].
Qed.

Lemma one_line_strip (s : pystr) : one_line s -> one_line (Str.strip s).
Proof.
  intros H. unfold Str.strip, Str.rstrip.
  by apply one_line_rev, one_line_lstrip, one_line_rev, one_line_lstrip.
Qed.

(** The lines [splitlines] reports hold no line boundary. *)
Lemma splitlines_from_one_line (n : nat) :
  forall s cur, (length s <= n)%nat -> one_line cur ->
    Forall one_line (Str.splitlines_from cur s).
Proof.
  induction n as [|n IH]; intros s cur Hlen Hcur.
  - destruct s; [|simpl in Hlen; lia]. simpl.
    destruct cur; [constructor|]. repeat constructor. by apply one_line_rev.
  - destruct s as [|c s']; simpl.
    { destruct cur; [constructor|]. repeat constructor. by apply one_line_rev. }
    simpl in Hlen. destruct (Str.islinebreak c) eqn:Hc.
    + constructor; [by apply one_line_rev|].
      destruct s' as [|d s''].
      * apply IH; [simpl; lia | constructor].
      * destruct ((c =? 13)%N && (d =? 10)%N).
        -- apply IH; [simpl in Hlen; lia | constructor].
        -- apply IH; [lia | constructor].
    + apply IH; [lia|]. by constructor.
Qed.

(** A text without line boundary is its own single line. *)
Lemma splitlines_from_single (s cur : pystr) :
  one_line s -> rev cur ++ s ≠ [] -> Str.splitlines_from cur s = [rev cur ++ s].
Proof.
  intros Hs. revert cur. induction Hs as [|c s Hc Hs IH]; intros cur Hne; simpl.
  - rewrite app_nil_r in *. destruct cur; [done | reflexivity].
  - rewrite Hc. rewrite IH; simpl; rewrite <- app_assoc; [reflexivity|].
    simpl. intros H. by apply app_eq_nil in H as [_ ?].
Qed.

Lemma join_space_one_line (parts : list pystr) :
  Forall one_line parts -> one_line (Str.join (py " ") parts).
Proof.
  induction 1 as [|p rest Hp Hrest IH]; [constructor|].
  destruct rest as [|q rest]; [exact Hp|].
  change (Str.join (py " ") (p :: q :: rest))
    with (p ++ py " " ++ Str.join (py " ") (q :: rest)).
  unfold one_line in *. apply Forall_app. split; [exact Hp|].
  apply Forall_app. split; [by repeat constructor | exact IH].
Qed.

Lemma join_nonempty (sep : pystr) (parts : list pystr) :
  parts ≠ [] -> Forall (fun p => p ≠ []) parts -> Str.join sep parts ≠ [].
Proof.
  intros Hne Hall. destruct Hall as [|p rest Hp Hrest]; [done|].
  simpl. destruct rest; [exact Hp|].
  intros H. by apply app_eq_nil in H as [? _].
Qed.

Lemma join_trimmed (sep : pystr) (parts : list pystr) :
  Forall (fun p => p ≠ [] /\ trimmed p) parts -> trimmed (Str.join sep parts).
Proof.
  induction 1 as [|p rest [Hp [Hhead Hlast]] Hrest IH]; [by split|].
  simpl. destruct rest as [|q rest]; [by split|].
  split; intros c Hc.
  - destruct p; [done|]. by apply Hhead.
  - destruct IH as [_ IHlast]. apply IHlast.
    rewrite !last_app in Hc.
    destruct (last_nonempty (Str.join sep (q :: rest))) as [x Hx].
    { apply join_nonempty; [done|]. eapply Forall_impl; [exact Hrest|]. by intros ? [? _]. }
    rewrite Hx in Hc |- *. exact Hc.
Qed.

Lemma concat_trimmed (parts : list pystr) :
  Forall (fun p => p ≠ [] /\ trimmed p) parts -> trimmed (concat parts).
Proof.
  induction 1 as [|p rest [Hp [Hhead Hlast]] Hrest IH]; [by split|].
  simpl. split; intros c Hc.
  - destruct p; [done|]. by apply Hhead.
  - rewrite last_app in Hc. destruct IH as [_ IHlast].
    destruct (last (concat rest)) as [x|] eqn:Hx; [by apply IHlast | by apply Hlast].
Qed.

Lemma squash_lines_parts (t : pystr) :
  Forall (fun p => p ≠ [] /\ trimmed p /\ one_line p)
    (map Str.strip
       (filter (fun s => Str.truthy (Str.strip s)) (Str.splitlines t))).
Proof.
  apply Forall_map, Forall_forall. intros s Hs.
  apply list_elem_of_filter in Hs as [Htruthy Hs]. cbn beta.
  split; [|split].
  - destruct (Str.strip s); [done | discriminate].
  - apply strip_trimmed.
  - apply one_line_strip.
    assert (Hnil : one_line []) by constructor.
    pose proof (splitlines_from_one_line (length t) t [] (le_n _) Hnil) as Hall.
    rewrite Forall_forall in Hall. by apply Hall.
Qed.

Lemma squash_lines_one_line (t : pystr) : one_line (squash_lines t).
Proof.
  unfold squash_lines. apply join_space_one_line.
  eapply Forall_impl; [apply squash_lines_parts|]. by intros p (_ & _ & ?).
Qed.

Lemma squash_lines_trimmed (t : pystr) : trimmed (squash_lines t).
Proof.
  unfold squash_lines. apply join_trimmed.
  eapply Forall_impl; [apply squash_lines_parts|]. by intros p (? & ? & _).
Qed.

Lemma squash_lines_fixed (s : pystr) : one_line s -> trimmed s -> squash_lines s = s.
Proof.
  intros Hline Htrim. unfold squash_lines, Str.splitlines.
  destruct s as [|c s]; [reflexivity|].
  rewrite (splitlines_from_single (c :: s) [] Hline) by done. simpl rev. simpl app.
  rewrite filter_cons_True by (rewrite (trimmed_strip _ Htrim); exact I).
  rewrite filter_nil. simpl. by apply trimmed_strip.
Qed.

(** X3. The reference the normalisation produces holds no line boundary
    and neither starts nor ends with whitespace, and normalising it
    again changes nothing. *)
Theorem squash_lines_normal_form (t : pystr) :
  one_line (squash_lines t)
  /\ trimmed (squash_lines t)
  /\ Str.strip (squash_lines t) = squash_lines t
  /\ squash_lines (squash_lines t) = squash_lines t.
Proof.
  pose proof (squash_lines_one_line t) as Hline.
  pose proof (squash_lines_trimmed t) as Htrim.
  split; [exact Hline|]. split; [exact Htrim|].
  split; [by apply trimmed_strip | by apply squash_lines_fixed].
Qed.

Lemma get_text_strip_trimmed (n : Node) : trimmed (Bs4.get_text_strip n).
Proof.
  unfold Bs4.get_text_strip. apply concat_trimmed, Forall_forall. intros p Hp.
  apply list_elem_of_filter in Hp as [Htruthy Hp].
  apply list_elem_of_fmap in Hp as (s & -> & _).
  split; [|apply strip_trimmed]. destruct (Str.strip s); [done | discriminate].
Qed.

Lemma cell_text_trimmed (row : Node) (i : nat) : trimmed (cell_text row i).
Proof.
  unfold cell_text. destruct (_ !! i); simpl; [apply get_text_strip_trimmed | by split].
Qed.

(** X4. In every record the pipeline builds, the reference is a single
    line without leading or trailing whitespace, and the timestamp and
    magnitude texts have no leading or trailing whitespace either. *)
Theorem record_texts_trimmed
    (urljoin : pystr -> pystr -> exn + pystr) (row : Node) (d : Dict) :
  row_item urljoin row = inr d ->
  exists referencia fecha_hora magnitud,
    PyDict.get (py "referencia") d = Some (VStr referencia)
    /\ PyDict.get (py "fecha_hora") d = Some (VStr fecha_hora)
    /\ PyDict.get (py "magnitud") d = Some (VStr magnitud)
    /\ one_line referencia /\ trimmed referencia
    /\ trimmed fecha_hora /\ trimmed magnitud.
Proof.
  intros Hd. apply row_item_fields in Hd as (u & _ & ->).
  exists (squash_lines (cell_text row 0)), (cell_text row 2), (cell_text row 3).
  split; [|split; [|split]].
  1-3: generalize (squash_lines (cell_text row 0)), (cell_text row 2), (cell_text row 3);
       intros a b c; vm_compute; reflexivity.
  split; [apply squash_lines_one_line|]. split; [apply squash_lines_trimmed|].
  split; apply cell_text_trimmed.
Qed.

Lemma record_texts_trimmed_witness :
  exists referencia fecha_hora magnitud,
    PyDict.get (py "referencia")
      [ (py "referencia", VStr (py "Lima , 10km"));
        (py "reporte_url", VStr (py "https://ultimosismo.igp.gob.pe/reporte/123"));
        (py "fecha_hora", VStr (py "2024-01-01 10:00"));
        (py "magnitud", VStr (py "4.5")) ] = Some (VStr referencia)
    /\ PyDict.get (py "fecha_hora")
         [ (py "referencia", VStr (py "Lima , 10km"));
           (py "reporte_url", VStr (py "https://ultimosismo.igp.gob.pe/reporte/123"));
           (py "fecha_hora", VStr (py "2024-01-01 10:00"));
           (py "magnitud", VStr (py "4.5")) ] = Some (VStr fecha_hora)
    /\ PyDict.get (py "magnitud")
         [ (py "referencia", VStr (py "Lima , 10km"));
           (py "reporte_url", VStr (py "https://ultimosismo.igp.gob.pe/reporte/123"));
           (py "fecha_hora", VStr (py "2024-01-01 10:00"));
           (py "magnitud", VStr (py "4.5")) ] = Some (VStr magnitud)
    /\ one_line referencia /\ trimmed referencia
    /\ trimmed fecha_hora /\ trimmed magnitud.
Proof.
  apply (record_texts_trimmed sample_urljoin demo_row1).
  vm_compute. reflexivity.
Defined.

(** ** The link of a row *)

Lemma find_none_iff {A} (f : A -> bool) (l : list A) :
  find f l = None <-> Forall (fun x => f x = false) l.
Proof.
  induction l as [|x l IH]; simpl.
  - split; [constructor | reflexivity].
  - destruct (f x) eqn:Hx.
    + split; [discriminate|]. intros H. apply Forall_cons in H as [H _]. congruence.
    + rewrite IH. split; [by constructor | by intros H; apply Forall_cons in H as [_ ?]].
Qed.

(** X5. The report URL is [None] when the row has no anchor carrying
    [href] below it, and also when the first such anchor has an empty
    [href]: such rows never reach [urljoin] and are always emitted.
    Otherwise the report URL is what [urljoin] makes of the base URL and
    that [href], and the row is dropped exactly when [urljoin] raises. *)
Theorem report_url_of_row (urljoin : pystr -> pystr -> exn + pystr) (row : Node) :
  (Forall (fun n => Bs4.is_tag (py "a") n && Bs4.has_attr (py "href") n = false)
     (Bs4.descendants row)
   \/ row_href row = Some [] ->
   exists d, row_item urljoin row = inr d
             /\ PyDict.get (py "reporte_url") d = Some VNone)
  /\ (forall h, row_href row = Some h -> h <> [] ->
        match urljoin BASE_URL h with
        | inr u => exists d, row_item urljoin row = inr d
                             /\ PyDict.get (py "reporte_url") d = Some (VStr u)
        | inl e => row_item urljoin row = inl e
        end).
Proof.
  split.
  - intros Hnone.
    assert (Hurl : report_url urljoin (row_href row) = inr None).
    { destruct Hnone as [Hnone | ->]; [|reflexivity].
      apply find_none_iff in Hnone. unfold row_href, Bs4.find_with_attr.
      by rewrite Hnone. }
    assert (Hlink : link_resolves urljoin row) by (by exists None).
    apply row_item_returns in Hlink as [d Hd]. exists d. split; [exact Hd|].
    apply row_item_fields in Hd as (u & Hu & ->). rewrite Hurl in Hu.
    injection Hu as <-.
    generalize (squash_lines (cell_text row 0)), (cell_text row 2), (cell_text row 3).
    intros a b c. vm_compute. reflexivity.
  - intros h Hh Hne.
    assert (Hurl : report_url urljoin (row_href row) =
                   match urljoin BASE_URL h with inr u => inr (Some u) | inl e => inl e end).
    { rewrite Hh. destruct h; [done|]. reflexivity. }
    destruct (urljoin BASE_URL h) as [e|u] eqn:Hjoin.
    + by apply row_item_raises.
    + assert (Hlink : link_resolves urljoin row) by (by exists (Some u)).
      apply row_item_returns in Hlink as [d Hd]. exists d. split; [exact Hd|].
      apply row_item_fields in Hd as (u' & Hu & ->). rewrite Hurl in Hu.
      injection Hu as <-.
      generalize (squash_lines (cell_text row 0)), (cell_text row 2), (cell_text row 3).
      intros a b c. generalize u. intros v. vm_compute. reflexivity.
Qed.

Lemma report_url_of_row_witness :
  exists d, row_item sample_urljoin demo_row_emptylink = inr d
            /\ PyDict.get (py "reporte_url") d = Some VNone.
Proof.
  apply (proj1 (report_url_of_row sample_urljoin demo_row_emptylink)).
  right. vm_compute. reflexivity.
Defined.

(** ** The tabular sink, beyond the claims *)

(** X6. Whether it returns or raises, the tabular sink changes no
    record, draws no identifier, makes no remote call and touches no
    file other than its destination. *)
Theorem save_to_csv_frame (items : list loc) (path : pystr) (w : World) :
  let w' := snd (save_to_csv items path w) in
  w_heap w' = w_heap w
  /\ w_uuids w' = w_uuids w
  /\ w_ddb w' = w_ddb w
  /\ w_ddb_calls w' = w_ddb_calls w
  /\ forall p, p ≠ path -> w_files w' !! p = w_files w !! p.
Proof.
  intros w'. subst w'.
  destruct (save_to_csv items path w) as [r w'] eqn:Hrun.
  apply respects_save_to_csv in Hrun as (_ & H2 & H3 & _ & H5 & H6 & H7).
  by repeat split.
Qed.

Lemma save_to_csv_frame_witness :
  w_files (snd (save_to_csv [0; 1]%nat (py "sismos.csv") mixed_world)) !! py "otro.csv"
  = w_files mixed_world !! py "otro.csv".
Proof.
  apply (proj2 (proj2 (proj2 (proj2
           (save_to_csv_frame [0; 1]%nat (py "sismos.csv") mixed_world))))).
  vm_compute. discriminate.
Defined.

(** X7. When the destination cannot be opened, the tabular sink raises
    the exception of [open] and has written and logged nothing. *)
Theorem save_to_csv_open_fails
    (first : loc) (rest : list loc) (path : pystr) (w : World) (e : exn) :
  env_open_w (w_env w) path = Some e ->
  exists w',
    save_to_csv (first :: rest) path w = (Raise e, w')
    /\ w_files w' = w_files w /\ w_log w' = w_log w /\ w_heap w' = w_heap w.
Proof.
  intros Hopen. unfold save_to_csv. rewrite bind_run. cbn [modify]. cbn iota.
  rewrite bind_run. unfold deref at 1, gets. cbn iota. rewrite bind_run.
  unfold Csv.open_w at 1. cbn [w_env add_call]. rewrite Hopen.
  eexists. split; [reflexivity|]. by repeat split.
Qed.

Lemma save_to_csv_open_fails_witness :
  exists w',
    save_to_csv [0; 1]%nat (py "sismos.csv") (world_of locked_env two_records)
    = (Raise (OSError (py "Permission denied")), w')
    /\ w_files w' = w_files (world_of locked_env two_records)
    /\ w_log w' = w_log (world_of locked_env two_records)
    /\ w_heap w' = w_heap (world_of locked_env two_records).
Proof.
  apply (save_to_csv_open_fails 0%nat [1%nat] (py "sismos.csv")
           (world_of locked_env two_records)).
  reflexivity.
Defined.

Lemma dict_to_list_unfit (keys : list pystr) (d : Dict) :
  ~ fits keys d ->
  Csv.dict_to_list keys d = inl (ValueError (py "dict contains fields not in fieldnames")).
Proof.
  intros Hunfit. unfold Csv.dict_to_list.
  destruct (forallb _ _) eqn:Hall; [|reflexivity].
  exfalso. apply Hunfit. intros k Hk.
  rewrite forallb_forall in Hall. apply list_elem_of_In in Hk.
  apply Hall in Hk. by apply bool_decide_eq_true in Hk.
Qed.





(** ** The keyed-store sink, beyond the claims *)

Lemma quiet_refl (w : World) : quiet w w.
Proof. by repeat split. Qed.

Lemma quiet_trans (w1 w2 w3 : World) : quiet w1 w2 -> quiet w2 w3 -> quiet w1 w3.
Proof.
  intros (H1 & H2 & H3 & H4 & H5 & H6) (G1 & G2 & G3 & G4 & G5 & G6).
  repeat split; congruence.
Qed.

Lemma put_with_id_run (t : pystr) (it : loc) (w : World) :
  put_with_id t it w = Boto.put_item t it (with_id it w).
Proof.
  unfold put_with_id, with_id. rewrite bind_run. unfold deref, gets. cbn iota.
  destruct (PyDict.contains (py "id") (default [] (w_heap w !! it))); cbn [negb];
    rewrite bind_run; reflexivity.
Qed.

Lemma with_id_quiet (it : loc) (w : World) :
  quiet w (with_id it w) /\ w_batch (with_id it w) = w_batch w.
Proof. unfold with_id. destruct (PyDict.contains _ _); by repeat split. Qed.

Lemma with_id_ids_added (it : loc) (w : World) :
  ids_added (w_heap w) (w_heap (with_id it w)).
Proof.
  unfold with_id, PyDict.contains. case_bool_decide as Hid.
  - apply ids_added_refl.
  - cbn [w_heap set_heap]. by apply ids_added_store.
Qed.

Lemma with_id_has_id (it : loc) (w : World) :
  is_Some (w_heap w !! it) -> has_id (default [] (w_heap (with_id it w) !! it)).
Proof.
  intros [d Hd]. unfold with_id, PyDict.contains. case_bool_decide as Hid.
  - exact Hid.
  - cbn [w_heap set_heap]. rewrite list_lookup_alter_eq, Hd. cbn.
    rewrite Hd in Hid. cbn in Hid. rewrite setitem_fresh by exact Hid.
    unfold has_id, PyDict.keys. rewrite map_app. apply elem_of_app. right.
    apply list_elem_of_here.
Qed.

Lemma with_id_untouched (it : loc) (w : World) (l : loc) :
  l ≠ it -> w_heap (with_id it w) !! l = w_heap w !! l.
Proof.
  intros Hne. unfold with_id. destruct (PyDict.contains _ _); [reflexivity|].
  cbn [w_heap set_heap]. by rewrite list_lookup_alter_ne.
Qed.

Lemma put_item_buffers (t : pystr) (it : loc) (w : World) :
  (length (w_batch w) + 1 < Boto.flush_amount)%nat ->
  Boto.put_item t it w = (Ok tt, set_batch (w_batch w ++ [it]) w).
Proof.
  intros Hlen. unfold Boto.put_item. rewrite bind_run. cbn [modify]. cbn iota.
  rewrite bind_run. unfold gets. cbn iota. cbn [w_batch set_batch].
  rewrite bool_decide_eq_false_2; [reflexivity|]. rewrite length_app. cbn [length]. lia.
Qed.

Lemma put_item_flushes (t : pystr) (it : loc) (w : World) :
  (length (w_batch w) + 1 = Boto.flush_amount)%nat ->
  Boto.put_item t it w =
  match env_batch_write_item (w_env w) (w_ddb_calls w) t (records_at w (w_batch w ++ [it])) with
  | Some e => (Raise e, ddb_called [] (set_batch [] w))
  | None =>
      (Ok tt, ddb_called [(t, records_at w (w_batch w ++ [it]))] (set_batch [] w))
  end.
Proof.
  intros Hlen. unfold Boto.put_item. rewrite bind_run. cbn [modify]. cbn iota.
  rewrite bind_run. unfold gets. cbn iota. cbn [w_batch set_batch].
  assert (Hfull : length (w_batch w ++ [it]) = Boto.flush_amount).
  { rewrite length_app. cbn [length]. lia. }
  rewrite bool_decide_eq_true_2 by lia.
  unfold Boto.flush. cbn [w_batch set_batch w_env w_heap w_ddb_calls].
  rewrite firstn_all2 by lia. rewrite drop_ge by lia.
  unfold records_at. destruct (env_batch_write_item _ _ _ _); reflexivity.
Qed.

(** While the buffer does not fill up, the loop only buffers. *)
Lemma loop_fills (t : pystr) (items : list loc) :
  forall w,
    (length (w_batch w) + length items < Boto.flush_amount)%nat ->
    exists w',
      for_each (put_with_id t) items w = (Ok tt, w')
      /\ quiet w w' /\ w_batch w' = w_batch w ++ items.
Proof.
  induction items as [|it rest IH]; intros w Hlen.
  - exists w. split; [reflexivity|]. split; [apply quiet_refl | by rewrite app_nil_r].
  - cbn [length] in Hlen. cbn [for_each]. rewrite bind_run, put_with_id_run.
    destruct (with_id_quiet it w) as [Hq Hb].
    rewrite put_item_buffers by (rewrite Hb; lia). cbn iota.
    destruct (IH (set_batch (w_batch (with_id it w) ++ [it]) (with_id it w)))
      as (w' & Hrun & Hq' & Hb').
    { cbn [w_batch set_batch]. rewrite length_app, Hb. cbn [length]. lia. }
    exists w'. split; [exact Hrun|]. split.
    + eapply quiet_trans; [exact Hq|]. eapply quiet_trans; [|exact Hq']. by repeat split.
    + rewrite Hb'. cbn [w_batch set_batch]. by rewrite Hb, <- app_assoc.
Qed.

Lemma flush_run (t : pystr) (w : World) :
  (length (w_batch w) <= Boto.flush_amount)%nat ->
  Boto.flush t w =
  match env_batch_write_item (w_env w) (w_ddb_calls w) t (records_at w (w_batch w)) with
  | Some e => (Raise e, ddb_called [] (set_batch [] w))
  | None => (Ok tt, ddb_called [(t, records_at w (w_batch w))] (set_batch [] w))
  end.
Proof.
  intros Hlen. unfold Boto.flush. rewrite firstn_all2 by lia. rewrite drop_ge by lia.
  unfold records_at. destruct (env_batch_write_item _ _ _ _); reflexivity.
Qed.

Lemma drain_empty (fuel : nat) (t : pystr) (w : World) :
  w_batch w = [] -> Boto.drain fuel t w = (Ok tt, w).
Proof.
  intros Hb. destruct fuel; [reflexivity|]. cbn [Boto.drain].
  rewrite bind_run. unfold gets. cbn iota. rewrite Hb. reflexivity.
Qed.

Lemma exit_empty (t : pystr) (w : World) :
  w_batch w = [] -> Boto.exit t w = (Ok tt, w).
Proof.
  intros Hb. unfold Boto.exit. rewrite bind_run. unfold gets. cbn iota.
  by apply drain_empty.
Qed.

(** Leaving the block with a buffer that is neither empty nor beyond
    one batch makes one call. *)
Lemma exit_run (t : pystr) (w : World) :
  w_batch w ≠ [] ->
  (length (w_batch w) <= Boto.flush_amount)%nat ->
  Boto.exit t w =
  match env_batch_write_item (w_env w) (w_ddb_calls w) t (records_at w (w_batch w)) with
  | Some e => (Raise e, ddb_called [] (set_batch [] w))
  | None => (Ok tt, ddb_called [(t, records_at w (w_batch w))] (set_batch [] w))
  end.
Proof.
  intros Hne Hlen. unfold Boto.exit. rewrite bind_run. unfold gets at 1. cbn iota.
  destruct (w_batch w) as [|l b] eqn:Hb; [done|]. cbn [length Boto.drain].
  rewrite bind_run. unfold gets at 1. cbn iota. rewrite Hb. cbn [length].
  rewrite bool_decide_eq_false_2 by lia. rewrite bind_run.
  rewrite flush_run by (rewrite Hb; exact Hlen). rewrite Hb.
  destruct (env_batch_write_item _ _ _ _); [reflexivity|]. cbn iota.
  by apply drain_empty.
Qed.

(** The loop and the exit of the block when the first remote call
    raises: one call is made, nothing is accepted, and the exception
    leaves the block. *)
Lemma batch_first_call_raises (t : pystr) (items : list loc) (w : World) (e : exn) :
  items ≠ [] ->
  w_batch w = [] ->
  (forall b, env_batch_write_item (w_env w) (w_ddb_calls w) t b = Some e) ->
  exists w',
    Boto.then_exit t (for_each (put_with_id t) items) w = (Raise e, w')
    /\ w_env w' = w_env w /\ w_files w' = w_files w /\ w_log w' = w_log w
    /\ w_calls w' = w_calls w /\ w_ddb w' = w_ddb w
    /\ w_ddb_calls w' = S (w_ddb_calls w).
Proof.
  intros Hne Hb Hfail. unfold Boto.then_exit.
  destruct (decide (length items < 25)%nat) as [Hshort|Hlong].
  - destruct (loop_fills t items w) as (w1 & Hrun & Hq & Hb1).
    { rewrite Hb. unfold Boto.flush_amount. cbn [length]. lia. }
    rewrite Hrun. rewrite Hb in Hb1. cbn [app] in Hb1.
    destruct Hq as (He & Hf & Hl & Hc & Hd & Hn).
    rewrite exit_run; rewrite Hb1; [|done|unfold Boto.flush_amount; lia].
    rewrite He, Hn, Hfail. eexists. split; [reflexivity|].
    cbn. rewrite app_nil_r. repeat split; congruence.
  - rewrite <- (take_drop 24 items).
    destruct (drop 24 items) as [|x post] eqn:Hdrop.
    { exfalso. apply (f_equal length) in Hdrop. rewrite length_drop in Hdrop.
      cbn in Hdrop. lia. }
    rewrite for_each_app.
    destruct (loop_fills t (take 24 items) w) as (w1 & Hrun & Hq & Hb1).
    { rewrite Hb, length_take. unfold Boto.flush_amount. cbn [length]. lia. }
    rewrite Hrun. rewrite Hb in Hb1. cbn [app] in Hb1.
    destruct Hq as (He & Hf & Hl & Hc & Hd & Hn).
    cbn [for_each]. rewrite bind_run, put_with_id_run.
    destruct (with_id_quiet x w1) as [(He' & Hf' & Hl' & Hc' & Hd' & Hn') Hb'].
    rewrite put_item_flushes
      by (rewrite Hb', Hb1, length_take; unfold Boto.flush_amount; lia).
    rewrite He', Hn', He, Hn, Hfail.
    rewrite exit_empty by reflexivity.
    eexists. split; [reflexivity|]. cbn. rewrite app_nil_r. repeat split; congruence.
Qed.

(** X9. When the first remote call answers with an error response of
    the service (a [ClientError], throttling for one), the keyed-store
    sink returns [False] after that single call: nothing was accepted,
    no file is touched, and the log gains the one entry for the
    exception. *)
Theorem save_to_dynamodb_client_error
    (items : list loc) (t : pystr) (w : World) (code : pystr) :
  items ≠ [] ->
  env_boto_resource (w_env w) = None ->
  (forall b, env_batch_write_item (w_env w) (w_ddb_calls w) t b
             = Some (ClientError code)) ->
  exists w',
    save_to_dynamodb items t w = (Ok false, w')
    /\ w_log w' = w_log w ++ [ExcDdb (ClientError code)]
    /\ w_ddb w' = w_ddb w
    /\ w_ddb_calls w' = S (w_ddb_calls w)
    /\ w_files w' = w_files w.
Proof.
  intros Hne Hres Hfail. unfold save_to_dynamodb.
  rewrite bind_run. cbn [modify]. cbn iota.
  set (wc := add_call (CallDdb items t) w).
  destruct items as [|first rest] eqn:Hitems; [done|]. rewrite <- Hitems in *.
  rewrite bind_run. unfold Boto.resource_table at 1.
  change (w_env wc) with (w_env w). rewrite Hres. cbn iota.
  destruct (batch_first_call_raises t items (set_batch [] wc) (ClientError code))
    as (w1 & Hrun & He & Hf & Hl & Hc & Hd & Hn); [by rewrite Hitems | reflexivity | exact Hfail |].
  unfold try_except. rewrite bind_run. unfold Boto.with_batch_writer.
  rewrite bind_run. cbn [modify]. cbn iota. rewrite Hrun. cbn [is_ClientError].
  eexists. split; [reflexivity|]. cbn. rewrite Hl, Hd, Hn, Hf. by repeat split.
Qed.

Lemma save_to_dynamodb_client_error_witness :
  exists w',
    save_to_dynamodb (seq 0 26) (py "sismos") many_world = (Ok false, w')
    /\ w_log w' = w_log many_world
                  ++ [ExcDdb (ClientError (py "ProvisionedThroughputExceededException"))]
    /\ w_ddb w' = w_ddb many_world
    /\ w_ddb_calls w' = S (w_ddb_calls many_world)
    /\ w_files w' = w_files many_world.
Proof.
  apply (save_to_dynamodb_client_error (seq 0 26) (py "sismos") many_world
           (py "ProvisionedThroughputExceededException")).
  - discriminate.
  - reflexivity.
  - reflexivity.
Defined.

Lemma records_at_app (w : World) (a b : list loc) :
  records_at w (a ++ b) = records_at w a ++ records_at w b.
Proof. unfold records_at. apply map_app. Qed.

Lemma has_id_lookup (h : list Dict) (l : loc) :
  has_id (default [] (h !! l)) -> exists d, h !! l = Some d /\ has_id d.
Proof.
  destruct (h !! l) as [d|]; [eauto|]. cbn. unfold has_id. cbn.
  intros H. by apply not_elem_of_nil in H.
Qed.

Lemma records_at_stable (w w' : World) (ls : list loc) :
  ids_added (w_heap w) (w_heap w') ->
  Forall has_id (records_at w ls) ->
  records_at w' ls = records_at w ls.
Proof.
  intros Hids. unfold records_at. induction ls as [|l ls IH]; [reflexivity|].
  cbn [map]. intros Hall. apply Forall_cons in Hall as [Hl Hall].
  rewrite IH by exact Hall. f_equal.
  apply has_id_lookup in Hl as (d & Hd & Hid).
  by rewrite (ids_added_keeps_id _ _ _ _ Hids Hd Hid), Hd.
Qed.

Lemma valid_items_ids_added (w w' : World) (ls : list loc) :
  ids_added (w_heap w) (w_heap w') -> valid_items w ls -> valid_items w' ls.
Proof.
  intros [Hlen _] Hvalid. unfold valid_items in *.
  eapply Forall_impl; [exact Hvalid|]. intros l Hl. cbn beta in *.
  apply lookup_lt_is_Some. apply lookup_lt_is_Some in Hl. lia.
Qed.

(** The loop while every remote call is accepted: full batches go out
    as the buffer fills, in the order of the items, each record with
    its identifier. *)
Lemma loop_sends (t : pystr) (items : list loc) :
  forall w,
    (forall n b, env_batch_write_item (w_env w) n t b = None) ->
    (length (w_batch w) < Boto.flush_amount)%nat ->
    valid_items w items ->
    Forall has_id (records_at w (w_batch w)) ->
    exists w' B,
      for_each (put_with_id t) items w = (Ok tt, w')
      /\ w_env w' = w_env w /\ w_files w' = w_files w
      /\ w_log w' = w_log w /\ w_calls w' = w_calls w
      /\ (length (w_batch w') < Boto.flush_amount)%nat
      /\ w_ddb w' = w_ddb w ++ B
      /\ w_ddb_calls w' = (w_ddb_calls w + length B)%nat
      /\ Forall (fun b => fst b = t /\ length (snd b) = Boto.flush_amount) B
      /\ concat (map snd B) ++ records_at w' (w_batch w')
         = records_at w' (w_batch w ++ items)
      /\ Forall has_id (records_at w' (w_batch w ++ items))
      /\ ids_added (w_heap w) (w_heap w').
Proof.
  induction items as [|it rest IH]; intros w Hok Hlen Hvalid Hids.
  { exists w, []. split; [reflexivity|]. rewrite !app_nil_r. cbn [length map concat app].
    rewrite Nat.add_0_r.
    split; [done|]. split; [done|]. split; [done|]. split; [done|]. split; [done|].
    split; [done|]. split; [done|]. split; [constructor|]. split; [done|].
    split; [done|]. apply ids_added_refl. }
  apply Forall_cons in Hvalid as [Hit Hvalid].
  cbn [for_each]. rewrite bind_run, put_with_id_run.
  set (w1 := with_id it w).
  destruct (with_id_quiet it w) as [(He1 & Hf1 & Hl1 & Hc1 & Hd1 & Hn1) Hb1].
  pose proof (with_id_ids_added it w) as Hids1.
  pose proof (with_id_has_id it w Hit) as Hitid.
  fold w1 in He1, Hf1, Hl1, Hc1, Hd1, Hn1, Hb1, Hids1, Hitid.
  assert (Hbuf1 : Forall has_id (records_at w1 (w_batch w ++ [it]))).
  { rewrite records_at_app. apply Forall_app. split.
    - by rewrite (records_at_stable w w1 _ Hids1 Hids).
    - by repeat constructor. }
  destruct (decide (length (w_batch w) + 1 < Boto.flush_amount)%nat) as [Hroom|Hfull].
  - rewrite put_item_buffers by (rewrite Hb1; exact Hroom). cbn iota.
    set (w2 := set_batch (w_batch w1 ++ [it]) w1).
    destruct (IH w2) as (w' & B & Hrun & He & Hf & Hl & Hc & Hlen' & Hd & Hn & HB & Hcat & Hall & Hadd).
    + intros n b. change (w_env w2) with (w_env w1). rewrite He1. apply Hok.
    + change (w_batch w2) with (w_batch w1 ++ [it]). rewrite Hb1, length_app. cbn [length]. lia.
    + change (valid_items w1 rest). by eapply valid_items_ids_added.
    + change (Forall has_id (records_at w1 (w_batch w1 ++ [it]))). by rewrite Hb1.
    + change (w_env w2) with (w_env w1) in He. change (w_files w2) with (w_files w1) in Hf.
      change (w_log w2) with (w_log w1) in Hl. change (w_calls w2) with (w_calls w1) in Hc.
      change (w_ddb w2) with (w_ddb w1) in Hd.
      change (w_ddb_calls w2) with (w_ddb_calls w1) in Hn.
      change (w_batch w2) with (w_batch w1 ++ [it]) in Hcat, Hall.
      change (w_heap w2) with (w_heap w1) in Hadd.
      rewrite Hb1, <- app_assoc in Hcat, Hall. cbn [app] in Hcat, Hall.
      exists w', B. split; [exact Hrun|].
      split; [congruence|]. split; [congruence|]. split; [congruence|]. split; [congruence|].
      split; [exact Hlen'|]. split; [by rewrite Hd, Hd1|]. split; [by rewrite Hn, Hn1|].
      split; [exact HB|]. split; [exact Hcat|]. split; [exact Hall|].
      by eapply ids_added_trans.
  - assert (Hexact : (length (w_batch w1) + 1 = Boto.flush_amount)%nat) by (rewrite Hb1; lia).
    rewrite (put_item_flushes _ _ _ Hexact), He1, Hok. cbn iota.
    set (R := records_at w1 (w_batch w1 ++ [it])).
    set (w2 := ddb_called [(t, R)] (set_batch [] w1)).
    destruct (IH w2) as (w' & B & Hrun & He & Hf & Hl & Hc & Hlen' & Hd & Hn & HB & Hcat & Hall & Hadd).
    + intros n b. change (w_env w2) with (w_env w1). rewrite He1. apply Hok.
    + cbn. unfold Boto.flush_amount. lia.
    + change (valid_items w1 rest). by eapply valid_items_ids_added.
    + constructor.
    + change (w_env w2) with (w_env w1) in He. change (w_files w2) with (w_files w1) in Hf.
      change (w_log w2) with (w_log w1) in Hl. change (w_calls w2) with (w_calls w1) in Hc.
      change (w_ddb w2) with (w_ddb w1 ++ [(t, R)]) in Hd.
      change (w_ddb_calls w2) with (S (w_ddb_calls w1)) in Hn.
      change (w_batch w2) with (@nil loc) in Hcat, Hall.
      change (w_heap w2) with (w_heap w1) in Hadd.
      cbn [app] in Hcat, Hall.
      assert (HR : records_at w' (w_batch w ++ [it]) = R).
      { subst R. rewrite Hb1. by apply records_at_stable. }
      exists w', ((t, R) :: B). split; [exact Hrun|].
      split; [congruence|]. split; [congruence|]. split; [congruence|]. split; [congruence|].
      split; [exact Hlen'|]. split; [by rewrite Hd, Hd1, <- app_assoc|].
      split; [rewrite Hn, Hn1; cbn [length]; lia|].
      split.
      { constructor; [|exact HB]. split; [reflexivity|]. cbn [snd]. subst R.
        unfold records_at. rewrite length_map, length_app. cbn [length]. exact Hexact. }
      split.
      { cbn [map snd concat]. rewrite <- app_assoc, Hcat.
        replace (w_batch w ++ it :: rest) with ((w_batch w ++ [it]) ++ rest)
          by (by rewrite <- app_assoc).
        by rewrite records_at_app, HR. }
      split.
      { replace (w_batch w ++ it :: rest) with ((w_batch w ++ [it]) ++ rest)
          by (by rewrite <- app_assoc).
        rewrite records_at_app. apply Forall_app. split; [|exact Hall].
        rewrite HR. subst R. by rewrite Hb1. }
      by eapply ids_added_trans.
Qed.

(** The keyed-store sink when every remote call is accepted. *)
Lemma save_to_dynamodb_sends (items : list loc) (t : pystr) (w : World) :
  items ≠ [] ->
  valid_items w items ->
  env_boto_resource (w_env w) = None ->
  (forall n b, env_batch_write_item (w_env w) n t b = None) ->
  exists w' B,
    save_to_dynamodb items t w = (Ok true, w')
    /\ w_env w' = w_env w /\ w_files w' = w_files w
    /\ w_log w' = w_log w ++ [InfoDdbSaved (length items) t]
    /\ w_calls w' = w_calls w ++ [CallDdb items t]
    /\ w_ddb w' = w_ddb w ++ B
    /\ w_ddb_calls w' = (w_ddb_calls w + length B)%nat
    /\ Forall (fun b => fst b = t
                        /\ (1 <= length (snd b) <= Boto.flush_amount)%nat) B
    /\ concat (map snd B) = records_at w' items
    /\ Forall has_id (records_at w' items)
    /\ ids_added (w_heap w) (w_heap w').
Proof.
  intros Hne Hvalid Hres Hok. unfold save_to_dynamodb.
  destruct items as [|first rest]; [done|].
  rewrite bind_run. cbn [modify]. cbn iota.
  set (items := first :: rest) in *.
  set (wc := add_call (CallDdb items t) w).
  rewrite bind_run. unfold Boto.resource_table at 1.
  change (w_env wc) with (w_env w). rewrite Hres. cbn iota.
  destruct (loop_sends t items (set_batch [] wc))
    as (w1 & B & Hrun & He & Hf & Hl & Hc & Hlen & Hd & Hn & HB & Hcat & Hall & Hadd).
  { exact Hok. }
  { cbn. unfold Boto.flush_amount. lia. }
  { exact Hvalid. }
  { constructor. }
  change (w_env (set_batch [] wc)) with (w_env w) in He.
  change (w_files (set_batch [] wc)) with (w_files w) in Hf.
  change (w_log (set_batch [] wc)) with (w_log w) in Hl.
  change (w_calls (set_batch [] wc)) with (w_calls w ++ [CallDdb items t]) in Hc.
  change (w_ddb (set_batch [] wc)) with (w_ddb w) in Hd.
  change (w_ddb_calls (set_batch [] wc)) with (w_ddb_calls w) in Hn.
  change (w_batch (set_batch [] wc)) with (@nil loc) in Hcat, Hall.
  change (w_heap (set_batch [] wc)) with (w_heap w) in Hadd.
  cbn [app] in Hcat, Hall.
  assert (HB' : Forall (fun b : pystr * list Dict =>
                          fst b = t /\ (1 <= length (snd b) <= Boto.flush_amount)%nat) B).
  { eapply Forall_impl; [exact HB|]. intros b [? Hb]. split; [done|].
    rewrite Hb. unfold Boto.flush_amount. lia. }
  unfold try_except. rewrite bind_run. unfold Boto.with_batch_writer.
  rewrite bind_run. cbn [modify]. cbn iota. unfold Boto.then_exit. rewrite Hrun.
  destruct (w_batch w1) as [|l b] eqn:Hb1.
  - rewrite exit_empty by exact Hb1. cbn iota.
    rewrite app_nil_r in Hcat.
    exists (add_log (InfoDdbSaved (length items) t) w1), B.
    split; [reflexivity|]. cbn [w_env w_files w_log w_calls w_ddb w_ddb_calls w_heap add_log].
    split; [exact He|]. split; [exact Hf|]. split; [by rewrite Hl|]. split; [exact Hc|].
    split; [exact Hd|]. split; [exact Hn|]. split; [exact HB'|]. split; [exact Hcat|].
    split; [exact Hall | exact Hadd].
  - rewrite exit_run; rewrite ?Hb1; [|done|lia].
    rewrite He, Hok. cbn iota.
    exists (add_log (InfoDdbSaved (length items) t)
              (ddb_called [(t, records_at w1 (l :: b))] (set_batch [] w1))),
           (B ++ [(t, records_at w1 (l :: b))]).
    split; [reflexivity|].
    cbn [w_env w_files w_log w_calls w_ddb w_ddb_calls w_heap add_log ddb_called set_batch].
    split; [exact He|]. split; [exact Hf|]. split; [by rewrite Hl|]. split; [exact Hc|].
    split; [by rewrite Hd, <- app_assoc|].
    split; [rewrite Hn, length_app; cbn [length]; lia|].
    split.
    { apply Forall_app. split; [exact HB'|].
      constructor; [|constructor]. cbn [snd fst]. split; [reflexivity|].
      unfold records_at. rewrite length_map. cbn [length] in *. lia. }
    split.
    { rewrite map_app, concat_app. cbn [map snd concat]. rewrite app_nil_r.
      exact Hcat. }
    split; [exact Hall | exact Hadd].
Qed.

(** X10. When [boto3] hands out the table and every remote call is
    accepted, the keyed-store sink returns [True]: every record then
    carries an identifier, the records as they now are went out in the
    order of the list, in batches of one to twenty-five, one remote call
    per batch; the records kept all their fields in order (only
    identifiers were added), no file is touched, and the log gains the
    success entry with the number of records. *)
Theorem save_to_dynamodb_all_sent (items : list loc) (t : pystr) (w : World) :
  items ≠ [] ->
  valid_items w items ->
  env_boto_resource (w_env w) = None ->
  (forall n b, env_batch_write_item (w_env w) n t b = None) ->
  exists w' B,
    save_to_dynamodb items t w = (Ok true, w')
    /\ w_files w' = w_files w
    /\ w_log w' = w_log w ++ [InfoDdbSaved (length items) t]
    /\ w_ddb w' = w_ddb w ++ B
    /\ w_ddb_calls w' = (w_ddb_calls w + length B)%nat
    /\ Forall (fun b => fst b = t
                        /\ (1 <= length (snd b) <= Boto.flush_amount)%nat) B
    /\ concat (map snd B) = records_at w' items
    /\ Forall has_id (records_at w' items)
    /\ ids_added (w_heap w) (w_heap w').
Proof.
  intros Hne Hvalid Hres Hok.
  destruct (save_to_dynamodb_sends items t w Hne Hvalid Hres Hok)
    as (w' & B & Hrun & _ & Hf & Hl & _ & Hd & Hn & HB & Hcat & Hall & Hadd).
  exists w', B. by repeat (split; [assumption|]).
Qed.

Lemma save_to_dynamodb_all_sent_witness :
  exists w' B,
    save_to_dynamodb [0; 1]%nat (py "sismos")
      (world_of (sample_env environ_with_table page_ok (fun _ => None)) two_records)
    = (Ok true, w')
    /\ w_files w' = ∅
    /\ w_log w' = [] ++ [InfoDdbSaved 2 (py "sismos")]
    /\ w_ddb w' = [] ++ B
    /\ w_ddb_calls w' = (0 + length B)%nat
    /\ Forall (fun b => fst b = py "sismos"
                        /\ (1 <= length (snd b) <= Boto.flush_amount)%nat) B
    /\ concat (map snd B) = records_at w' [0; 1]%nat
    /\ Forall has_id (records_at w' [0; 1]%nat)
    /\ ids_added two_records (w_heap w').
Proof.
  apply (save_to_dynamodb_all_sent [0; 1]%nat (py "sismos")
           (world_of (sample_env environ_with_table page_ok (fun _ => None)) two_records)).
  - discriminate.
  - repeat constructor; by eexists.
  - reflexivity.
  - intros n b. reflexivity.
Defined.

Example all_sent_demo :
  exists w',
    save_to_dynamodb [0; 1]%nat (py "sismos")
      (world_of (sample_env environ_with_table page_ok (fun _ => None)) two_records)
    = (Ok true, w')
    /\ w_ddb w' =
       [ (py "sismos",
          [ sample_record "Lima" ++ [(py "id", VStr (py "uuid-0"))];
            sample_record "Ica" ++ [(py "id", VStr (py "uuid-1"))] ]) ]
    /\ w_ddb_calls w' = 1%nat.
Proof. eexists. evaluate. Qed.

Section HeapAt.

Variable l : loc.

#[local] Abbreviation same_at := (heap_same_at l).

Lemma same_at_refl (w : World) : same_at w w.
Proof. reflexivity. Qed.

Lemma same_at_trans (w1 w2 w3 : World) : same_at w1 w2 -> same_at w2 w3 -> same_at w1 w3.
Proof. unfold heap_same_at. congruence. Qed.

Lemma same_at_flush (t : pystr) : respects same_at (Boto.flush t).
Proof.
  intros w r w'. unfold Boto.flush.
  destruct (env_batch_write_item _ _ _ _); intros [= <- <-]; reflexivity.
Qed.

Lemma same_at_put_item (t : pystr) (it : loc) : respects same_at (Boto.put_item t it).
Proof.
  unfold Boto.put_item. apply (respects_bind _ same_at_trans).
  - apply respects_modify. reflexivity.
  - intros _. apply (respects_bind _ same_at_trans); [apply (respects_gets _ same_at_refl)|].
    intros n. case_bool_decide; [apply same_at_flush | apply (respects_ret _ same_at_refl)].
Qed.

Lemma same_at_exit (t : pystr) : respects same_at (Boto.exit t).
Proof.
  unfold Boto.exit. apply (respects_bind _ same_at_trans); [apply (respects_gets _ same_at_refl)|].
  intros n. induction n as [|n IH]; cbn [Boto.drain]; [apply (respects_ret _ same_at_refl)|].
  apply (respects_bind _ same_at_trans); [apply (respects_gets _ same_at_refl)|].
  intros k. case_bool_decide; [apply (respects_ret _ same_at_refl)|].
  apply (respects_bind _ same_at_trans); [apply same_at_flush | intros _; exact IH].
Qed.

Lemma same_at_then_exit (t : pystr) (body : M unit) :
  respects same_at body -> respects same_at (Boto.then_exit t body).
Proof.
  intros Hbody w r w' Hrun. unfold Boto.then_exit in Hrun.
  destruct (body w) as [[[]|e] w1] eqn:Hb; apply Hbody in Hb.
  - eapply same_at_trans; [exact Hb | by eapply same_at_exit].
  - destruct (Boto.exit t w1) as [[[]|e'] w2] eqn:He;
      apply same_at_exit in He; injection Hrun as <- <-;
      by eapply same_at_trans.
Qed.

Lemma same_at_put_with_id (t : pystr) (it : loc) :
  it ≠ l -> respects same_at (put_with_id t it).
Proof.
  intros Hne w r w' Hrun. rewrite put_with_id_run in Hrun.
  eapply same_at_trans; [|eapply same_at_put_item; exact Hrun].
  unfold heap_same_at. by apply with_id_untouched.
Qed.

Lemma same_at_save_to_dynamodb (items : list loc) (t : pystr) :
  l ∉ items -> respects same_at (save_to_dynamodb items t).
Proof.
  intros Hl. unfold save_to_dynamodb. apply (respects_bind _ same_at_trans).
  { apply respects_modify. reflexivity. }
  intros _. destruct items as [|first rest] eqn:Hitems.
  { apply (respects_bind _ same_at_trans); [by apply respects_modify|].
    intros _. apply (respects_ret _ same_at_refl). }
  rewrite <- Hitems in *. apply (respects_bind _ same_at_trans).
  { intros w r w'. unfold Boto.resource_table.
    destruct (env_boto_resource _); intros [= <- <-]; reflexivity. }
  intros _. apply (respects_try_except _ same_at_trans).
  - apply (respects_bind _ same_at_trans).
    + unfold Boto.with_batch_writer. apply (respects_bind _ same_at_trans).
      { apply respects_modify. reflexivity. }
      intros _. apply same_at_then_exit.
      apply (respects_for_each _ same_at_refl same_at_trans).
      intros it Hit. apply same_at_put_with_id. intros ->. contradiction.
    + intros _. apply (respects_bind _ same_at_trans); [by apply respects_modify|].
      intros _. apply (respects_ret _ same_at_refl).
  - intros e. apply (respects_bind _ same_at_trans); [by apply respects_modify|].
    intros _. apply (respects_ret _ same_at_refl).
Qed.

End HeapAt.

(** X11. Whether it returns or raises, the keyed-store sink touches no
    file and no record outside the list it was given; to the records of
    the list it does at most one thing, which is to append an
    identifier to those that had none: every other field keeps its
    value and its place, and an identifier already present stays. *)
Theorem save_to_dynamodb_frame (items : list loc) (t : pystr) (w : World) :
  let w' := snd (save_to_dynamodb items t w) in
  w_files w' = w_files w
  /\ ids_added (w_heap w) (w_heap w')
  /\ untouched items w w'.
Proof.
  intros w'. subst w'. destruct (save_to_dynamodb items t w) as [r w'] eqn:Hrun.
  cbn [snd]. destruct (preserves_save_to_dynamodb _ _ _ _ _ Hrun) as (_ & Hf & Hids).
  split; [exact Hf|]. split; [exact Hids|].
  intros l Hl. by apply (same_at_save_to_dynamodb l items t Hl w r w').
Qed.

(** ** The handler and the script *)

Section HandlerFacts.

Variable html_parser : pystr -> exn + Node.
Variable urljoin : pystr -> pystr -> exn + pystr.
Variable py_int : pystr -> exn + Z.

(** The text [int] is applied to. *)
Lemma lambda_handler_run (w : World) :
  lambda_handler html_parser urljoin py_int w =
  match py_int (default (py "10") (env_environ (w_env w) (py "LIMIT"))) with
  | inl e => (Raise e, w)
  | inr limit =>
      match fetch_latest_sismos html_parser urljoin limit w with
      | (Ok items, w1) =>
          match persist_items items w1 with
          | (Ok _, w2) => (Ok (200, items), w2)
          | (Raise e, w2) => (Raise e, w2)
          end
      | (Raise e, w1) => (Raise e, w1)
      end
  end.
Proof.
  unfold lambda_handler. rewrite bind_run. unfold environ_get_or at 1, gets. cbn iota.
  rewrite bind_run. destruct (py_int _) as [e|limit]; [reflexivity|].
  change (lift (inr limit) w) with (Ok limit, w). cbn iota. rewrite bind_run.
  destruct (fetch_latest_sismos html_parser urljoin limit w) as [[items|e] w1]; [|reflexivity].
  rewrite bind_run. destruct (persist_items items w1) as [[[]|e] w2]; reflexivity.
Qed.

Lemma persist_items_nothing (w : World) :
  exists w',
    persist_items [] w = (Ok tt, w')
    /\ w_files w' = w_files w /\ w_heap w' = w_heap w
    /\ w_ddb w' = w_ddb w /\ w_ddb_calls w' = w_ddb_calls w.
Proof.
  rewrite persist_items_run.
  destruct (env_environ (w_env w) (py "DDB_TABLE")) as [t|].
  - destruct (Str.truthy t).
    + rewrite save_to_dynamodb_empty. eexists. split; [reflexivity|]. by repeat split.
    + rewrite save_to_csv_empty. eexists. split; [reflexivity|]. by repeat split.
  - rewrite save_to_csv_empty. eexists. split; [reflexivity|]. by repeat split.
Qed.

End HandlerFacts.

(** X12. A [LIMIT] that [int] rejects makes the handler raise that
    exception at once: nothing is downloaded, logged or written. *)
Theorem lambda_handler_bad_limit
    (html_parser : pystr -> exn + Node) (urljoin : pystr -> pystr -> exn + pystr)
    (py_int : pystr -> exn + Z) (w : World) (e : exn) :
  py_int (default (py "10") (env_environ (w_env w) (py "LIMIT"))) = inl e ->
  lambda_handler html_parser urljoin py_int w = (Raise e, w).
Proof. intros H. by rewrite lambda_handler_run, H. Qed.

Lemma lambda_handler_bad_limit_witness :
  lambda_handler sample_parser sample_urljoin sample_int
    (world_of (sample_env (fun k => if Str.eqb k (py "LIMIT") then Some (py "diez") else None)
                 page_ok (fun _ => None)) [])
  = (Raise (ValueError (py "invalid literal for int()")),
     world_of (sample_env (fun k => if Str.eqb k (py "LIMIT") then Some (py "diez") else None)
                 page_ok (fun _ => None)) []).
Proof.
  apply (lambda_handler_bad_limit sample_parser sample_urljoin sample_int).
  vm_compute. reflexivity.
Defined.

(** X13. When the download fails, the handler still answers with status
    200 and an empty body, whatever sinks are configured: no file is
    created or changed, no remote call is made, no record exists. *)
Theorem lambda_handler_failed_download
    (html_parser : pystr -> exn + Node) (urljoin : pystr -> pystr -> exn + pystr)
    (py_int : pystr -> exn + Z) (w : World) (limit : Z) (e : exn) :
  py_int (default (py "10") (env_environ (w_env w) (py "LIMIT"))) = inr limit ->
  download urljoin w = inl e ->
  exists w',
    lambda_handler html_parser urljoin py_int w = (Ok (200, []), w')
    /\ w_files w' = w_files w /\ w_heap w' = w_heap w
    /\ w_ddb w' = w_ddb w /\ w_ddb_calls w' = w_ddb_calls w.
Proof.
  intros Hint Hdl. rewrite lambda_handler_run, Hint, fetch_run, Hdl.
  destruct (persist_items_nothing
              (add_log (ExcDownload e) (add_log (InfoFetching (TARGET_URL urljoin)) w)))
    as (w' & Hrun & Hf & Hh & Hd & Hn).
  rewrite Hrun. exists w'. split; [reflexivity|]. by repeat split.
Qed.

Lemma lambda_handler_failed_download_witness :
  exists w',
    lambda_handler sample_parser sample_urljoin sample_int
      (world_of (sample_env environ_with_table (inl (RequestException (py "ConnectTimeout")))
                   throttled) [])
    = (Ok (200, []), w')
    /\ w_files w' = ∅ /\ w_heap w' = []
    /\ w_ddb w' = [] /\ w_ddb_calls w' = 0%nat.
Proof.
  apply (lambda_handler_failed_download sample_parser sample_urljoin sample_int
           (world_of (sample_env environ_with_table
                        (inl (RequestException (py "ConnectTimeout"))) throttled) [])
           10 (RequestException (py "ConnectTimeout"))).
  - vm_compute. reflexivity.
  - reflexivity.
Defined.

Lemma fields_fit (d : Dict) : PyDict.keys d = FIELDS -> fits FIELDS d.
Proof. intros H k Hk. by rewrite H in Hk. Qed.

Lemma valid_items_fresh (ds : list Dict) (es : list LogEntry) (w : World) :
  valid_items (extend_world ds es w) (seq (length (w_heap w)) (length ds)).
Proof.
  unfold valid_items. apply Forall_forall. intros l Hl.
  apply elem_of_seq in Hl. apply lookup_lt_is_Some. cbn. rewrite length_app. lia.
Qed.

(** What a successful keyed-store write made of the fetched records. *)
Lemma ids_given (w1 w' : World) (items : list loc) :
  ids_added (w_heap w1) (w_heap w') ->
  Forall (fun d => PyDict.keys d = FIELDS) (records_at w1 items) ->
  Forall has_id (records_at w' items) ->
  Forall2 (fun d r => exists u, r = d ++ [(py "id", VStr u)])
    (records_at w1 items) (records_at w' items).
Proof.
  intros [_ Hids]. unfold records_at.
  induction items as [|l items IH]; cbn [map]; intros Hkeys Hall; [constructor|].
  apply Forall_cons in Hkeys as [Hk Hkeys]. apply Forall_cons in Hall as [Hid Hall].
  constructor; [|by apply IH].
  destruct (w_heap w1 !! l) as [d|] eqn:Hl; [|vm_compute in Hk; discriminate].
  change (PyDict.keys d = FIELDS) in Hk.
  destruct (Hids l d Hl) as [H' | (_ & u & H')]; rewrite H' in Hid |- *.
  - exfalso. change (py "id" ∈ PyDict.keys d) in Hid. rewrite Hk in Hid.
    by apply id_not_a_field.
  - exists u. reflexivity.
Qed.

Lemma Forall_of_forallb {A} (f : A -> bool) (l : list A) :
  forallb f l = true -> Forall (fun x => f x = true) l.
Proof.
  induction l as [|x l IH]; [constructor|]. cbn [forallb].
  intros H. apply andb_prop in H as [Hx Hl]. constructor; [exact Hx | by apply IH].
Qed.



(** X15. With a table configured, a page that is downloaded and that
    the parser accepts, and a store that accepts every call, the
    handler answers 200 and writes no file: the remote table has
    received, in order, each record built from the rows taken, with an
    identifier appended as its last field. *)
Theorem lambda_handler_stores
    (html_parser : pystr -> exn + Node) (urljoin : pystr -> pystr -> exn + pystr)
    (py_int : pystr -> exn + Z) (w : World) (limit : Z) (resp : Response) (soup : Node)
    (t : pystr) :
  env_environ (w_env w) (py "DDB_TABLE") = Some t ->
  t <> [] ->
  py_int (default (py "10") (env_environ (w_env w) (py "LIMIT"))) = inr limit ->
  download urljoin w = inr resp ->
  html_parser (text resp) = inr soup ->
  env_boto_resource (w_env w) = None ->
  (forall n b, env_batch_write_item (w_env w) n t b = None) ->
  let recs := emitted urljoin (slice_to limit (Bs4.select_rows soup)) in
  exists items w' B,
    lambda_handler html_parser urljoin py_int w = (Ok (200, items), w')
    /\ w_files w' = w_files w
    /\ w_ddb w' = w_ddb w ++ B
    /\ Forall (fun b => fst b = t) B
    /\ Forall2 (fun d r => exists u, r = d ++ [(py "id", VStr u)])
         recs (concat (map snd B)).
Proof.
  intros Htable Ht Hint Hdl Hparse Hres Hok recs.
  rewrite lambda_handler_run, Hint, (fetch_parsed _ _ _ _ _ _ Hdl Hparse).
  cbv beta iota zeta. fold recs.
  set (logs := InfoFetching (TARGET_URL urljoin) :: _).
  set (w1 := extend_world recs logs w).
  set (items := seq (length (w_heap w)) (length recs)).
  pose proof (records_at_extend recs logs w) as Hrecs. fold w1 items in Hrecs.
  pose proof (emitted_keys urljoin (slice_to limit (Bs4.select_rows soup))) as Hkeys.
  fold recs in Hkeys.
  rewrite persist_items_run. change (w_env w1) with (w_env w). rewrite Htable.
  destruct t as [|c t']; [done|]. cbn [Str.truthy]. set (t := c :: t') in *.
  destruct (decide (items = [])) as [Hnil|Hne].
  - rewrite Hnil in Hrecs |- *. rewrite save_to_dynamodb_empty.
    eexists [], _, []. split; [reflexivity|].
    cbn [w_files w_ddb add_log add_call map concat]. rewrite app_nil_r.
    split; [reflexivity|]. split; [reflexivity|]. split; [constructor|].
    rewrite <- Hrecs. constructor.
  - destruct (save_to_dynamodb_sends items t w1 Hne)
      as (w' & B & Hrun & _ & Hf & _ & _ & Hd & _ & HB & Hcat & Hall & Hadd).
    { apply valid_items_fresh. }
    { exact Hres. }
    { exact Hok. }
    rewrite Hrun. exists items, w', B. split; [reflexivity|].
    split; [exact Hf|]. split; [exact Hd|]. split.
    { eapply Forall_impl; [exact HB|]. by intros b [? _]. }
    rewrite Hcat, <- Hrecs. apply ids_given; [exact Hadd| |exact Hall].
    by rewrite Hrecs.
Qed.

Lemma lambda_handler_stores_witness :
  exists items w' B,
    lambda_handler sample_parser sample_urljoin sample_int
      (world_of (sample_env environ_with_table page_ok (fun _ => None)) [])
    = (Ok (200, items), w')
    /\ w_files w' = ∅
    /\ w_ddb w' = [] ++ B
    /\ Forall (fun b => fst b = py "sismos") B
    /\ Forall2 (fun d r => exists u, r = d ++ [(py "id", VStr u)])
         (emitted sample_urljoin (slice_to 10 (Bs4.select_rows demo_soup)))
         (concat (map snd B)).
Proof.
  apply (lambda_handler_stores sample_parser sample_urljoin sample_int
           (world_of (sample_env environ_with_table page_ok (fun _ => None)) [])
           10 (mkResponse 200 demo_html) demo_soup (py "sismos")).
  - reflexivity.
  - discriminate.
  - vm_compute. reflexivity.
  - reflexivity.
  - reflexivity.
  - reflexivity.
  - intros n b. reflexivity.
Defined.

Lemma fetch_env
    (html_parser : pystr -> exn + Node) (urljoin : pystr -> pystr -> exn + pystr)
    (limit : Z) (w w1 : World) (r : Res (list loc)) :
  fetch_latest_sismos html_parser urljoin limit w = (r, w1) -> w_env w1 = w_env w.
Proof.
  rewrite fetch_run. destruct (download urljoin w) as [e|resp];
    [|destruct (html_parser (text resp))]; intros [= <- <-]; reflexivity.
Qed.

Lemma main_persist_agrees (items : list loc) (w : World) :
  env_environ (w_env w) (py "CSV_PATH") = None ->
  main_persist items w = persist_items items w.
Proof.
  intros Hpath. rewrite persist_items_run. unfold main_persist.
  assert (Hcsv : csv_path w = py "sismos.csv") by (unfold csv_path; by rewrite Hpath).
  rewrite bind_run. unfold environ_get at 1, gets. cbn iota.
  destruct (env_environ (w_env w) (py "DDB_TABLE")) as [t|]; [|by rewrite Hcsv].
  destruct (Str.truthy t); [|by rewrite Hcsv].
  rewrite bind_run. destruct (save_to_dynamodb items t w) as [[[]|e] w1] eqn:Hrun;
    [reflexivity| |reflexivity].
  cbn [negb]. destruct (preserves_save_to_dynamodb _ _ _ _ _ Hrun) as (Henv & _ & _).
  unfold csv_path. by rewrite Henv, Hpath.
Qed.

(** X16. Run as a script with neither [LIMIT] nor [CSV_PATH] set, the
    module does what the handler does: same download, same records,
    same sink calls and files, same exceptions; it prints the number of
    records where the handler returns them with status 200. *)
Theorem script_agrees_with_handler
    (html_parser : pystr -> exn + Node) (urljoin : pystr -> pystr -> exn + pystr)
    (py_int : pystr -> exn + Z) (w : World) :
  env_environ (w_env w) (py "LIMIT") = None ->
  env_environ (w_env w) (py "CSV_PATH") = None ->
  py_int (py "10") = inr 10 ->
  main html_parser urljoin w =
  match lambda_handler html_parser urljoin py_int w with
  | (Ok (_, items), w') => (Ok (length items), w')
  | (Raise e, w') => (Raise e, w')
  end.
Proof.
  intros Hlimit Hpath Hint. rewrite lambda_handler_run, Hlimit. cbn [default from_option id].
  rewrite Hint. unfold main. rewrite bind_run.
  destruct (fetch_latest_sismos html_parser urljoin 10 w) as [[items|e] w1] eqn:Hfetch;
    [|reflexivity].
  apply fetch_env in Hfetch. rewrite bind_run.
  rewrite main_persist_agrees by (by rewrite Hfetch).
  destruct (persist_items items w1) as [[[]|e] w2]; reflexivity.
Qed.

Lemma script_agrees_with_handler_witness :
  main sample_parser sample_urljoin
    (world_of (sample_env environ_with_table page_ok throttled) [])
  = match lambda_handler sample_parser sample_urljoin sample_int
            (world_of (sample_env environ_with_table page_ok throttled) []) with
    | (Ok (_, items), w') => (Ok (length items), w')
    | (Raise e, w') => (Raise e, w')
    end.
Proof.
  apply (script_agrees_with_handler sample_parser sample_urljoin sample_int).
  - reflexivity.
  - reflexivity.
  - vm_compute. reflexivity.
Defined.

(** The script never looks at [CSV_PATH]: with a destination configured
    the handler writes there and the script to [sismos.csv]. *)
Example script_ignores_csv_path :
  exists w1 w2,
    main sample_parser sample_urljoin
      (world_of (sample_env (fun k => if Str.eqb k (py "CSV_PATH") then Some (py "out.csv")
                                     else None) page_ok (fun _ => None)) [])
    = (Ok 3%nat, w1)
    /\ dom (w_files w1) = {[ py "sismos.csv" ]}
    /\ lambda_handler sample_parser sample_urljoin sample_int
         (world_of (sample_env (fun k => if Str.eqb k (py "CSV_PATH") then Some (py "out.csv")
                                        else None) page_ok (fun _ => None)) [])
       = (Ok (200, [0; 1; 2]%nat), w2)
    /\ dom (w_files w2) = {[ py "out.csv" ]}.
Proof. eexists _, _. evaluate. Qed.

(** X17. On a page that is downloaded and that the parser accepts, a
    limit of zero gives no record, although the rows were looked up
    and counted; a negative limit does not mean none either: it leaves
    out that many rows at the end of the table and the records are
    those of the rows before them. *)
Theorem fetch_nonpositive_limit
    (html_parser : pystr -> exn + Node) (urljoin : pystr -> pystr -> exn + pystr)
    (limit : Z) (w : World) (resp : Response) (soup : Node) :
  limit <= 0 ->
  download urljoin w = inr resp ->
  html_parser (text resp) = inr soup ->
  let rows := Bs4.select_rows soup in
  exists items w',
    fetch_latest_sismos html_parser urljoin limit w = (Ok items, w')
    /\ records_at w' items =
       emitted urljoin
         (if decide (limit = 0) then []
          else take (length rows - Z.to_nat (- limit)) rows)
    /\ In (InfoRowsFound (length rows)) (w_log w').
Proof.
  intros Hlimit Hdl Hparse rows. rewrite (fetch_parsed _ _ _ _ _ _ Hdl Hparse). fold rows.
  eexists _, _. split; [reflexivity|]. rewrite records_at_extend.
  split.
  - destruct (decide (limit = 0)) as [->|Hne]; [reflexivity|].
    unfold slice_to. rewrite (proj2 (Z.leb_gt 0 limit)) by lia. reflexivity.
  - cbn [w_log extend_world]. apply in_or_app. right. right. left. reflexivity.
Qed.

Lemma fetch_nonpositive_limit_witness :
  exists items w',
    fetch_latest_sismos sample_parser sample_urljoin (-1)
      (world_of (sample_env no_environ page_ok (fun _ => None)) []) = (Ok items, w')
    /\ records_at w' items =
       emitted sample_urljoin
         (if decide (-1 = 0) then []
          else take (length (Bs4.select_rows demo_soup) - Z.to_nat (- -1))
                 (Bs4.select_rows demo_soup))
    /\ In (InfoRowsFound (length (Bs4.select_rows demo_soup))) (w_log w').
Proof.
  apply (fetch_nonpositive_limit sample_parser sample_urljoin (-1)
           (world_of (sample_env no_environ page_ok (fun _ => None)) [])
           (mkResponse 200 demo_html) demo_soup).
  - lia.
  - reflexivity.
  - reflexivity.
Defined.

Example fetch_minus_one :
  exists w',
    fetch_latest_sismos sample_parser sample_urljoin (-1)
      (world_of (sample_env no_environ page_ok (fun _ => None)) []) = (Ok [0; 1]%nat, w').
Proof. eexists. evaluate. Qed.

(** ** The rows selected *)

Lemma Node_induction (P : Node -> Prop) :
  (forall s, P (Text s)) ->
  (forall name attrs kids, Forall P kids -> P (Tag name attrs kids)) ->
  forall n, P n.
Proof.
  intros Htext Htag. fix IH 1. intros [s|name attrs kids]; [apply Htext|].
  apply Htag. induction kids as [|k kids IHkids]; constructor; [apply IH | exact IHkids].
Qed.

Lemma Forall_flat_map {A B} (P : B -> Prop) (f : A -> list B) (l : list A) :
  Forall (fun x => Forall P (f x)) l -> Forall P (flat_map f l).
Proof.
  induction 1 as [|x l Hx Hl IH]; [constructor|]. cbn [flat_map].
  apply Forall_app. by split.
Qed.

Lemma flat_map_nil {A B} (f : A -> list B) (l : list A) :
  Forall (fun x => f x = []) l -> flat_map f l = [].
Proof.
  induction 1 as [|x l Hx Hl IH]; [reflexivity|]. cbn [flat_map]. by rewrite Hx, IH.
Qed.

Lemma select_rows_in_tr (n : Node) :
  forall a b, Forall (fun r => Bs4.is_tag (py "tr") r = true) (Bs4.select_rows_in a b n).
Proof.
  induction n as [s|name attrs kids IH] using Node_induction; intros a b; [constructor|].
  cbn [Bs4.select_rows_in]. apply Forall_app. split.
  - destruct (b && Str.eqb name (py "tr")) eqn:Hhere; [|constructor].
    repeat constructor. cbn [Bs4.is_tag]. by apply andb_prop in Hhere as [_ ?].
  - apply Forall_flat_map. eapply Forall_impl; [exact IH|]. intros k Hk. apply Hk.
Qed.

Lemma below_kid (P : Node -> Prop) (name : pystr) (attrs : list (pystr * pystr))
    (kids : list Node) :
  Forall P (Tag name attrs kids :: Bs4.descendants (Tag name attrs kids)) ->
  P (Tag name attrs kids) /\ Forall (fun k => Forall P (k :: Bs4.descendants k)) kids.
Proof.
  intros H. apply Forall_cons in H as [Hroot H]. split; [exact Hroot|].
  cbn [Bs4.descendants] in H. clear Hroot.
  induction kids as [|k kids IH]; [constructor|].
  cbn [flat_map] in H. apply Forall_app in H as [Hk H].
  constructor; [exact Hk | by apply IH].
Qed.

Lemma select_rows_in_no_tbody (n : Node) :
  forall a,
    Forall (fun d => Bs4.is_tag (py "tbody") d = false) (n :: Bs4.descendants n) ->
    Bs4.select_rows_in a false n = [].
Proof.
  induction n as [s|name attrs kids IH] using Node_induction; intros a Hno; [reflexivity|].
  apply below_kid in Hno as [Hroot Hkids]. cbn [Bs4.is_tag] in Hroot.
  cbn [Bs4.select_rows_in]. rewrite Hroot. cbn [andb orb app].
  rewrite andb_false_r. apply flat_map_nil.
  rewrite Forall_forall in IH, Hkids |- *. intros k Hk. apply (IH k Hk), (Hkids k Hk).
Qed.

Lemma select_rows_in_no_table (n : Node) :
  Forall (fun d => is_data_table d = false) (n :: Bs4.descendants n) ->
  Bs4.select_rows_in false false n = [].
Proof.
  induction n as [s|name attrs kids IH] using Node_induction; intros Hno; [reflexivity|].
  apply below_kid in Hno as [Hroot Hkids]. cbn [is_data_table] in Hroot.
  cbn [Bs4.select_rows_in]. rewrite Hroot. cbn [andb orb app].
  apply flat_map_nil.
  rewrite Forall_forall in IH, Hkids |- *. intros k Hk. apply (IH k Hk), (Hkids k Hk).
Qed.

(** X18. The rows the pipeline works on are [tr] elements only, and a
    document with no [tbody] element, or with no [table] element of
    class [table], has no rows at all; on a page that is downloaded
    and parsed to such a document the call returns no record rather
    than failing: it logs that it found no rows and allocates
    nothing. *)
Theorem select_rows_shape
    (html_parser : pystr -> exn + Node) (urljoin : pystr -> pystr -> exn + pystr)
    (soup : Node) :
  Forall (fun r => Bs4.is_tag (py "tr") r = true) (Bs4.select_rows soup)
  /\ (Forall (fun d => Bs4.is_tag (py "tbody") d = false) (soup :: Bs4.descendants soup) ->
      Bs4.select_rows soup = [])
  /\ (Forall (fun d => is_data_table d = false) (soup :: Bs4.descendants soup) ->
      Bs4.select_rows soup = [])
  /\ (forall limit w resp,
        download urljoin w = inr resp ->
        html_parser (text resp) = inr soup ->
        Forall (fun d => Bs4.is_tag (py "tbody") d = false) (soup :: Bs4.descendants soup)
        \/ Forall (fun d => is_data_table d = false) (soup :: Bs4.descendants soup) ->
        exists w',
          fetch_latest_sismos html_parser urljoin limit w = (Ok [], w')
          /\ w_heap w' = w_heap w
          /\ w_log w' = w_log w ++ [InfoFetching (TARGET_URL urljoin); InfoRowsFound 0]).
Proof.
  split; [apply select_rows_in_tr|]. split; [apply select_rows_in_no_tbody|].
  split; [apply select_rows_in_no_table|].
  intros limit w resp Hdl Hparse Hshape.
  assert (Hrows : Bs4.select_rows soup = []).
  { destruct Hshape as [H|H];
      [by apply select_rows_in_no_tbody | by apply select_rows_in_no_table]. }
  rewrite (fetch_parsed _ _ _ _ _ _ Hdl Hparse), Hrows.
  assert (Hnone : slice_to limit (@nil Node) = []).
  { unfold slice_to. destruct (0 <=? limit); apply take_nil. }
  rewrite Hnone. eexists. split; [reflexivity|].
  cbn. by rewrite app_nil_r.
Qed.

Lemma select_rows_shape_witness :
  exists w',
    fetch_latest_sismos sample_parser sample_urljoin 10
      (world_of (sample_env no_environ page_reshaped (fun _ => None)) []) = (Ok [], w')
    /\ w_heap w' = []
    /\ w_log w' = [] ++ [InfoFetching (TARGET_URL sample_urljoin); InfoRowsFound 0].
Proof.
  apply (proj2 (proj2 (proj2 (select_rows_shape sample_parser sample_urljoin
                                demo_soup_reshaped)))
           10 (world_of (sample_env no_environ page_reshaped (fun _ => None)) [])
           (mkResponse 200 demo_html_reshaped)).
  - reflexivity.
  - reflexivity.
  - right. repeat constructor.
Defined.

(** ** The identifiers drawn *)

Lemma respects_then_exit (R : World -> World -> Prop) (t : pystr) (body : M unit) :
  (forall w1 w2 w3, R w1 w2 -> R w2 w3 -> R w1 w3) ->
  respects R (Boto.exit t) -> respects R body -> respects R (Boto.then_exit t body).
Proof.
  intros Htrans Hexit Hbody w r w' Hrun. unfold Boto.then_exit in Hrun.
  destruct (body w) as [[[]|e] w1] eqn:Hb; apply Hbody in Hb.
  - eapply Htrans; [exact Hb | by eapply Hexit].
  - destruct (Boto.exit t w1) as [[[]|e'] w2] eqn:He;
      apply Hexit in He; injection Hrun as <- <-; by eapply Htrans.
Qed.

Lemma same_records_refl (w : World) : same_records w w.
Proof. by repeat split. Qed.

Lemma same_records_trans (w1 w2 w3 : World) :
  same_records w1 w2 -> same_records w2 w3 -> same_records w1 w3.
Proof. intros (H1 & H2 & H3) (G1 & G2 & G3). repeat split; congruence. Qed.

Lemma same_records_flush (t : pystr) : respects same_records (Boto.flush t).
Proof.
  intros w r w'. unfold Boto.flush.
  destruct (env_batch_write_item _ _ _ _); intros [= <- <-]; by repeat split.
Qed.

Lemma same_records_put_item (t : pystr) (it : loc) :
  respects same_records (Boto.put_item t it).
Proof.
  unfold Boto.put_item. apply (respects_bind _ same_records_trans).
  - apply respects_modify. intros w. by repeat split.
  - intros _. apply (respects_bind _ same_records_trans);
      [apply (respects_gets _ same_records_refl)|].
    intros n. case_bool_decide;
      [apply same_records_flush | apply (respects_ret _ same_records_refl)].
Qed.

Lemma same_records_exit (t : pystr) : respects same_records (Boto.exit t).
Proof.
  unfold Boto.exit. apply (respects_bind _ same_records_trans);
    [apply (respects_gets _ same_records_refl)|].
  intros n. induction n as [|n IH]; cbn [Boto.drain];
    [apply (respects_ret _ same_records_refl)|].
  apply (respects_bind _ same_records_trans); [apply (respects_gets _ same_records_refl)|].
  intros k. case_bool_decide; [apply (respects_ret _ same_records_refl)|].
  apply (respects_bind _ same_records_trans); [apply same_records_flush | intros _; exact IH].
Qed.

Lemma same_at_for_each (l : loc) (t : pystr) (items : list loc) :
  l ∉ items -> respects (heap_same_at l) (for_each (put_with_id t) items).
Proof.
  intros Hl. apply (respects_for_each _ (same_at_refl l) (same_at_trans l)).
  intros it Hit. apply same_at_put_with_id. intros ->. contradiction.
Qed.

Lemma records_at_same_at (w w' : World) (items : list loc) :
  (forall l, l ∈ items -> heap_same_at l w w') -> records_at w' items = records_at w items.
Proof.
  intros H. unfold records_at. apply map_ext_in. intros l Hl.
  apply list_elem_of_In in Hl. by rewrite (H l Hl).
Qed.

(** A completed loop over distinct records without identifier gives
    them the next identifiers, in order. *)
Lemma loop_assigns (t : pystr) (items : list loc) :
  forall w w1,
    NoDup items ->
    valid_items w items ->
    Forall (fun d => ~ has_id d) (records_at w items) ->
    for_each (put_with_id t) items w = (Ok tt, w1) ->
    records_at w1 items = assign_ids (env_uuid4 (w_env w)) (w_uuids w) (records_at w items)
    /\ w_uuids w1 = (w_uuids w + length items)%nat
    /\ w_env w1 = w_env w.
Proof.
  induction items as [|it rest IH]; intros w w1 Hnodup Hvalid Hnoid Hrun.
  { injection Hrun as <-. cbn. by rewrite Nat.add_0_r. }
  apply NoDup_cons in Hnodup as [Hnotin Hnodup].
  apply Forall_cons in Hvalid as [[d Hd] Hvalid].
  cbn [records_at map] in Hnoid. apply Forall_cons in Hnoid as [Hno Hnoid].
  rewrite Hd in Hno. cbn in Hno.
  cbn [for_each] in Hrun. rewrite bind_run, put_with_id_run in Hrun.
  destruct (Boto.put_item t it (with_id it w)) as [[[]|e] w2] eqn:Hput; [|discriminate].
  apply same_records_put_item in Hput as (Hh2 & Hu2 & He2).
  assert (Hwith : with_id it w
                  = set_heap (alter (PyDict.setitem (py "id")
                                       (VStr (env_uuid4 (w_env w) (w_uuids w)))) it (w_heap w))
                      (next_uuid w)).
  { unfold with_id, PyDict.contains. rewrite Hd. cbn [default from_option id].
    by rewrite bool_decide_eq_false_2. }
  rewrite Hwith in Hh2, Hu2, He2. cbn [w_heap w_uuids w_env set_heap next_uuid] in Hh2, Hu2, He2.
  assert (Hrest2 : records_at w2 rest = records_at w rest).
  { apply records_at_same_at. intros l Hl. unfold heap_same_at. rewrite Hh2.
    apply list_lookup_alter_ne. intros ->. contradiction. }
  destruct (IH w2 w1 Hnodup) as (Hrecs & Hu1 & He1).
  - unfold valid_items in *. eapply Forall_impl; [exact Hvalid|]. intros l Hl. cbn beta in *.
    apply lookup_lt_is_Some. apply lookup_lt_is_Some in Hl.
    rewrite Hh2, length_alter. exact Hl.
  - by rewrite Hrest2.
  - exact Hrun.
  - split; [|split; [rewrite Hu1, Hu2; cbn [length]; lia | congruence]].
    cbn [records_at map]. fold (records_at w1 rest). fold (records_at w rest).
    rewrite Hrecs, Hrest2, Hd. cbn [default from_option id].
    unfold assign_ids. rewrite imap_cons. f_equal.
    + pose proof (same_at_for_each it t rest Hnotin w2 _ w1 Hrun) as Hsame.
      unfold heap_same_at in Hsame. rewrite Hsame, Hh2, list_lookup_alter_eq, Hd.
      cbn. rewrite setitem_fresh by exact Hno. by rewrite Nat.add_0_r.
    + apply imap_ext. intros i x _. cbn. rewrite He2, Hu2.
      by replace (S (w_uuids w) + i)%nat with (w_uuids w + S i)%nat by lia.
Qed.

(** X19. When the keyed-store sink returns [True] on distinct records
    none of which had an identifier, the i-th record has got the i-th
    identifier drawn from the generator since the call began, appended
    after its other fields; as many identifiers were drawn as there
    are records. *)
Theorem save_to_dynamodb_fresh_ids (items : list loc) (t : pystr) (w w' : World) :
  NoDup items ->
  valid_items w items ->
  Forall (fun d => ~ has_id d) (records_at w items) ->
  save_to_dynamodb items t w = (Ok true, w') ->
  records_at w' items = assign_ids (env_uuid4 (w_env w)) (w_uuids w) (records_at w items)
  /\ w_uuids w' = (w_uuids w + length items)%nat.
Proof.
  intros Hnodup Hvalid Hnoid Hrun. unfold save_to_dynamodb in Hrun.
  rewrite bind_run in Hrun. cbn [modify] in Hrun. cbn iota in Hrun.
  destruct items as [|first rest].
  { injection Hrun as <-. cbn. by rewrite Nat.add_0_r. }
  set (items := first :: rest) in *.
  set (wc := add_call (CallDdb items t) w) in *.
  rewrite bind_run in Hrun. unfold Boto.resource_table at 1 in Hrun.
  destruct (env_boto_resource (w_env wc)); [discriminate|]. cbn iota in Hrun.
  unfold try_except in Hrun. rewrite bind_run in Hrun.
  unfold Boto.with_batch_writer in Hrun. rewrite bind_run in Hrun.
  cbn [modify] in Hrun. cbn iota in Hrun. unfold Boto.then_exit in Hrun.
  destruct (for_each (put_with_id t) items (set_batch [] wc)) as [[[]|e] w1] eqn:Hloop.
  - destruct (Boto.exit t w1) as [[[]|e] w2] eqn:Hexit.
    + apply same_records_exit in Hexit as (Hh & Hu & He).
      injection Hrun as <-.
      destruct (loop_assigns t items (set_batch [] wc) w1 Hnodup Hvalid Hnoid Hloop)
        as (Hrecs & Hu1 & _).
      change (env_uuid4 (w_env (set_batch [] wc))) with (env_uuid4 (w_env w)) in Hrecs.
      change (w_uuids (set_batch [] wc)) with (w_uuids w) in Hrecs, Hu1.
      change (records_at (set_batch [] wc) items) with (records_at w items) in Hrecs.
      split.
      * rewrite <- Hrecs. unfold records_at. cbn [w_heap add_log]. by rewrite Hh.
      * cbn [w_uuids add_log]. by rewrite Hu, Hu1.
    + destruct (is_ClientError e); discriminate.
  - destruct (Boto.exit t w1) as [[[]|e'] w2]; [destruct (is_ClientError e)|
                                                 destruct (is_ClientError e')];
      discriminate.
Qed.

Lemma save_to_dynamodb_fresh_ids_witness :
  records_at
    (snd (save_to_dynamodb [0; 1]%nat (py "sismos")
            (world_of (sample_env environ_with_table page_ok (fun _ => None)) two_records)))
    [0; 1]%nat
  = assign_ids sample_uuid 0 two_records
  /\ w_uuids
       (snd (save_to_dynamodb [0; 1]%nat (py "sismos")
               (world_of (sample_env environ_with_table page_ok (fun _ => None)) two_records)))
     = (0 + 2)%nat.
Proof.
  apply (save_to_dynamodb_fresh_ids [0; 1]%nat (py "sismos")
           (world_of (sample_env environ_with_table page_ok (fun _ => None)) two_records)).
  - apply (bool_decide_unpack _). vm_compute. exact I.
  - constructor; [by eexists|]. constructor; [by eexists|]. constructor.
  - unfold has_id. apply (bool_decide_unpack _). vm_compute. exact I.
  - vm_compute. reflexivity.
Defined.
